(** * Job construction, compute dispatch and localhost launch of pywren-ibm-cloud

    A shallow embedding of
    - [pywren_ibm_cloud/job/job.py]       (modules [Job] and [CleanJob]),
    - [pywren_ibm_cloud/compute/compute.py] (module [Compute]),
    - [lithops/localhost/localhost.py]    (module [Localhost]),
    with the properties of the specification stated and proved (or refuted)
    over it.

    Python values are an inductive type, dictionaries with a fixed set of keys
    are records, exceptions are an error result, and every call that leaves
    the interpreter (object storage, the local file system, the container
    builder, sub-processes) is an effect performed against an abstract world
    and recorded in a trace. *)

From Stdlib Require Import ZArith String Ascii List Lia.
From stdpp Require Import base option list strings pretty gmap.

Set Warnings "-register-all".

Open Scope Z_scope.
Open Scope string_scope.
Open Scope list_scope.

(** ** Python values, exceptions, results *)

Abbreviation byte := Byte.byte.
Abbreviation bytes := (list Byte.byte).

(** The values that travel through job construction: call arguments, map
    futures, environment values. *)
Inductive PyVal : Type :=
  | VNone
  | VBool (b : bool)
  | VInt (z : Z)
  | VStr (s : string)
  | VList (l : list PyVal)
  | VDict (d : list (string * PyVal))
  | VFuture (call_id : string).

(** A raised exception: its class name and its message. *)
Inductive Exn : Type :=
  | PyExc (kind : string) (msg : string).

Inductive Res (A : Type) : Type :=
  | Ok (a : A)
  | Raise (e : Exn).
Arguments Ok {A} a.
Arguments Raise {A} e.

(** ** Effects: a world, a trace, and an exception-and-state monad *)

Module Eff.
Section Monad.
(** [W] is the state of everything outside the interpreter, [E] the type of
    the calls the program makes to it. *)
Context {W E : Type}.

Inductive Event : Type :=
  | Done (e : E)
  | Failed (e : E) (x : Exn).

Record St : Type := mkSt { world : W; trace : list Event }.

Definition M (A : Type) : Type := St -> Res A * St.

Definition ret {A} (a : A) : M A := fun s => (Ok a, s).

Definition raise {A} (e : Exn) : M A := fun s => (Raise e, s).

Definition bind {A B} (c : M A) (k : A -> M B) : M B :=
  fun s =>
    match c s with
    | (Ok a, s') => k a s'
    | (Raise e, s') => (Raise e, s')
    end.

(** A pure computation that may raise. *)
Definition lift {A} (r : Res A) : M A := fun s => (r, s).

(** A query of the world that changes nothing (os.path.exists, ...). *)
Definition ask {A} (q : W -> A) : M A := fun s => (Ok (q (world s)), s).

(** [perform exec e] makes the call [e]: the world answers with an exception
    or with success, and the call is appended to the trace either way. *)
Definition perform (exec : E -> W -> option Exn * W) (e : E) : M unit :=
  fun s =>
    match exec e (world s) with
    | (None, w') => (Ok tt, mkSt w' (trace s ++ [Done e]))
    | (Some x, w') => (Raise x, mkSt w' (trace s ++ [Failed e x]))
    end.

(** The event [perform exec e] leaves in the trace when run in world [w]. *)
Definition outcome (exec : E -> W -> option Exn * W) (e : E) (w : W) : Event :=
  match fst (exec e w) with
  | None => Done e
  | Some x => Failed e x
  end.

(** try: body finally: cleanup *)
Definition finally {A} (body : M A) (cleanup : M unit) : M A :=
  fun s =>
    match body s with
    | (r, s') =>
        match cleanup s' with
        | (Ok _, s'') => (r, s'')
        | (Raise e, s'') => (Raise e, s'')
        end
    end.

(** for x in l: body x *)
Fixpoint for_each {A} (l : list A) (body : A -> M unit) : M unit :=
  match l with
  | [] => ret tt
  | x :: l' => bind (body x) (fun _ => for_each l' body)
  end.
(** [emits P c]: whatever [c] does, it only appends events satisfying [P]
    to the trace. *)
Definition emits {A} (P : Event -> Prop) (c : M A) : Prop :=
  forall s, exists evs, trace (snd (c s)) = trace s ++ evs /\ Forall P evs.
End Monad.
Arguments Event : clear implicits.
Arguments St : clear implicits.
Arguments M : clear implicits.
End Eff.

Declare Scope eff_scope.
Delimit Scope eff_scope with eff.
Notation "'let!' x ':=' c 'in' k" := (Eff.bind c (fun x => k))
  (at level 10, x pattern, c at level 200, k at level 200,
   format "'[v' 'let!'  x  ':='  c  'in' '/' k ']'") : eff_scope.
Notation "c '>>' k" := (Eff.bind c (fun _ => k))
  (at level 80, right associativity) : eff_scope.

(** ** Watching a run

    A monitor is a state fed with the events of a run, one after the other.
    [holds step c q post]: whatever the world answers, the events [c] appends
    to the trace take the monitor from [q] to a state that [post] relates to
    the result of [c]. *)

Module Watch.
Section Watch.
Context {W E Q : Type}.
Variable step : Q -> Eff.Event E -> Q.

Definition after (q : Q) (evs : list (Eff.Event E)) : Q := fold_left step evs q.

Definition holds {A} (c : Eff.M W E A) (q : Q) (post : Res A -> Q -> Prop) : Prop :=
  forall s, exists evs,
    Eff.trace (snd (c s)) = Eff.trace s ++ evs /\ post (fst (c s)) (after q evs).
End Watch.

Section Precedence.
Context {E : Type}.
Variables is_a is_b : Eff.Event E -> bool.

(** The monitor of "a [b] only after an [a]": whether an [a] has been seen,
    and whether every [b] so far came after one. *)
Definition precede_step (st : bool * bool) (ev : Eff.Event E) : bool * bool :=
  (st.1 || is_a ev, st.2 && (negb (is_b ev) || st.1)).

(** Every [b] among the events has an [a] somewhere before it. *)
Definition preceded (evs : list (Eff.Event E)) : Prop :=
  forall l1 ev l2,
    evs = l1 ++ ev :: l2 -> is_b ev = true -> exists a, In a l1 /\ is_a a = true.
End Precedence.
End Watch.

(** ** Small string helpers shared by the three modules *)

Definition nl : string := String (ascii_of_nat 10) EmptyString.
Definition dquote : string := String (ascii_of_nat 34) EmptyString.

(** sep.join(parts) *)
Fixpoint str_join (sep : string) (parts : list string) : string :=
  match parts with
  | [] => EmptyString
  | [p] => p
  | p :: rest => p +:+ sep +:+ str_join sep rest
  end.

Definition startswith_slash (s : string) : bool :=
  match s with
  | String c _ => Ascii.eqb c "/"
  | EmptyString => false
  end.

Fixpoint endswith_slash (s : string) : bool :=
  match s with
  | EmptyString => false
  | String c EmptyString => Ascii.eqb c "/"
  | String _ rest => endswith_slash rest
  end.

Definition is_empty_str (s : string) : bool :=
  match s with
  | EmptyString => true
  | _ => false
  end.

(** posixpath.join(a, b): an absolute [b] discards [a]; otherwise one
    separator is put between the two unless [a] is empty or already ends
    with one. *)
Definition path_join2 (a b : string) : string :=
  if startswith_slash b then b
  else if is_empty_str a || endswith_slash a then a +:+ b
  else a +:+ "/" +:+ b.

(** A relative, non-empty component that does not end in a separator. *)
Definition plain (c : string) : Prop :=
  startswith_slash c = false /\ is_empty_str c = false /\ endswith_slash c = false.

(** os.path.join(a, *p) *)
Definition path_join (a : string) (p : list string) : string :=
  fold_left path_join2 p a.

(** posixpath.basename(p): what follows the last separator. *)
Fixpoint basename_from (cur : string) (p : string) : string :=
  match p with
  | EmptyString => cur
  | String c rest =>
      if Ascii.eqb c "/" then basename_from EmptyString rest
      else basename_from (cur +:+ String c EmptyString) rest
  end.

Definition basename (p : string) : string := basename_from EmptyString p.

(** s.lstrip("/"), s.rstrip("/") and s.strip("/") *)
Fixpoint lstrip_slash (s : string) : string :=
  match s with
  | String c rest => if Ascii.eqb c "/" then lstrip_slash rest else s
  | EmptyString => EmptyString
  end.

Fixpoint rstrip_slash (s : string) : string :=
  match s with
  | EmptyString => EmptyString
  | String c rest =>
      match rstrip_slash rest with
      | EmptyString => if Ascii.eqb c "/" then EmptyString else String c EmptyString
      | kept => String c kept
      end
  end.

Definition strip_slash (s : string) : string := rstrip_slash (lstrip_slash s).

(** A pure computation that may raise, mapped over a list in order; the
    first failure aborts the whole list. *)
Fixpoint res_mapM {A B} (f : A -> Res B) (l : list A) : Res (list B) :=
  match l with
  | [] => Ok []
  | x :: l' =>
      match f x with
      | Raise e => Raise e
      | Ok y =>
          match res_mapM f l' with
          | Raise e => Raise e
          | Ok ys => Ok (y :: ys)
          end
      end
  end.

(** * pywren_ibm_cloud/job/job.py *)

Module Job.

(** A Python function as job construction sees it: [__name__], the names of
    its declared parameters, and what [inspect.getsource] finds ([None] when
    no source can be retrieved and getsource raises [OSError]). *)
Record Func : Type := mkFunc {
  fn_name : string;
  fn_params : list string;
  fn_source : option string
}.

(** The objects handed to the serializer: [[func] + data]. *)
Inductive PyObj : Type :=
  | OFunc (f : Func)
  | OData (v : PyVal).

(** The keys of [config] that job construction reads.  [config['pywren']]
    always carries [runtime], [runtime_memory] and [runtime_timeout] (they
    are read with [[]]); the others are optional.
    - [cfg_data_limit]: [None] when the key is absent; the number of MiB
      otherwise, [0] standing for a false value (False, 0, None).
    - [cfg_exclude_modules]: value of [.get('exclude_modules', [])], a false
      value being the empty list.
    - [cfg_include_modules]: value of [.get('include_modules', [])], [None]
      for an explicit Python None.
    - [cfg_compute_backend] is carried by the configuration but never read
      by this module. *)
Record Config : Type := mkConfig {
  cfg_runtime : string;
  cfg_runtime_memory : Z;
  cfg_runtime_timeout : Z;
  cfg_data_limit : option Z;
  cfg_exclude_modules : list string;
  cfg_include_modules : option (list string);
  cfg_rabbitmq_monitor : bool;
  cfg_amqp_url : option string;
  cfg_compute_backend : string
}.

(** [host_job_meta] without its wall-clock entries (creation time stamp and
    upload durations are floating-point times and are left out). *)
Record JobMeta : Type := mkJobMeta {
  data_size_bytes : nat;
  func_module_size_bytes : nat
}.

(** The [job_description] dictionary.  Keys assigned late in [_create_job]
    are optional fields: [None] is "key not set (yet)". *)
Record JobDescription : Type := mkJob {
  runtime_name : string;
  runtime_memory : Z;
  execution_timeout : Z;
  function_name : string;
  extra_env : list (string * PyVal);
  total_calls : nat;
  invoke_pool_threads : Z;
  executor_id : string;
  job_id : string;
  data_key : option string;
  data_ranges : option (list (nat * nat));
  func_key : option string;
  metadata : option JobMeta;
  parts_per_object : option (list nat)
}.

Definition set_runtime_name (v : string) (j : JobDescription) : JobDescription :=
  mkJob v (runtime_memory j) (execution_timeout j) (function_name j) (extra_env j)
        (total_calls j) (invoke_pool_threads j) (executor_id j) (job_id j)
        (data_key j) (data_ranges j) (func_key j) (metadata j) (parts_per_object j).

Definition set_data_key (v : string) (j : JobDescription) : JobDescription :=
  mkJob (runtime_name j) (runtime_memory j) (execution_timeout j) (function_name j)
        (extra_env j) (total_calls j) (invoke_pool_threads j) (executor_id j) (job_id j)
        (Some v) (data_ranges j) (func_key j) (metadata j) (parts_per_object j).

Definition set_data_ranges (v : list (nat * nat)) (j : JobDescription) : JobDescription :=
  mkJob (runtime_name j) (runtime_memory j) (execution_timeout j) (function_name j)
        (extra_env j) (total_calls j) (invoke_pool_threads j) (executor_id j) (job_id j)
        (data_key j) (Some v) (func_key j) (metadata j) (parts_per_object j).

Definition set_func_key (v : string) (j : JobDescription) : JobDescription :=
  mkJob (runtime_name j) (runtime_memory j) (execution_timeout j) (function_name j)
        (extra_env j) (total_calls j) (invoke_pool_threads j) (executor_id j) (job_id j)
        (data_key j) (data_ranges j) (Some v) (metadata j) (parts_per_object j).

Definition set_metadata (v : JobMeta) (j : JobDescription) : JobDescription :=
  mkJob (runtime_name j) (runtime_memory j) (execution_timeout j) (function_name j)
        (extra_env j) (total_calls j) (invoke_pool_threads j) (executor_id j) (job_id j)
        (data_key j) (data_ranges j) (func_key j) (Some v) (parts_per_object j).

Definition set_parts_per_object (v : list nat) (j : JobDescription) : JobDescription :=
  mkJob (runtime_name j) (runtime_memory j) (execution_timeout j) (function_name j)
        (extra_env j) (total_calls j) (invoke_pool_threads j) (executor_id j) (job_id j)
        (data_key j) (data_ranges j) (func_key j) (metadata j) (Some v).

(** What [_create_job] returns: the empty list for empty data, the
    dictionary otherwise. *)
Inductive JobResult : Type :=
  | EmptyJob
  | Job (jd : JobDescription).

(** The calls job construction makes outside the interpreter. *)
Inductive Effect : Type :=
  | Breakpoint                                   (* pdb.set_trace() *)
  | PutData (key : string) (data : bytes)        (* internal_storage.put_data *)
  | PutFunc (key : string) (data : bytes)        (* internal_storage.put_func *)
  | Rmtree (path : string)                       (* shutil.rmtree *)
  | MkTempDir (suffix : string)                  (* tempfile.TemporaryDirectory *)
  | CleanupTempDir                               (* its __exit__ *)
  | CopyTree (src dst : string)                  (* shutil.copytree *)
  | Copy2 (src dst : string)                     (* shutil.copy2 *)
  | WriteFile (path content : string)            (* open(path, 'w').write *)
  | BuildAndCreateRuntime (image dockerfile : string)
  | CreateRabbitmqResources (url : option string) (executor_id job_id : string).

Definition is_upload (ev : Eff.Event Effect) : bool :=
  match ev with
  | Eff.Done (PutData _ _) | Eff.Failed (PutData _ _) _ => true
  | Eff.Done (PutFunc _ _) | Eff.Failed (PutFunc _ _) _ => true
  | _ => false
  end.

(** The storage uploads attempted in a trace, in order. *)
Definition uploads (tr : list (Eff.Event Effect)) : list (Eff.Event Effect) :=
  List.filter is_upload tr.

(** ** Helpers of the package that are not part of these sources *)

(** The pure helpers and constants [job.py] imports.  The ones whose shape
    matters for the properties below ([SerializeIndependent], [agg_data],
    [verify_args]) are modelled further down from the specification on top
    of these primitives. *)
Class Lib : Type := {
  (** one object pickled by the serializer *)
  dumps : PyObj -> bytes;
  (** the (module name, resolved path) pairs the serializer discovers
      transitively from the objects, or the resolution error *)
  discover_modules : list PyObj -> Res (list (string * string));
  (** [pickle.dumps({'func': func_str, 'module_data': create_module_data(mod_paths)}, -1)] *)
  pickle_func_module : bytes -> list string -> bytes;
  (** validation and normalization of one element of the iterable against
      the function signature, with the extra arguments *)
  normalize_call : Func -> option (list PyVal) -> PyVal -> Res PyVal;
  create_agg_data_key : string -> string -> string -> string;
  create_func_key : string -> string -> string -> string;
  MAX_AGG_DATA_SIZE : Z;
  JOBS_PREFIX : string;
  sizeof_fmt : Z -> string;
  convert_bools_to_string : list (string * PyVal) -> list (string * PyVal);
  is_object_processing_function : Func -> bool;
  (** [hashlib.md5(s.encode('utf-8')).hexdigest()] *)
  md5_hexdigest : string -> string
}.

(** The world job construction runs against. *)
Class Platform (W : Type) : Type := {
  exec : Effect -> W -> option Exn * W;
  path_exists : string -> W -> bool;
  path_isdir : string -> W -> bool;
  (** [create_partitions(config, internal_storage, iterdata, chunk_size,
      chunk_number)]: the partitions and the number of partitions per
      object, or the error of an unreachable object *)
  create_partitions :
    Config -> list PyVal -> option Z -> option Z -> W -> Res (list PyVal * list nat)
}.

(** ** The code of job.py *)

Section Code.
Context `{Lib} {W : Type} `{Platform W}.
Open Scope eff_scope.

Local Abbreviation M := (Eff.M W Effect).

Definition call (e : Effect) : M unit := Eff.perform exec e.

(** [inspect.getsource(func)] *)
Definition getsource (func : Func) : Res string :=
  match fn_source func with
  | Some src => Ok src
  | None => Raise (PyExc "OSError" "could not get source code")
  end.

(** Modelled from the spec: [utils.verify_args] is not among the sources.
    Section 4.4 (b): "validate and normalize arguments (argument
    count/signature must match the function's declared parameters --
    mismatch fails immediately)"; section 4.3: "index i always corresponds
    to input element i".  Every element is validated and normalized on its
    own, in order, and the first mismatch fails the call. *)
Definition verify_args (func : Func) (iterdata : list PyVal)
    (extra_args : option (list PyVal)) : Res (list PyVal) :=
  res_mapM (normalize_call func extra_args) iterdata.

(** Modelled from the spec: [SerializeIndependent] is not among the sources.
    Section 4.2: "produce the serialized function body, one serialized blob
    per call argument, and the set of resolved dependency module paths that
    are not already preinstalled [...] skip any module present in the
    preinstalled registry or matching an exclude entry, keep only modules
    matching an include entry when includes are non-empty, and deduplicate
    by resolved path"; an unresolvable dependency is a resolution error. *)
Definition keep_module (preinstalls : list string) (inc : option (gset string))
    (exc : gset string) (m : string * string) : bool :=
  negb (bool_decide (m.1 ∈ preinstalls))
  && negb (bool_decide (m.1 ∈ exc))
  && match inc with
     | None => true
     | Some s => bool_decide (s = ∅) || bool_decide (m.1 ∈ s)
     end.

Definition serializer (preinstalls : list string) (list_of_objs : list PyObj)
    (include_modules : option (gset string)) (exclude_modules : gset string)
    : Res (list bytes * list string) :=
  match discover_modules list_of_objs with
  | Raise e => Raise e
  | Ok mods =>
      Ok (map dumps list_of_objs,
          remove_dups
            (map snd (List.filter (keep_module preinstalls include_modules exclude_modules) mods)))
  end.

(** Modelled from the spec: [utils.agg_data] is not among the sources.
    Section 4.3: "produce one concatenated buffer and the parallel
    (offset, length) index"; section 3: one pair per call, in the order of
    the input. *)
Fixpoint agg_ranges (pos : nat) (data_strs : list bytes) : list (nat * nat) :=
  match data_strs with
  | [] => []
  | datum :: rest => (pos, length datum) :: agg_ranges (pos + length datum) rest
  end.

Definition agg_data (data_strs : list bytes) : bytes * list (nat * nat) :=
  (concat data_strs, agg_ranges 0 data_strs).

(** Lines 161-177: the include and exclude sets.  [include_modules] is the
    argument ([None] for Python None), the configuration values are as in
    [Config].  A [None] result is "no include filter". *)
Definition merge_modules (config : Config) (include_modules : option (list string))
    (exclude_modules : list string) : option (gset string) * gset string :=
  let exclude_modules_cfg := cfg_exclude_modules config in
  let include_modules_cfg := cfg_include_modules config in
  let exc_modules : gset string :=
    list_to_set exclude_modules_cfg ∪ list_to_set exclude_modules in
  let inc_modules : option (gset string) :=
    match include_modules_cfg with
    | Some l => Some (list_to_set l)
    | None => Some ∅
    end in
  let inc_modules :=
    match include_modules_cfg, include_modules with
    | None, None | None, Some [] => None
    | _, _ => inc_modules
    end in
  let inc_modules :=
    match include_modules with
    | Some (m :: l) => (fun s : gset string => s ∪ list_to_set (m :: l)) <$> inc_modules
    | _ => inc_modules
    end in
  let inc_modules :=
    match include_modules with
    | None => None
    | Some _ => inc_modules
    end in
  (inc_modules, exc_modules).

Definition MOD_PATH : string := "ext_mod_path".

(** Lines 239-289.  The dictionary is mutated in place by the source; here
    the updated dictionary is returned next to the function's own result. *)
Definition _inject_in_runtime_docker_image (job_description : JobDescription)
    (func : Func) (mod_paths : list string) : M (string * JobDescription) :=
  let! ex := Eff.ask (path_exists MOD_PATH) in
  (if ex then call (Rmtree MOD_PATH) else Eff.ret tt) >>
  let! f_src := Eff.lift (getsource func) in
  let func_file_name := md5_hexdigest f_src in
  let base_docker_image := runtime_name job_description in
  let ext_docker_image := base_docker_image +:+ ":" +:+ func_file_name in
  let ext_docker_file := "custom.dockerfile" in
  call (MkTempDir MOD_PATH) >>
  Eff.finally
    (Eff.for_each mod_paths (fun module =>
       let! d := Eff.ask (path_isdir module) in
       if d then call (CopyTree module (MOD_PATH +:+ "/" +:+ basename module))
       else call (Copy2 module MOD_PATH)) >>
     let! source := Eff.lift (getsource func) in
     call (WriteFile (MOD_PATH +:+ "/" +:+ func_file_name +:+ ".py") source) >>
     call (WriteFile ext_docker_file
             (str_join nl [ "FROM " +:+ base_docker_image;
                            "ENV PYTHONPATH=" +:+ MOD_PATH +:+ ":$" +:+ "PYTHONPATH";
                            "COPY " +:+ MOD_PATH +:+ " " +:+ MOD_PATH ])))
    (call CleanupTempDir) >>
  call Breakpoint >>
  call (BuildAndCreateRuntime ext_docker_image ext_docker_file) >>
  Eff.ret (func_file_name, set_runtime_name ext_docker_image job_description).

(** The ceiling in force: the configured one, the default otherwise. *)
Definition data_limit_of (config : Config) : Z :=
  match cfg_data_limit config with
  | Some l => l
  | None => MAX_AGG_DATA_SIZE
  end.

(** Lines 117-237. *)
Definition _create_job (config : Config) (executor_id job_id : string) (func : Func)
    (data : list PyVal) (preinstalls : list string) (runtime_memory : option Z)
    (extra_env : option (list (string * PyVal))) (invoke_pool_threads : Z)
    (include_modules : option (list string)) (exclude_modules : list string)
    (execution_timeout : option Z) : M JobResult :=
  let runtime_name := cfg_runtime config in
  let runtime_memory :=
    match runtime_memory with
    | None => cfg_runtime_memory config
    | Some m => m
    end in
  let ext_env := match extra_env with None => [] | Some e => e end in
  let ext_env :=
    match ext_env with
    | [] => ext_env
    | _ :: _ => convert_bools_to_string ext_env
    end in
  match data with
  | [] => Eff.ret EmptyJob
  | _ :: _ =>
      let execution_timeout :=
        match execution_timeout with
        | None => cfg_runtime_timeout config - 5
        | Some t => t
        end in
      let job_description :=
        mkJob runtime_name runtime_memory execution_timeout (fn_name func) ext_env
              (length data) invoke_pool_threads executor_id job_id
              None None None None None in
      let '(inc_modules, exc_modules) :=
        merge_modules config include_modules exclude_modules in
      call Breakpoint >>
      let! ser := Eff.lift (serializer preinstalls (OFunc func :: map OData data)
                                       inc_modules exc_modules) in
      let '(func_and_data_ser, mod_paths) := ser in
      match func_and_data_ser with
      | [] => Eff.raise (PyExc "IndexError" "list index out of range")
      | func_str :: data_strs =>
          let data_size_bytes := sum_list (length <$> data_strs) in
          let func_module_str := pickle_func_module func_str mod_paths in
          let func_module_size_bytes := length func_module_str in
          let host_job_meta := mkJobMeta data_size_bytes func_module_size_bytes in
          let data_limit := data_limit_of config in
          if negb (data_limit =? 0)%Z && (data_limit * 1024 ^ 2 <? Z.of_nat data_size_bytes)%Z
          then
            Eff.raise (PyExc "Exception"
              ("ExecutorID " +:+ executor_id +:+ " | JobID " +:+ job_id
               +:+ " - Total data exceeded maximum size of "
               +:+ sizeof_fmt (data_limit * 1024 ^ 2)))
          else
            (* Upload data *)
            let data_key := create_agg_data_key JOBS_PREFIX executor_id job_id in
            let job_description := set_data_key data_key job_description in
            let '(data_bytes, data_ranges) := agg_data data_strs in
            let job_description := set_data_ranges data_ranges job_description in
            call (PutData data_key data_bytes) >>
            (* Upload function and modules *)
            let func_key := create_func_key JOBS_PREFIX executor_id job_id in
            let job_description := set_func_key func_key job_description in
            let! job_description :=
              if false
              then call (PutFunc func_key func_module_str) >> Eff.ret job_description
              else
                let! r := _inject_in_runtime_docker_image job_description func mod_paths in
                Eff.ret r.2 in
            Eff.ret (Job (set_metadata host_job_meta job_description))
      end
  end.
(** [d[k] = v] on a dictionary kept as an association list. *)
Fixpoint dict_set (k : string) (v : PyVal) (d : list (string * PyVal))
    : list (string * PyVal) :=
  match d with
  | [] => [(k, v)]
  | (k', v') :: rest =>
      if String.eqb k k' then (k', v) :: rest else (k', v') :: dict_set k v rest
  end.

(** Lines 35-77. *)
Definition create_map_job (config : Config) (executor_id job_id : string)
    (map_function : Func) (iterdata : list PyVal) (preinstalls : list string)
    (runtime_memory : option Z) (extra_args : option (list PyVal))
    (extra_env : option (list (string * PyVal)))
    (obj_chunk_size obj_chunk_number : option Z) (invoke_pool_threads : Z)
    (include_modules : option (list string)) (exclude_modules : list string)
    (execution_timeout : option Z) : M JobResult :=
  let map_func := map_function in
  let! map_iterdata := Eff.lift (verify_args map_function iterdata extra_args) in
  let new_invoke_pool_threads := invoke_pool_threads in
  let new_runtime_memory := runtime_memory in
  (if cfg_rabbitmq_monitor config
   then call (CreateRabbitmqResources (cfg_amqp_url config) executor_id job_id)
   else Eff.ret tt) >>
  let! parts :=
    if is_object_processing_function map_function
    then
      let! r := Eff.ask (create_partitions config map_iterdata obj_chunk_size obj_chunk_number) in
      let! p := Eff.lift r in
      Eff.ret (p.1, Some p.2)
    else Eff.ret (map_iterdata, None) in
  let '(map_iterdata, parts_per_object) := parts in
  let! job_description :=
    _create_job config executor_id job_id map_func map_iterdata preinstalls
                new_runtime_memory extra_env new_invoke_pool_threads
                include_modules exclude_modules execution_timeout in
  match parts_per_object with
  | Some (p :: ps) =>
      match job_description with
      | Job jd => Eff.ret (Job (set_parts_per_object (p :: ps) jd))
      | EmptyJob =>
          Eff.raise (PyExc "TypeError" "list indices must be integers or slices, not str")
      end
  | _ => Eff.ret job_description
  end.

(** ['parts_per_object' in map_job], and the value under that key. *)
Definition map_job_parts (map_job : JobResult) : option (list nat) :=
  match map_job with
  | Job jd => parts_per_object jd
  | EmptyJob => None
  end.

(** Lines 88-95: the loop over [map_job['parts_per_object']], the pair
    being [(prev_total_partitons, iterdata)]. *)
Definition reduce_slices (map_futures : list PyVal) (parts : list nat) : list PyVal :=
  snd (fold_left
         (fun (st : nat * list PyVal) (total_partitions : nat) =>
            let '(prev_total_partitons, iterdata) := st in
            (Nat.add prev_total_partitons total_partitions,
             iterdata ++ [VList [VList (take total_partitions
                                             (drop prev_total_partitons map_futures))]]))
         parts (0%nat, [])).

Definition reduce_iterdata (map_job : JobResult) (map_futures : list PyVal)
    (reducer_one_per_object : bool) : list PyVal :=
  let iterdata := [VList [VList map_futures]] in
  match map_job_parts map_job with
  | Some parts => if reducer_one_per_object then reduce_slices map_futures parts else iterdata
  | None => iterdata
  end.

(** Lines 80-114. *)
Definition create_reduce_job (config : Config) (executor_id reduce_job_id : string)
    (reduce_function : Func) (map_job : JobResult) (map_futures : list PyVal)
    (preinstalls : list string) (reducer_one_per_object : bool)
    (runtime_memory : option Z) (extra_env : option (list (string * PyVal)))
    (include_modules : option (list string)) (exclude_modules : list string)
    (execution_timeout : option Z) : M JobResult :=
  let iterdata := reduce_iterdata map_job map_futures reducer_one_per_object in
  let reduce_job_env := [("__PW_REDUCE_JOB", VBool true)] in
  let ext_env :=
    match extra_env with
    | None => reduce_job_env
    | Some e => dict_set "__PW_REDUCE_JOB" (VBool true) e
    end in
  let! iterdata := Eff.lift (verify_args reduce_function iterdata None) in
  _create_job config executor_id reduce_job_id reduce_function iterdata preinstalls
              runtime_memory (Some ext_env) 128 include_modules exclude_modules
              execution_timeout.
End Code.

(** ** Quantities and observations the properties below are stated with *)

Section Terms.
Context {L : Lib}.

(** The serialized call arguments: one blob per element of the data. *)
Definition data_blobs (data : list PyVal) : list bytes :=
map dumps (map OData data).

(** The serialized size of the data alone. *)
Definition data_size (data : list PyVal) : nat :=
sum_list (length <$> data_blobs data).

(** The size check of lines 196-204. *)
Definition over_limit (config : Config) (data : list PyVal) : bool :=
negb (data_limit_of config =? 0)%Z
&& (data_limit_of config * 1024 ^ 2 <? Z.of_nat (data_size data))%Z.

(** The exception of line 204. *)
Definition size_error (config : Config) (executor_id job_id : string) : Exn :=
PyExc "Exception"
  ("ExecutorID " +:+ executor_id +:+ " | JobID " +:+ job_id
   +:+ " - Total data exceeded maximum size of "
   +:+ sizeof_fmt (data_limit_of config * 1024 ^ 2)).

(** An event that is no call of [put_func]. *)
Definition not_put_func (ev : Eff.Event Effect) : Prop :=
match ev with
| Eff.Done (PutFunc _ _) | Eff.Failed (PutFunc _ _) _ => False
| _ => True
end.

(** The slices of [map_futures] the loop of lines 93-95 cuts, from offset
  [prev] on. *)
Fixpoint slices_from (prev : nat) (parts : list nat) (map_futures : list PyVal)
  : list (list PyVal) :=
match parts with
| [] => []
| total_partitions :: rest =>
    take total_partitions (drop prev map_futures)
    :: slices_from (prev + total_partitions) rest map_futures
end.

(** One reduce call per slice, the slice being its only argument. *)
Definition as_call (slice : list PyVal) : PyVal := VList [VList slice].

(** [d.get(k)] on a dictionary kept as an association list. *)
Fixpoint dict_get (k : string) (d : list (string * PyVal)) : option PyVal :=
match d with
| [] => None
| (k', v) :: rest => if String.eqb k k' then Some v else dict_get k rest
end.

(** An event that is no upload to the store. *)
Definition no_upload (ev : Eff.Event Effect) : Prop := is_upload ev = false.

(** The event is the upload, completed or failed, of [data] under [key]. *)
Definition puts_data (key : string) (data : bytes) (ev : Eff.Event Effect) : Prop :=
ev = Eff.Done (PutData key data) \/ exists x, ev = Eff.Failed (PutData key data) x.

(** The monitor of the uploads: the uploads attempted so far, in order. *)
Definition upload_step (seen : list (Eff.Event Effect)) (ev : Eff.Event Effect)
  : list (Eff.Event Effect) :=
if is_upload ev then seen ++ [ev] else seen.

(** An event that is no creation of RabbitMQ resources. *)
Definition not_rabbitmq (ev : Eff.Event Effect) : Prop :=
match ev with
| Eff.Done (CreateRabbitmqResources _ _ _)
| Eff.Failed (CreateRabbitmqResources _ _ _) _ => False
| _ => True
end.

(** The monitor of the temporary directory: pending from its creation to the
  attempt, completed or not, to clean it up. *)
Definition tempdir_step (pending : bool) (ev : Eff.Event Effect) : bool :=
match ev with
| Eff.Done (MkTempDir _) => true
| Eff.Done CleanupTempDir | Eff.Failed CleanupTempDir _ => false
| _ => pending
end.

Definition cleanup_pending (evs : list (Eff.Event Effect)) : bool :=
Watch.after tempdir_step false evs.

(** The event is the completed write of [content] to [path]. *)
Definition is_write (path content : string) (ev : Eff.Event Effect) : bool :=
match ev with
| Eff.Done (WriteFile p c) => String.eqb p path && String.eqb c content
| _ => false
end.

(** The event is a breakpoint ([pdb.set_trace()]) that has been passed. *)
Definition is_breakpoint (ev : Eff.Event Effect) : bool :=
match ev with
| Eff.Done Breakpoint => true
| _ => false
end.

(** The event is a build of an image, completed or failed. *)
Definition is_build (ev : Eff.Event Effect) : bool :=
match ev with
| Eff.Done (BuildAndCreateRuntime _ _) | Eff.Failed (BuildAndCreateRuntime _ _) _ => true
| _ => false
end.

(** The Dockerfile of lines 272-276 over a base image. *)
Definition dockerfile_of (base_docker_image : string) : string :=
str_join nl [ "FROM " +:+ base_docker_image;
              "ENV PYTHONPATH=" +:+ MOD_PATH +:+ ":$" +:+ "PYTHONPATH";
              "COPY " +:+ MOD_PATH +:+ " " +:+ MOD_PATH ].

(** The copy of one module path into the staging directory: a directory as
  a tree under its base name, anything else as a file. *)
Definition copy_of (module : string) (ev : Eff.Event Effect) : Prop :=
ev = Eff.Done (CopyTree module (MOD_PATH +:+ "/" +:+ basename module))
\/ ev = Eff.Done (Copy2 module MOD_PATH).

(** Where an event of the image injection puts or removes files: the
  directory [ext_mod_path] of the working directory, what is below it, and
  [custom.dockerfile]; the temporary directory is only made and cleaned up. *)
Definition stages_in_working_directory (ev : Eff.Event Effect) : Prop :=
let target e :=
  match e with
  | Rmtree path => path = MOD_PATH
  | MkTempDir suffix => suffix = MOD_PATH
  | CopyTree _ dst => exists name, dst = MOD_PATH +:+ "/" +:+ name
  | Copy2 _ dst => dst = MOD_PATH
  | WriteFile path _ =>
      path = "custom.dockerfile" \/ exists name, path = MOD_PATH +:+ "/" +:+ name
  | CleanupTempDir | Breakpoint | BuildAndCreateRuntime _ _ => True
  | PutData _ _ | PutFunc _ _ | CreateRabbitmqResources _ _ _ => False
  end in
match ev with
| Eff.Done e | Eff.Failed e _ => target e
end.
End Terms.

End Job.

(** ** job.py: [clean_job] *)

Module CleanJob.

(** The calls [clean_job] makes outside the interpreter. *)
Inductive Effect : Type :=
  | NamedTemporaryFile              (* tempfile.NamedTemporaryFile(delete=False) *)
  | Dump (content : bytes)          (* pickle.dump(jobs_to_clean, temp) *)
  | Close                           (* the end of the with block *)
  | Popen (cmd : string).           (* os.popen(cmdstr) *)

Class Platform (W : Type) : Type := {
  exec : Effect -> W -> option Exn * W;
  (** [temp.name] of the temporary file that is open *)
  temp_name : W -> string
}.

Section Code.
(** The interpreter path, [pickle.dumps] of the list of jobs, [str] of a
    value as [format] renders it, and [textwrap.dedent]. *)
Variable sys_executable : string.
Variable pickle_dumps : list (string * string) -> bytes.
Variable str : PyVal -> string.
Variable dedent : string -> string.
Context {W : Type} `{Platform W}.
Open Scope eff_scope.

Local Abbreviation M := (Eff.M W Effect).

Definition call (e : Effect) : M unit := Eff.perform exec e.

(** Lines 299-326: the script, with its three fields filled in. *)
Definition script_of (storage_config clean_cloudobjects jobs_path : string) : string :=
  str_join nl
    [ "";
      "    from pywren_ibm_cloud.storage import InternalStorage";
      "    from pywren_ibm_cloud.storage.utils import clean_bucket";
      "    from pywren_ibm_cloud.config import JOBS_PREFIX, TEMP_PREFIX";
      "    import pickle";
      "    import os";
      "";
      "    storage_config = " +:+ storage_config;
      "    clean_cloudobjects = " +:+ clean_cloudobjects;
      "    jobs_path = '" +:+ jobs_path +:+ "'";
      "    bucket = storage_config['bucket']";
      "";
      "    with open(jobs_path, 'rb') as pk:";
      "        jobs_to_clean = pickle.load(pk)";
      "";
      "    internal_storage = InternalStorage(storage_config)";
      "    sh = internal_storage.storage_handler";
      "";
      "    for executor_id, job_id in jobs_to_clean:";
      "        prefix = '/'.join([JOBS_PREFIX, executor_id, job_id])";
      "        clean_bucket(sh, bucket, prefix, log=False)";
      "        if clean_cloudobjects:";
      "            prefix = '/'.join([TEMP_PREFIX, executor_id, job_id])";
      "            clean_bucket(sh, bucket, prefix, log=False)";
      "";
      "    if os.path.exists(jobs_path):";
      "        os.remove(jobs_path)";
      "    " ].

(** Line 328. *)
Definition cmdstr_of (script : string) : string :=
  sys_executable +:+ " -c " +:+ dquote +:+ dedent script +:+ dquote.

(** Lines 291-329. *)
Definition clean_job (jobs_to_clean : list (string * string))
    (storage_config clean_cloudobjects : PyVal) : M unit :=
  call NamedTemporaryFile >>
  let! jobs_path :=
    Eff.finally
      (call (Dump (pickle_dumps jobs_to_clean)) >>
       Eff.ask temp_name)
      (call Close) in
  let script := script_of (str storage_config) (str clean_cloudobjects) jobs_path in
  let cmdstr := cmdstr_of script in
  call (Popen cmdstr).

(** The event is a launch of a process, started or failed. *)
Definition is_popen (ev : Eff.Event Effect) : bool :=
  match ev with
  | Eff.Done (Popen _) | Eff.Failed (Popen _) _ => true
  | _ => false
  end.
End Code.

End CleanJob.

(** * pywren_ibm_cloud/compute/compute.py *)

Module Compute.

(** [compute_config]: the value under ['backend'] (a backend name, [None]
    when the key is absent) and the other entries, among them the section of
    each backend under the backend's name. *)
Record ComputeConfig : Type := mkComputeConfig {
  cfg_backend : option string;
  cfg_entries : gmap string PyVal
}.

Section Code.
(** [H]: the backend handler objects.  A backend module exposes its
    [ComputeBackend] class (or lacks the attribute); constructing it from
    the backend's configuration section returns a handler or raises. *)
Context {H : Type}.

Record BackendModule : Type := mkBackendModule {
  ComputeBackend : option (PyVal -> Res H)
}.

(** The interpreter services [__init__] uses. *)
Variable import_module : string -> Res BackendModule.
Variable getenv : string -> option string.

(** The attributes of a [Compute] object. *)
Record ComputeObj : Type := mkCompute {
  log_level : option string;
  config : ComputeConfig;
  backend : string;
  compute_handler : option H
}.

Definition exn_str (e : Exn) : string :=
  match e with PyExc _ msg => msg end.

(** Lines 36-40: the body of the [try]. *)
Definition resolve_backend (config : ComputeConfig) (backend : string) : Res H :=
  let module_location := "pywren_ibm_cloud.compute.backends." +:+ backend in
  match import_module module_location with
  | Raise e => Raise e
  | Ok cb_module =>
      match ComputeBackend cb_module with
      | None =>
          Raise (PyExc "AttributeError"
                       ("module '" +:+ module_location
                        +:+ "' has no attribute 'ComputeBackend'"))
      | Some ComputeBackend =>
          match cfg_entries config !! backend with
          | None => Raise (PyExc "KeyError" ("'" +:+ backend +:+ "'"))
          | Some section => ComputeBackend section
          end
      end
  end.

(** [isinstance(e, Exception)], what [except Exception] of line 41 tests.
    An exception is known by the name of its class: of the classes of the
    interpreter, [BaseException], [SystemExit], [KeyboardInterrupt] and
    [GeneratorExit] do not derive from [Exception]; every other class, those
    of the backends included, is taken to derive from it. *)
Definition is_exception (e : Exn) : bool :=
  match e with
  | PyExc kind _ =>
      negb (existsb (String.eqb kind)
                    ["BaseException"; "SystemExit"; "KeyboardInterrupt"; "GeneratorExit"])
  end.

(** Lines 30-43: [Compute.__init__].  The first component is what was sent
    to [logger.error]: the handler of lines 41-43 logs and raises again what
    [except Exception] catches, every other exception leaves the [try]
    as it is. *)
Definition init (compute_config : ComputeConfig) : list string * Res ComputeObj :=
  let log_level := getenv "PYWREN_LOGLEVEL" in
  match cfg_backend compute_config with
  | None => ([], Raise (PyExc "KeyError" "'backend'"))
  | Some backend =>
      match resolve_backend compute_config backend with
      | Ok handler =>
          ([], Ok (mkCompute log_level compute_config backend (Some handler)))
      | Raise e =>
          if is_exception e
          then (["There was en error trying to create the '" +:+ exn_str e
                 +:+ "' compute backend"],
                Raise e)
          else ([], Raise e)
      end
  end.

(** *** The methods

    [B] is the state of the backend service.  [handle h name args kwargs] is
    the call of the method [name] of the handler with the positional
    arguments [args] and the keyword arguments [kwargs]: it returns
    or raises, and changes the service.  [truthy h] is [bool(h)], [has_del h]
    is [hasattr(h, '__del__')]. *)
Context {B : Type}.
Variable handle : H -> string -> list PyVal -> list (string * PyVal) -> B -> Res PyVal * B.
Variables truthy has_del : H -> bool.

(** A call of a method of [self.compute_handler]. *)
Definition handler_call (self : ComputeObj) (name : string) (args : list PyVal)
    (kwargs : list (string * PyVal)) : B -> Res PyVal * B :=
  fun b =>
    match compute_handler self with
    | Some h => handle h name args kwargs b
    | None =>
        (Raise (PyExc "AttributeError"
                      ("'NoneType' object has no attribute '" +:+ name +:+ "'")), b)
    end.

(** A call whose value is not returned: the method returns [None]. *)
Definition returns_none (c : B -> Res PyVal * B) : B -> Res PyVal * B :=
  fun b =>
    match c b with
    | (Ok _, b') => (Ok VNone, b')
    | (Raise e, b') => (Raise e, b')
    end.

(** Lines 45-49. *)
Definition invoke (self : ComputeObj) (runtime_name memory payload : PyVal)
    : B -> Res PyVal * B :=
  handler_call self "invoke" [runtime_name; memory; payload] [].

(** Lines 51-56. *)
Definition build_and_create_runtime (self : ComputeObj)
    (runtime_name file memory timeout : PyVal) : B -> Res PyVal * B :=
  handler_call self "build_and_create_runtime" [runtime_name; file; memory; timeout] [].

(** Lines 58-63. *)
Definition build_runtime (self : ComputeObj) (runtime_name file : PyVal)
    : B -> Res PyVal * B :=
  returns_none (handler_call self "build_runtime" [runtime_name; file] []).

(** Lines 65-70. *)
Definition create_runtime (self : ComputeObj) (runtime_name memory timeout : PyVal)
    : B -> Res PyVal * B :=
  handler_call self "create_runtime" [runtime_name; memory] [("timeout", timeout)].

(** Lines 72-76. *)
Definition delete_runtime (self : ComputeObj) (runtime_name memory : PyVal)
    : B -> Res PyVal * B :=
  returns_none (handler_call self "delete_runtime" [runtime_name; memory] []).

(** Lines 78-82. *)
Definition delete_all_runtimes (self : ComputeObj) : B -> Res PyVal * B :=
  returns_none (handler_call self "delete_all_runtimes" [] []).

(** Lines 84-88; [runtime_name] is [None] when the argument is left out. *)
Definition list_runtimes (self : ComputeObj) (runtime_name : option PyVal)
    : B -> Res PyVal * B :=
  let runtime_name := match runtime_name with Some r => r | None => VStr "all" end in
  handler_call self "list_runtimes" [runtime_name] [].

(** Lines 90-96. *)
Definition get_runtime_key (self : ComputeObj) (runtime_name memory : PyVal)
    : B -> Res PyVal * B :=
  handler_call self "get_runtime_key" [runtime_name; memory] [].

(** Lines 98-100: [__del__]. *)
Definition del (self : ComputeObj) : B -> Res PyVal * B :=
  match compute_handler self with
  | Some h =>
      if truthy h && has_del h
      then returns_none (handle h "__del__" [] [])
      else fun b => (Ok VNone, b)
  | None => fun b => (Ok VNone, b)
  end.
End Code.
Arguments BackendModule : clear implicits.
Arguments ComputeObj : clear implicits.

End Compute.

(** * lithops/localhost/localhost.py *)

Module Localhost.

(** The keys of [job_payload] that [run_job] reads; the whole payload is what
    [json.dump] writes. *)
Record JobPayload : Type := mkPayload {
  pl_runtime_name : string;        (* job_payload['job_description']['runtime_name'] *)
  pl_executor_id : string;
  pl_job_id : string;
  pl_storage_bucket : string;      (* job_payload['config']['lithops']['storage_bucket'] *)
  pl_document : PyVal              (* the payload as a whole *)
}.

Inductive Effect : Type :=
  | RunCmd (cmd : string)                        (* subprocess.run(cmd, shell=True, check=True) *)
  | Makedirs (path : string)                     (* os.makedirs(path, exist_ok=True) *)
  | CopyTree (src dst : string)
  | CopyFile (src dst : string)
  | WriteFile (path content : string)            (* open(path, 'w') and json.dump *)
  | OpenAppend (path : string)                   (* open(path, 'a') *)
  | Popen (cmd : string) (stdout : string).      (* subprocess.Popen(cmd, shell=True, stdout=...) *)

Class Platform (W : Type) : Type := {
  exec : Effect -> W -> option Exn * W;
  (** [int(p.stdout.strip())] for the output of ["id -u $USER"] *)
  user_id : W -> Res Z
}.

(** The two environments defined at the end of the module. *)
Inductive Env : Type :=
  | DockerEnv (runtime : string)
  | DefaultEnv (runtime : string).

Record LocalhostHandler : Type := mkHandler {
  config_runtime : option string;
  env : Env;
  env_type : string
}.

Section Code.
(** The constants imported from [lithops.config], the interpreter path,
    the location of the package, and [json.dumps]. *)
Variables TEMP STORAGE_DIR JOBS_PREFIX sys_executable LITHOPS_LOCATION : string.
Variable json_dumps : PyVal -> string.
Context {W : Type} `{Platform W}.
Open Scope eff_scope.

Local Abbreviation M := (Eff.M W Effect).

Definition call (e : Effect) : M unit := Eff.perform exec e.

Definition LOCAL_HANDLER_NAME : string := "local_handler.py".
Definition HANDLER_FILE : string := path_join STORAGE_DIR [LOCAL_HANDLER_NAME].

(** Lines 42-51. *)
Definition init (runtime : option string) : LocalhostHandler :=
  match runtime with
  | None => mkHandler runtime (DefaultEnv sys_executable) "default"
  | Some image => mkHandler runtime (DockerEnv image) "docker"
  end.

(** Lines 101-105 and 122-125. *)
Definition setup (e : Env) : M unit :=
  match e with
  | DockerEnv _ =>
      call (Makedirs STORAGE_DIR) >>
      call (CopyTree LITHOPS_LOCATION (path_join STORAGE_DIR ["lithops"])) >>
      let src_handler := path_join LITHOPS_LOCATION ["localhost"; LOCAL_HANDLER_NAME] in
      call (CopyFile src_handler HANDLER_FILE)
  | DefaultEnv _ =>
      call (Makedirs STORAGE_DIR) >>
      let src_handler := path_join LITHOPS_LOCATION ["localhost"; LOCAL_HANDLER_NAME] in
      call (CopyFile src_handler HANDLER_FILE)
  end.

(** Lines 107-115 and 127-129. *)
Definition get_execution_cmd (e : Env) (runtime : string) : M string :=
  match e with
  | DockerEnv _ =>
      call (RunCmd "id -u $USER") >>
      let! r := Eff.ask user_id in
      let! uid := Eff.lift r in
      Eff.ret ("docker run --user " +:+ pretty uid +:+ " --rm -v " +:+ TEMP
               +:+ ":/tmp --entrypoint " +:+ dquote +:+ "python" +:+ dquote +:+ " "
               +:+ runtime +:+ " " +:+ HANDLER_FILE)
  | DefaultEnv self_runtime =>
      Eff.ret (self_runtime +:+ " " +:+ HANDLER_FILE)
  end.

Definition job_dir_of (job_payload : JobPayload) : string :=
  path_join STORAGE_DIR [pl_storage_bucket job_payload; JOBS_PREFIX;
                         pl_executor_id job_payload; pl_job_id job_payload].

(** Lines 53-74. *)
Definition run_job (self : LocalhostHandler) (job_payload : JobPayload) : M unit :=
  let runtime := pl_runtime_name job_payload in
  let! exec_command := get_execution_cmd (env self) runtime in
  let job_dir := job_dir_of job_payload in
  call (Makedirs job_dir) >>
  let jobr_filename := path_join job_dir ["job.json"] in
  call (WriteFile jobr_filename (json_dumps (pl_document job_payload))) >>
  let log_file := path_join STORAGE_DIR ["local_handler.log"] in
  call (OpenAppend log_file) >>
  call (Popen (exec_command +:+ " run " +:+ jobr_filename) log_file).

(** The job file of a payload: the storage directory, the bucket, the jobs
    prefix, the executor id, the job id and [job.json], joined. *)
Definition job_file_of (job_payload : JobPayload) : string :=
  path_join STORAGE_DIR [pl_storage_bucket job_payload; JOBS_PREFIX;
                         pl_executor_id job_payload; pl_job_id job_payload;
                         "job.json"].

(** The event is a launch ([subprocess.Popen], started or failed). *)
Definition is_launch (ev : Eff.Event Effect) : Prop :=
  match ev with
  | Eff.Done (Popen _ _) | Eff.Failed (Popen _ _) _ => True
  | _ => False
  end.

(** The event is a launch of an execution command against [file]. *)
Definition launches_against (file : string) (ev : Eff.Event Effect) : Prop :=
  match ev with
  | Eff.Done (Popen cmd _) | Eff.Failed (Popen cmd _) _ =>
      exists exec_command, cmd = exec_command +:+ " run " +:+ file
  | _ => False
  end.

(** In the events [evs], every launch is a launch against [file], and the
    write of [document] to [file] has been completed before it. *)
Definition written_before_launch (file document : string)
    (evs : list (Eff.Event Effect)) : Prop :=
  forall i ev,
    evs !! i = Some ev -> is_launch ev ->
    launches_against file ev
    /\ exists j, (j < i)%nat /\ evs !! j = Some (Eff.Done (WriteFile file document)).

(** Lines 64-74 of [run_job]: what follows the resolution of the command. *)
Definition write_and_launch (exec_command : string) (job_payload : JobPayload)
    : M unit :=
  let job_dir := job_dir_of job_payload in
  call (Makedirs job_dir) >>
  let jobr_filename := path_join job_dir ["job.json"] in
  call (WriteFile jobr_filename (json_dumps (pl_document job_payload))) >>
  let log_file := path_join STORAGE_DIR ["local_handler.log"] in
  call (OpenAppend log_file) >>
  call (Popen (exec_command +:+ " run " +:+ jobr_filename) log_file).

(** The event is the probe of the user id. *)
Definition is_probe (ev : Eff.Event Effect) : Prop :=
  match ev with
  | Eff.Done (RunCmd cmd) | Eff.Failed (RunCmd cmd) _ => cmd = "id -u $USER"
  | _ => False
  end.

(** [json.loads(process.stdout.strip())] for the output of the command that
    lists the modules, as the world holds it once the command has run. *)
Variable runtime_meta_of : W -> Res PyVal.

(** Lines 76-86. *)
Definition create_runtime (self : LocalhostHandler) (runtime : string) : M PyVal :=
  setup (env self) >>
  let! exec_command := get_execution_cmd (env self) runtime in
  call (RunCmd (exec_command +:+ " modules")) >>
  let! runtime_meta := Eff.ask runtime_meta_of in
  Eff.lift runtime_meta.

(** Lines 88-94. *)
Definition get_runtime_key (self : LocalhostHandler) (runtime_name : string) : string :=
  let runtime_key := path_join "localhost" [env_type self; strip_slash runtime_name] in
  runtime_key.

(** The event is a command run to its end ([subprocess.run]), completed or
    failed. *)
Definition is_command (ev : Eff.Event Effect) : bool :=
  match ev with
  | Eff.Done (RunCmd _) | Eff.Failed (RunCmd _) _ => true
  | _ => false
  end.

(** The event is the completed copy of the handler of the package to
    [HANDLER_FILE]. *)
Definition is_install (ev : Eff.Event Effect) : bool :=
  match ev with
  | Eff.Done (CopyFile src dst) =>
      String.eqb src (path_join LITHOPS_LOCATION ["localhost"; LOCAL_HANDLER_NAME])
      && String.eqb dst HANDLER_FILE
  | _ => false
  end.

(** The events of a completed [setup] of an environment. *)
Definition setup_events (e : Env) : list (Eff.Event Effect) :=
  let install :=
    Eff.Done (CopyFile (path_join LITHOPS_LOCATION ["localhost"; LOCAL_HANDLER_NAME])
                       HANDLER_FILE) in
  match e with
  | DockerEnv _ =>
      [Eff.Done (Makedirs STORAGE_DIR);
       Eff.Done (CopyTree LITHOPS_LOCATION (path_join STORAGE_DIR ["lithops"]));
       install]
  | DefaultEnv _ => [Eff.Done (Makedirs STORAGE_DIR); install]
  end.

(** An event of [create_runtime]: no job file is written, no log opened and
    no process launched. *)
Definition prepares_only (ev : Eff.Event Effect) : Prop :=
  match ev with
  | Eff.Done e | Eff.Failed e _ =>
      match e with
      | WriteFile _ _ | OpenAppend _ | Popen _ _ => False
      | _ => True
      end
  end.

(** An event of [run_job]: nothing is copied, the handler is not installed. *)
Definition installs_nothing (ev : Eff.Event Effect) : Prop :=
  match ev with
  | Eff.Done e | Eff.Failed e _ =>
      match e with
      | CopyTree _ _ | CopyFile _ _ => False
      | _ => True
      end
  end.
End Code.

End Localhost.

(** * hashlib.md5

    The digest [_inject_in_runtime_docker_image] tags the extension image
    with, written out (RFC 1321) over 32-bit words kept in [Z]. *)

Module MD5.

Definition w32 (x : Z) : Z := x mod 2 ^ 32.
Definition add32 (a b : Z) : Z := w32 (a + b).
Definition not32 (x : Z) : Z := Z.lxor x 0xffffffff.
Definition rotl32 (x n : Z) : Z :=
  Z.lor (w32 (Z.shiftl x n)) (Z.shiftr x (32 - n)).

Definition K : list Z :=
  [ 0xd76aa478; 0xe8c7b756; 0x242070db; 0xc1bdceee;
    0xf57c0faf; 0x4787c62a; 0xa8304613; 0xfd469501;
    0x698098d8; 0x8b44f7af; 0xffff5bb1; 0x895cd7be;
    0x6b901122; 0xfd987193; 0xa679438e; 0x49b40821;
    0xf61e2562; 0xc040b340; 0x265e5a51; 0xe9b6c7aa;
    0xd62f105d; 0x02441453; 0xd8a1e681; 0xe7d3fbc8;
    0x21e1cde6; 0xc33707d6; 0xf4d50d87; 0x455a14ed;
    0xa9e3e905; 0xfcefa3f8; 0x676f02d9; 0x8d2a4c8a;
    0xfffa3942; 0x8771f681; 0x6d9d6122; 0xfde5380c;
    0xa4beea44; 0x4bdecfa9; 0xf6bb4b60; 0xbebfbc70;
    0x289b7ec6; 0xeaa127fa; 0xd4ef3085; 0x04881d05;
    0xd9d4d039; 0xe6db99e5; 0x1fa27cf8; 0xc4ac5665;
    0xf4292244; 0x432aff97; 0xab9423a7; 0xfc93a039;
    0x655b59c3; 0x8f0ccc92; 0xffeff47d; 0x85845dd1;
    0x6fa87e4f; 0xfe2ce6e0; 0xa3014314; 0x4e0811a1;
    0xf7537e82; 0xbd3af235; 0x2ad7d2bb; 0xeb86d391 ].

Definition shifts : list Z :=
  [ 7; 12; 17; 22; 7; 12; 17; 22; 7; 12; 17; 22; 7; 12; 17; 22;
    5; 9; 14; 20; 5; 9; 14; 20; 5; 9; 14; 20; 5; 9; 14; 20;
    4; 11; 16; 23; 4; 11; 16; 23; 4; 11; 16; 23; 4; 11; 16; 23;
    6; 10; 15; 21; 6; 10; 15; 21; 6; 10; 15; 21; 6; 10; 15; 21 ].

Fixpoint string_bytes (s : string) : list Z :=
  match s with
  | EmptyString => []
  | String c rest => Z.of_nat (nat_of_ascii c) :: string_bytes rest
  end.

(** The [n] low bytes of [x], least significant first. *)
Fixpoint le_bytes (n : nat) (x : Z) : list Z :=
  match n with
  | O => []
  | S n' => x mod 256 :: le_bytes n' (x / 256)
  end.

(** Padding: a 1 bit, zeros up to 56 modulo 64 bytes, the bit length on
    eight bytes. *)
Definition pad (msg : list Z) : list Z :=
  let len := Z.of_nat (length msg) in
  let zeros := Z.to_nat ((55 - len) mod 64) in
  msg ++ [0x80] ++ replicate zeros 0 ++ le_bytes 8 (len * 8).

Fixpoint le_words (fuel : nat) (l : list Z) : list Z :=
  match fuel, l with
  | S fuel', b0 :: b1 :: b2 :: b3 :: rest =>
      (b0 + 256 * (b1 + 256 * (b2 + 256 * b3))) :: le_words fuel' rest
  | _, _ => []
  end.

Definition round (M : list Z) (st : Z * Z * Z * Z) (i : nat) : Z * Z * Z * Z :=
  let '(A, B, C, D) := st in
  let iz := Z.of_nat i in
  let '(F, g) :=
    if (iz <? 16)%Z then (Z.lor (Z.land B C) (Z.land (not32 B) D), iz)
    else if (iz <? 32)%Z then (Z.lor (Z.land D B) (Z.land (not32 D) C), (5 * iz + 1) mod 16)
    else if (iz <? 48)%Z then (Z.lxor (Z.lxor B C) D, (3 * iz + 5) mod 16)
    else (Z.lxor C (Z.lor B (not32 D)), (7 * iz) mod 16) in
  let F := add32 (add32 (add32 F A) (nth i K 0)) (nth (Z.to_nat g) M 0) in
  (D, add32 B (rotl32 F (nth i shifts 0)), B, C).

Definition block (st : Z * Z * Z * Z) (M : list Z) : Z * Z * Z * Z :=
  let '(a0, b0, c0, d0) := st in
  let '(A, B, C, D) := fold_left (round M) (seq 0 64) st in
  (add32 a0 A, add32 b0 B, add32 c0 C, add32 d0 D).

Fixpoint blocks (fuel : nat) (st : Z * Z * Z * Z) (words : list Z) : Z * Z * Z * Z :=
  match fuel, words with
  | S fuel', _ :: _ => blocks fuel' (block st (take 16 words)) (drop 16 words)
  | _, _ => st
  end.

Definition hex_digit (d : Z) : ascii :=
  ascii_of_nat (Z.to_nat (if (d <? 10)%Z then 48 + d else 87 + d)).

Fixpoint hex (l : list Z) : string :=
  match l with
  | [] => EmptyString
  | b :: rest => String (hex_digit (b / 16)) (String (hex_digit (b mod 16)) (hex rest))
  end.

Definition hexdigest (s : string) : string :=
  let bytes := pad (string_bytes s) in
  let words := le_words (length bytes) bytes in
  let '(a, b, c, d) :=
    blocks (length words) (0x67452301, 0xefcdab89, 0x98badcfe, 0x10325476) words in
  hex (le_bytes 4 a ++ le_bytes 4 b ++ le_bytes 4 c ++ le_bytes 4 d).

End MD5.

(** * A concrete library and a concrete world

    Small executable instances of the two interfaces of [Job], used to run
    the code on concrete inputs. *)

Module JobDemo.
Import Job.

Definition to_bytes (s : string) : bytes := String.list_byte_of_string s.

Fixpoint repr (v : PyVal) : string :=
  match v with
  | VNone => "None"
  | VBool true => "True"
  | VBool false => "False"
  | VInt z => pretty z
  | VStr s => "'" +:+ s +:+ "'"
  | VList l => "[" +:+ str_join ", " (map repr l) +:+ "]"
  | VDict d => "{" +:+ str_join ", " (map (fun kv => "'" +:+ fst kv +:+ "': " +:+ repr (snd kv)) d) +:+ "}"
  | VFuture id => "<future " +:+ id +:+ ">"
  end.

(** Binding of one element of the iterable to the declared parameters: a
    dictionary must name every parameter, a list must have one entry per
    parameter, any other value is the single argument. *)
Definition demo_normalize_call (func : Func) (extra_args : option (list PyVal))
    (elem : PyVal) : Res PyVal :=
  let extra := match extra_args with Some l => l | None => [] end in
  let mismatch := Raise (PyExc "ValueError" "arguments do not match the function signature") in
  match elem with
  | VDict d =>
      if forallb (fun p => existsb (String.eqb p) (map fst d)) (fn_params func)
      then Ok (VDict d) else mismatch
  | VList l =>
      if Nat.eqb (length (l ++ extra)) (length (fn_params func))
      then Ok (VDict (combine (fn_params func) (l ++ extra))) else mismatch
  | v =>
      if Nat.eqb (length (v :: extra)) (length (fn_params func))
      then Ok (VDict (combine (fn_params func) (v :: extra))) else mismatch
  end.

(** [func_pad]: the number of bytes the pickled function-and-modules blob
    carries on top of the function body and the module paths; [data_pad]: the
    number of bytes every pickled call argument carries on top of its text. *)
Definition demo_lib (func_pad data_pad : nat) : Lib := {|
  dumps o := match o with
             | OFunc f => to_bytes (fn_name f)
             | OData v => replicate data_pad Byte.x00 ++ to_bytes (repr v)
             end;
  discover_modules _ := Ok [("helpers", "/home/user/project/helpers");
                            ("numpy", "/usr/lib/python3/site-packages/numpy")];
  pickle_func_module func_str mod_paths :=
    replicate func_pad Byte.x00 ++ func_str ++ concat (map to_bytes mod_paths);
  normalize_call := demo_normalize_call;
  create_agg_data_key prefix executor_id job_id :=
    str_join "/" [prefix; executor_id; job_id; "aggdata.pickle"];
  create_func_key prefix executor_id job_id :=
    str_join "/" [prefix; executor_id; job_id; "func.pickle"];
  MAX_AGG_DATA_SIZE := 4;
  JOBS_PREFIX := "pywren.jobs";
  sizeof_fmt z := pretty z +:+ "B";
  convert_bools_to_string env :=
    map (fun kv => match snd kv with
                   | VBool b => (fst kv, VStr (if b then "True" else "False"))
                   | _ => kv
                   end) env;
  is_object_processing_function f :=
    existsb (fun p => String.eqb p "obj" || String.eqb p "url") (fn_params f);
  md5_hexdigest := MD5.hexdigest
|}.

(** The world: the object store, the state of [ext_mod_path] in the working
    directory, the module paths that are directories, the images built. *)
Inductive PathKind : Type := Absent | IsFile | IsDir.

Record World : Type := mkWorld {
  storage_up : bool;
  storage : gmap string bytes;
  mod_path : PathKind;
  dirs : list string;
  images : list string
}.

Definition demo_exec (e : Effect) (w : World) : option Exn * World :=
  match e with
  | PutData key data | PutFunc key data =>
      if storage_up w
      then (None, mkWorld (storage_up w) (<[key := data]> (storage w)) (mod_path w)
                          (dirs w) (images w))
      else (Some (PyExc "StorageError" "storage unavailable"), w)
  | Rmtree _ =>
      match mod_path w with
      | IsDir => (None, mkWorld (storage_up w) (storage w) Absent (dirs w) (images w))
      | IsFile => (Some (PyExc "NotADirectoryError" "ext_mod_path"), w)
      | Absent => (Some (PyExc "FileNotFoundError" "ext_mod_path"), w)
      end
  | CopyTree _ _ =>
      match mod_path w with
      | IsFile => (Some (PyExc "NotADirectoryError" "ext_mod_path"), w)
      | _ => (None, mkWorld (storage_up w) (storage w) IsDir (dirs w) (images w))
      end
  | Copy2 _ _ =>
      match mod_path w with
      | IsDir => (None, w)
      | _ => (None, mkWorld (storage_up w) (storage w) IsFile (dirs w) (images w))
      end
  | WriteFile path _ =>
      if String.prefix "ext_mod_path/" path
      then match mod_path w with
           | IsDir => (None, w)
           | IsFile => (Some (PyExc "NotADirectoryError" path), w)
           | Absent => (Some (PyExc "FileNotFoundError" path), w)
           end
      else (None, w)
  | BuildAndCreateRuntime image _ =>
      (None, mkWorld (storage_up w) (storage w) (mod_path w) (dirs w) (images w ++ [image]))
  | Breakpoint | MkTempDir _ | CleanupTempDir | CreateRabbitmqResources _ _ _ => (None, w)
  end.

#[export] Instance demo_platform : Platform World := {|
  exec := demo_exec;
  path_exists p w :=
    String.eqb p "ext_mod_path" && match mod_path w with Absent => false | _ => true end;
  path_isdir p w := existsb (String.eqb p) (dirs w);
  create_partitions _ iterdata _ _ _ := Ok (iterdata, map (fun _ => 1%nat) iterdata)
|}.

Definition w0 : World :=
  mkWorld true ∅ Absent
          ["/home/user/project/helpers"; "/usr/lib/python3/site-packages/numpy"] [].

Definition s0 : Eff.St World Effect := Eff.mkSt w0 [].

Definition config0 : Config :=
  mkConfig "python3.6" 256 600 None [] (Some []) false None "localhost".

Definition double : Func :=
  mkFunc "double" ["x"] (Some "def double(x): return x * 2").

(** One MiB, as a number of bytes. *)
Definition one_MiB : nat := Z.to_nat (1024 ^ 2).

(** A configuration with a ceiling of 1 MiB. *)
Definition config_1MiB : Config :=
  mkConfig "python3.6" 256 600 (Some 1) [] (Some []) false None "localhost".

(** The call of the example scenario: [double] over [[1, 2, 3]]. *)
Definition data123 : list PyVal :=
  [VDict [("x", VInt 1)]; VDict [("x", VInt 2)]; VDict [("x", VInt 3)]].

(** The dictionary built for [double] over [[1, 2, 3]]. *)
Definition job123 : JobDescription :=
  mkJob "python3.6:c02b5218eac6a24c369124c3bf721593" 256 595 "double" [] 3 128 "exec0" "M000"
        (Some "pywren.jobs/exec0/M000/aggdata.pickle")
        (Some [(0, 8); (8, 8); (16, 8)]%nat)
        (Some "pywren.jobs/exec0/M000/func.pickle")
        (Some (mkJobMeta 24 32)) None.

(** A second dictionary over the same base runtime, for another job. *)
Definition job_other : JobDescription :=
  mkJob "python3.6" 512 300 "double" [] 1 128 "exec1" "M007" None None None None None.

Definition run_inject (jd : JobDescription) (func : Func) (mod_paths : list string)
    : Res (string * JobDescription) * Eff.St World Effect :=
  @_inject_in_runtime_docker_image (demo_lib 0 0) World demo_platform jd func mod_paths s0.

Definition run_map (L : Lib) (config : Config) (job_id : string) (func : Func)
    (data : list PyVal) : Res JobResult * Eff.St World Effect :=
  _create_job config "exec0" job_id func data ["numpy"] None None 128 (Some []) [] None s0.

(** A reduce function and five map futures produced from two objects cut
    into two and three partitions. *)
Definition total : Func :=
  mkFunc "total" ["results"] (Some "def total(results): return sum(results)").

Definition futures5 : list PyVal :=
  [VFuture "00000"; VFuture "00001"; VFuture "00002"; VFuture "00003"; VFuture "00004"].

Definition job_2_3 : JobDescription :=
  mkJob "python3.6" 256 595 "double" [] 5 128 "exec0" "M000"
        (Some "pywren.jobs/exec0/M000/aggdata.pickle") (Some [])
        (Some "pywren.jobs/exec0/M000/func.pickle") None (Some [2; 3]%nat).

Definition map_job_2_3 : JobResult := Job job_2_3.

(** The dictionary built for [count_words] over two stored objects, each
    one partition. *)
Definition job_count_words : JobDescription :=
  mkJob "python3.6:28935abecb4d5840b57f489198f2d173" 256 595 "count_words" [] 2 128
        "exec0" "M000"
        (Some "pywren.jobs/exec0/M000/aggdata.pickle")
        (Some [(0, 29); (29, 29)]%nat)
        (Some "pywren.jobs/exec0/M000/func.pickle")
        (Some (mkJobMeta 58 37)) (Some [1; 1]%nat).

(** The dictionary of the reduce job over [futures5], one call per object. *)
Definition job_reduce_2_3 : JobDescription :=
  mkJob "python3.6:1494df5fcf2166e89a3c9d480618aae9" 256 595 "total" [("__PW_REDUCE_JOB", VStr "True")] 2 128
        "exec0" "R000"
        (Some "pywren.jobs/exec0/R000/aggdata.pickle")
        (Some [(0, 45); (45, 61)]%nat)
        (Some "pywren.jobs/exec0/R000/func.pickle")
        (Some (mkJobMeta 106 31)) None.

Definition run_reduce (L : Lib) (map_job : JobResult) (reducer_one_per_object : bool)
    : Res JobResult * Eff.St World Effect :=
  create_reduce_job config0 "exec0" "R000" total map_job futures5 ["numpy"]
                    reducer_one_per_object None None (Some []) [] None s0.

(** A function of two parameters. *)
Definition merge : Func :=
  mkFunc "merge" ["left"; "right"] (Some "def merge(left, right): return left + right").


(** A function that processes stored objects, and two objects. *)
Definition count_words : Func :=
  mkFunc "count_words" ["obj"]
         (Some "def count_words(obj): return len(obj.data_stream.read().split())").

Definition objects2 : list PyVal :=
  [VDict [("obj", VStr "cos://bucket/a.txt")]; VDict [("obj", VStr "cos://bucket/b.txt")]].

(** A configuration with the RabbitMQ monitor switched on. *)
Definition config_rabbitmq : Config :=
  mkConfig "python3.6" 256 600 None [] (Some []) true (Some "amqp://guest@broker/") "localhost".

(** A partitioner that finds every object empty: no partition, and a count
    of 0 per object. *)
Definition empty_objects_platform : Platform World := {|
  exec := demo_exec;
  path_exists p w :=
    String.eqb p "ext_mod_path" && match mod_path w with Absent => false | _ => true end;
  path_isdir p w := existsb (String.eqb p) (dirs w);
  create_partitions _ iterdata _ _ _ := Ok ([], map (fun _ => 0%nat) iterdata)
|}.

(** A partitioner that cannot reach the objects. *)
Definition unreachable_objects_platform : Platform World := {|
  exec := demo_exec;
  path_exists p w :=
    String.eqb p "ext_mod_path" && match mod_path w with Absent => false | _ => true end;
  path_isdir p w := existsb (String.eqb p) (dirs w);
  create_partitions _ iterdata _ _ _ :=
    Raise (PyExc "Exception" "One or more objects could not be found")
|}.

Definition run_create_map (P : Platform World) (config : Config) (func : Func)
    (iterdata : list PyVal) : Res JobResult * Eff.St World Effect :=
  @create_map_job (demo_lib 0 0) World P config "exec0" "M000" func iterdata ["numpy"]
                  None None None None None 128 (Some []) [] None s0.

End JobDemo.

(** * A concrete backend registry and a concrete local machine *)

Module ComputeDemo.
Import Compute.

(** Handlers are named by the section they were built from. *)
Definition ibm_cf_backend (section : PyVal) : Res string :=
  match section with
  | VDict (("namespace", VStr ns) :: _) => Ok ("ibm_cf@" +:+ ns)
  | _ => Raise (PyExc "Exception" "missing namespace")
  end.

Definition demo_import (module_location : string) : Res (BackendModule string) :=
  if String.eqb module_location "pywren_ibm_cloud.compute.backends.ibm_cf"
  then Ok (mkBackendModule (Some ibm_cf_backend))
  else if String.eqb module_location "pywren_ibm_cloud.compute.backends.utils"
  then Ok (mkBackendModule None)
  else Raise (PyExc "ModuleNotFoundError"
                    ("No module named '" +:+ module_location +:+ "'")).

Definition demo_getenv (name : string) : option string := None.

Definition config_ibm_cf : ComputeConfig :=
  mkComputeConfig (Some "ibm_cf")
    {[ "ibm_cf" := VDict [("namespace", VStr "dev")] ]}.

Definition config_unknown : ComputeConfig :=
  mkComputeConfig (Some "lambda") {[ "lambda" := VDict [] ]}.

Definition config_bad_section : ComputeConfig :=
  mkComputeConfig (Some "ibm_cf") {[ "ibm_cf" := VDict [] ]}.

(** A configuration that names a backend and has no section for it. *)
Definition config_no_section : ComputeConfig :=
  mkComputeConfig (Some "ibm_cf") ∅.

(** An import that is interrupted from the keyboard. *)
Definition interrupted_import (module_location : string) : Res (BackendModule string) :=
  Raise (PyExc "KeyboardInterrupt" "").

(** A backend service that records the calls it receives and answers each
    with the name of the handler and of the method. *)
Definition demo_handle (h name : string) (args : list PyVal)
    (kwargs : list (string * PyVal)) (calls : list string) : Res PyVal * list string :=
  (Ok (VStr (h +:+ "." +:+ name)), calls ++ [name]).

End ComputeDemo.

Module LocalhostDemo.
Import Localhost.

Fixpoint json_of (v : PyVal) : string :=
  match v with
  | VNone => "null"
  | VBool true => "true"
  | VBool false => "false"
  | VInt z => pretty z
  | VStr s => dquote +:+ s +:+ dquote
  | VList l => "[" +:+ str_join ", " (map json_of l) +:+ "]"
  | VDict d =>
      "{" +:+ str_join ", "
                (map (fun kv => dquote +:+ fst kv +:+ dquote +:+ ": " +:+ json_of (snd kv)) d)
      +:+ "}"
  | VFuture id => dquote +:+ id +:+ dquote
  end.

(** The machine: the uid [id -u $USER] prints (or its failure), and whether
    the disk accepts writes. *)
Record Machine : Type := mkMachine {
  uid : Res Z;
  disk_ok : bool
}.

Definition demo_exec (e : Effect) (m : Machine) : option Exn * Machine :=
  match e with
  | RunCmd _ =>
      match uid m with
      | Ok _ => (None, m)
      | Raise x => (Some x, m)
      end
  | Makedirs _ | CopyTree _ _ | CopyFile _ _ | WriteFile _ _ | OpenAppend _ =>
      if disk_ok m then (None, m)
      else (Some (PyExc "OSError" "No space left on device"), m)
  | Popen _ _ => (None, m)
  end.

#[export] Instance demo_platform : Platform Machine := {|
  exec := demo_exec;
  user_id := uid
|}.

Definition machine0 : Machine := mkMachine (Ok 1000) true.

Definition payload0 : JobPayload :=
  mkPayload "python3.6" "exec0" "M000" "storage"
    (VDict [("executor_id", VStr "exec0"); ("job_id", VStr "M000")]).

Definition run_job0 (self : LocalhostHandler) (m : Machine)
    : Res unit * Eff.St Machine Effect :=
  run_job "/tmp" "/tmp/lithops" "lithops.jobs" json_of self payload0 (Eff.mkSt m []).

(** What the handler prints for the command that lists the modules. *)
Definition demo_runtime_meta (m : Machine) : Res PyVal :=
  Ok (VDict [("preinstalls", VList [VStr "numpy"; VStr "requests"])]).

Definition create_runtime0 (self : LocalhostHandler) (m : Machine)
    : Res PyVal * Eff.St Machine Effect :=
  create_runtime "/tmp" "/tmp/lithops" "/opt/lithops" demo_runtime_meta self "python3.6"
                 (Eff.mkSt m []).

End LocalhostDemo.

(** * Properties *)

(** ** The effect monad *)

Module EffFacts.
Import Eff.
Section Facts.
Context {W E : Type}.
Implicit Types (s : St W E).

Local Abbreviation emits := (@Eff.emits W E _).

Lemma bind_ok {A B} (c : M W E A) (k : A -> M W E B) s b s' :
  bind c k s = (Ok b, s') ->
  exists a s1, c s = (Ok a, s1) /\ k a s1 = (Ok b, s').
Proof.
  unfold bind. destruct (c s) as [[a|e] s1]; intros Hk; [eauto | discriminate].
Qed.

Lemma finally_ok {A} (body : M W E A) (cleanup : M W E unit) s a s' :
  finally body cleanup s = (Ok a, s') ->
  exists s1, body s = (Ok a, s1) /\ cleanup s1 = (Ok tt, s').
Proof.
  unfold finally. destruct (body s) as [r s1].
  destruct (cleanup s1) as [[[]|e] s2] eqn:Hc; intros Hk; inversion Hk; subst; eauto.
Qed.

Lemma lift_ok {A} (r : Res A) s a s' :
  lift r s = (Ok a, s') -> r = Ok a /\ s' = s.
Proof. unfold lift. intros Hk; inversion Hk; auto. Qed.

Lemma ask_ok {A} (q : W -> A) s a s' :
  ask q s = (Ok a, s') -> a = q (world s) /\ s' = s.
Proof. unfold ask. intros Hk; inversion Hk; auto. Qed.

Lemma ret_ok {A} (x : A) s a s' :
  ret x s = (Ok a, s') -> a = x /\ s' = s.
Proof. unfold ret. intros Hk; inversion Hk; auto. Qed.

Lemma perform_ok exec (e : E) s u s' :
  perform exec e s = (Ok u, s') ->
  exists w', exec e (world s) = (None, w') /\ s' = mkSt w' (trace s ++ [Done e]).
Proof.
  unfold perform. destruct (exec e (world s)) as [[x|] w']; intros Hk;
    inversion Hk; eauto.
Qed.

Lemma emits_silent {A} P (c : M W E A) :
  (forall s, snd (c s) = s) -> emits P c.
Proof.
  intros Hc s. exists []. rewrite Hc, app_nil_r. auto.
Qed.

Lemma emits_ret {A} P (a : A) : emits P (ret a).
Proof. apply emits_silent; reflexivity. Qed.

Lemma emits_raise {A} P e : emits P (@raise W E A e).
Proof. apply emits_silent; reflexivity. Qed.

Lemma emits_lift {A} P (r : Res A) : emits P (lift r).
Proof. apply emits_silent; reflexivity. Qed.

Lemma emits_ask {A} P (q : W -> A) : emits P (ask q).
Proof. apply emits_silent; reflexivity. Qed.

Lemma emits_perform (P : Event E -> Prop) exec e :
  P (Done e) -> (forall x, P (Failed e x)) -> emits P (perform exec e).
Proof.
  intros Hd Hf s. unfold perform.
  destruct (exec e (world s)) as [[x|] w']; simpl; eexists; split; eauto.
Qed.

Lemma emits_bind {A B} P (c : M W E A) (k : A -> M W E B) :
  emits P c -> (forall a, emits P (k a)) -> emits P (bind c k).
Proof.
  intros Hc Hk s. unfold bind.
  destruct (Hc s) as (evs1 & E1 & F1).
  destruct (c s) as [[a|e] s1]; simpl in *.
  - destruct (Hk a s1) as (evs2 & E2 & F2).
    exists (evs1 ++ evs2). rewrite E2, E1, app_assoc. split; [done|].
    apply Forall_app; auto.
  - eauto.
Qed.

Lemma emits_finally {A} P (body : M W E A) cleanup :
  emits P body -> emits P cleanup -> emits P (finally body cleanup).
Proof.
  intros Hb Hc s. unfold finally.
  destruct (Hb s) as (evs1 & E1 & F1).
  destruct (body s) as [r s1]; simpl in *.
  destruct (Hc s1) as (evs2 & E2 & F2).
  exists (evs1 ++ evs2).
  destruct (cleanup s1) as [[u|e] s2]; simpl in *;
    rewrite E2, E1, app_assoc; (split; [done | apply Forall_app; auto]).
Qed.

Lemma emits_for_each {A} P (l : list A) (body : A -> M W E unit) :
  (forall x, emits P (body x)) -> emits P (for_each l body).
Proof.
  intros Hb. induction l as [|x l IH]; simpl.
  - apply emits_ret.
  - apply emits_bind; auto.
Qed.

Lemma emits_run {A} P (c : M W E A) s r s' :
  emits P c -> c s = (r, s') ->
  exists evs, trace s' = trace s ++ evs /\ Forall P evs.
Proof. intros Hc Hr. specialize (Hc s). rewrite Hr in Hc. exact Hc. Qed.

Lemma emits_weaken {A} (P Q : Event E -> Prop) (c : M W E A) :
  (forall ev, P ev -> Q ev) -> emits P c -> emits Q c.
Proof.
  intros HPQ Hc s. destruct (Hc s) as (evs & E1 & F1).
  exists evs. split; [done|]. eapply Forall_impl; eauto.
Qed.
End Facts.

(** Decomposes an [emits] goal along the structure of the program. *)
Ltac emits_step :=
  first
    [ apply emits_ret | apply emits_raise | apply emits_lift | apply emits_ask
    | apply emits_bind | apply emits_finally | apply emits_for_each
    | apply emits_perform; [ try (simpl; tauto) | try (intros ?; simpl; tauto) ]
    | match goal with
      | |- forall _, _ => intro
      | |- emits _ (if ?b then _ else _) => destruct b
      | |- emits _ (match ?x with _ => _ end) => destruct x
      | |- emits _ (let '(_, _) := ?x in _) => destruct x
      end ].
Ltac emits_tac := repeat emits_step.
End EffFacts.

(** ** job.py: what a call does, step by step *)

Module JobFacts.
Import Job Eff EffFacts.

Lemma res_mapM_length {A B} (f : A -> Res B) (l : list A) (l' : list B) :
  res_mapM f l = Ok l' -> length l' = length l.
Proof.
  revert l'. induction l as [|x l IH]; simpl; intros l' Hl.
  - inversion Hl. reflexivity.
  - destruct (f x) as [y|e]; [|discriminate].
    destruct (res_mapM f l) as [ys|e]; [|discriminate].
    inversion Hl; subst. simpl. f_equal. auto.
Qed.

Section Facts.
Context {L : Lib} {W : Type} {P : Platform W}.
Implicit Types (s : St W Effect) (jd : JobDescription).

Lemma agg_ranges_length pos (l : list bytes) :
  length (agg_ranges pos l) = length l.
Proof.
  revert pos. induction l as [|d l IH]; simpl; intros pos; [|rewrite IH]; reflexivity.
Qed.

Lemma serializer_ok pre objs inc exc blobs mods :
  serializer pre objs inc exc = Ok (blobs, mods) -> blobs = map dumps objs.
Proof.
  unfold serializer. destruct (discover_modules objs); intros Hs; inversion Hs; auto.
Qed.

Lemma verify_args_length func iterdata extra data :
  verify_args func iterdata extra = Ok data -> length data = length iterdata.
Proof. apply res_mapM_length. Qed.

(** A successful image injection: the tag is the digest of the source, the
    runtime name of the dictionary becomes [base:tag], and the last thing
    done is the build of that image. *)
Lemma inject_ok jd func mod_paths s tag jd' s' :
  _inject_in_runtime_docker_image jd func mod_paths s = (Ok (tag, jd'), s') ->
  exists src evs,
    fn_source func = Some src
    /\ tag = md5_hexdigest src
    /\ jd' = set_runtime_name (runtime_name jd +:+ ":" +:+ tag) jd
    /\ trace s' = trace s ++ evs
         ++ [Done (BuildAndCreateRuntime (runtime_name jd +:+ ":" +:+ tag) "custom.dockerfile")].
Proof.
  unfold _inject_in_runtime_docker_image, call. intros Hrun.
  apply bind_ok in Hrun as (ex & s1 & Hex & Hrun). apply ask_ok in Hex as [-> ->].
  apply bind_ok in Hrun as (u1 & s2 & Hrm & Hrun).
  apply bind_ok in Hrun as (f_src & s3 & Hsrc & Hrun).
  apply lift_ok in Hsrc as [Hsrc ->].
  unfold getsource in Hsrc. destruct (fn_source func) as [src|] eqn:Esrc; [|discriminate].
  inversion Hsrc; subst f_src; clear Hsrc.
  apply bind_ok in Hrun as (u2 & s4 & Hmk & Hrun).
  apply bind_ok in Hrun as (u3 & s5 & Hfin & Hrun).
  apply bind_ok in Hrun as (u4 & s6 & Hbp & Hrun).
  apply bind_ok in Hrun as (u5 & s7 & Hbuild & Hrun).
  apply ret_ok in Hrun as [Hret ->]. inversion Hret; subst tag jd'; clear Hret.
  apply perform_ok in Hbuild as (w7 & _ & ->). simpl.
  eapply (emits_run (fun _ => True)) in Hrm as (e1 & T1 & _); [|emits_tac].
  eapply (emits_run (fun _ => True)) in Hmk as (e2 & T2 & _); [|emits_tac].
  eapply (emits_run (fun _ => True)) in Hfin as (e3 & T3 & _); [|unfold getsource; emits_tac].
  eapply (emits_run (fun _ => True)) in Hbp as (e4 & T4 & _); [|emits_tac].
  exists src, (e1 ++ e2 ++ e3 ++ e4).
  rewrite T4, T3, T2, T1, <- !app_assoc. auto.
Qed.

Section CreateJob.
Variables (config : Config) (executor_id job_id : string) (func : Func)
          (data : list PyVal) (preinstalls : list string) (runtime_memory : option Z)
          (extra_env : option (list (string * PyVal))) (invoke_pool_threads : Z)
          (include_modules : option (list string)) (exclude_modules : list string)
          (execution_timeout : option Z).

Local Abbreviation create_job :=
  (_create_job config executor_id job_id func data preinstalls runtime_memory
               extra_env invoke_pool_threads include_modules exclude_modules
               execution_timeout).
Local Abbreviation dk := (create_agg_data_key JOBS_PREFIX executor_id job_id).
Local Abbreviation fk := (create_func_key JOBS_PREFIX executor_id job_id).
Local Abbreviation objs := (OFunc func :: map OData data).

(** Everything a returned dictionary tells about the call that built it. *)
Lemma create_job_ok s jd s' :
  create_job s = (Ok (Job jd), s') ->
  exists src mods evs,
    data <> []
    /\ over_limit config data = false
    /\ fn_source func = Some src
    /\ total_calls jd = length data
    /\ data_key jd = Some dk
    /\ data_ranges jd = Some (agg_ranges 0 (data_blobs data))
    /\ func_key jd = Some fk
    /\ runtime_name jd = cfg_runtime config +:+ ":" +:+ md5_hexdigest src
    /\ metadata jd = Some (mkJobMeta (data_size data)
                             (length (pickle_func_module (dumps (OFunc func)) mods)))
    /\ parts_per_object jd = None
    /\ trace s' = trace s
         ++ [Done Breakpoint; Done (PutData dk (concat (data_blobs data)))]
         ++ evs
         ++ [Done (BuildAndCreateRuntime
                    (cfg_runtime config +:+ ":" +:+ md5_hexdigest src)
                    "custom.dockerfile")].
Proof.
  unfold _create_job, call. intros Hrun.
  destruct data as [|d0 data'] eqn:Edata; [discriminate|]. rewrite <- Edata in *.
  destruct (merge_modules config include_modules exclude_modules) as [inc exc].
  apply bind_ok in Hrun as (u1 & s1 & Hbp & Hrun).
  apply perform_ok in Hbp as (w1 & Hw1 & ->).
  apply bind_ok in Hrun as ([blobs mods] & s2 & Hser & Hrun).
  apply lift_ok in Hser as [Hser ->].
  apply serializer_ok in Hser. subst blobs.
  cbn [map] in Hrun. fold (data_blobs data) in Hrun.
  fold (data_size data) in Hrun. fold (over_limit config data) in Hrun.
  destruct (over_limit config data) eqn:Eover; [discriminate|].
  unfold agg_data in Hrun. cbv beta iota zeta in Hrun.
  apply bind_ok in Hrun as (u2 & s2 & Hput & Hrun).
  apply perform_ok in Hput as (w2 & Hw2 & ->). cbn [world trace] in Hrun.
  apply bind_ok in Hrun as (jd2 & s3 & Hinj & Hrun).
  apply ret_ok in Hrun as [Hret ->]. inversion Hret; subst jd; clear Hret.
  apply bind_ok in Hinj as ([tag jd3] & s4 & Hinj & Hr2).
  apply ret_ok in Hr2 as [-> ->]. cbn [snd].
  apply inject_ok in Hinj as (src & evs & Hsrc & -> & -> & Htr).
  exists src, mods, evs. cbn [world trace] in Htr.
  rewrite Htr, <- !app_assoc. cbn.
  repeat split; try done. congruence.
Qed.

(** Empty data: the empty result, and nothing at all has happened. *)
Lemma create_job_empty s :
  data = [] -> create_job s = (Ok EmptyJob, s).
Proof. intros ->. reflexivity. Qed.

Lemma uploads_app (tr1 tr2 : list (Event Effect)) :
  uploads (tr1 ++ tr2) = uploads tr1 ++ uploads tr2.
Proof. apply List.filter_app. Qed.

(** Data over the ceiling: the call raises, no upload has been attempted,
    and when the breakpoint of line 183 is passed and the serializer
    succeeds the exception is the one of line 204. *)
Lemma create_job_over_limit s :
  data <> [] -> over_limit config data = true ->
  exists e s',
    create_job s = (Raise e, s')
    /\ uploads (trace s') = uploads (trace s)
    /\ (forall w1 mods,
          exec Breakpoint (world s) = (None, w1) ->
          discover_modules objs = Ok mods ->
          e = size_error config executor_id job_id /\ s' = mkSt w1 (trace s ++ [Done Breakpoint])).
Proof.
  unfold _create_job, call. intros Hne Hover.
  destruct data as [|d0 data'] eqn:Edata; [done|]. rewrite <- Edata in *.
  destruct (merge_modules config include_modules exclude_modules) as [inc exc].
  unfold bind at 1. unfold perform.
  destruct (exec Breakpoint (world s)) as [[x|] w1].
  - eexists _, _. split; [reflexivity|]. cbn [trace]. split.
    + rewrite uploads_app. cbn. apply app_nil_r.
    + intros ? ? [=].
  - unfold bind at 1. unfold lift, serializer.
    destruct (discover_modules (OFunc func :: map OData data)) as [mods|e].
    + cbn [map]. fold (data_blobs data). fold (data_size data).
      fold (over_limit config data). rewrite Hover. unfold raise.
      eexists _, _. split; [reflexivity|]. cbn [trace]. split.
      * rewrite uploads_app. cbn. apply app_nil_r.
      * intros ? ? [= <-] _. split; reflexivity.
    + eexists _, _. split; [reflexivity|]. cbn [trace]. split.
      * rewrite uploads_app. cbn. apply app_nil_r.
      * intros ? ? _ [=].
Qed.

(** Data within the ceiling (or no ceiling): once the breakpoint is passed
    and the serializer succeeds, the next thing the call does is the
    upload of the aggregated data, whatever the size of the function and
    of the modules. *)
Lemma create_job_under_limit s w1 mods :
  data <> [] -> over_limit config data = false ->
  exec Breakpoint (world s) = (None, w1) ->
  discover_modules objs = Ok mods ->
  exists evs,
    trace (snd (create_job s))
    = trace s
      ++ [Done Breakpoint; outcome exec (PutData dk (concat (data_blobs data))) w1]
      ++ evs.
Proof.
  unfold _create_job, call. intros Hne Hover Hbp Hmods.
  destruct data as [|d0 data'] eqn:Edata; [done|]. rewrite <- Edata in *.
  destruct (merge_modules config include_modules exclude_modules) as [inc exc].
  unfold bind at 1. unfold perform at 1. rewrite Hbp.
  unfold bind at 1. unfold lift, serializer. rewrite Hmods.
  cbn [map]. fold (data_blobs data). fold (data_size data).
  fold (over_limit config data). rewrite Hover.
  unfold agg_data. cbv beta iota zeta.
  unfold bind at 1. unfold perform at 1, outcome. cbn [world trace].
  destruct (exec (PutData dk (concat (data_blobs data))) w1) as [[x|] w2].
  - cbn [fst snd trace]. exists []. by rewrite <- app_assoc.
  - match goal with |- context [snd (?c ?st)] =>
      destruct (emits_run (fun _ => True) c st (fst (c st)) (snd (c st)))
        as (evs & Htr & _); [| by destruct (c st) |]
    end.
    + unfold _inject_in_runtime_docker_image, call, getsource. emits_tac.
    + rewrite Htr. cbn [fst trace]. exists evs. by rewrite <- !app_assoc.
Qed.

Lemma create_job_never_puts_func : emits not_put_func create_job.
Proof.
  unfold _create_job, _inject_in_runtime_docker_image, call.
  destruct data; [emits_tac|].
  destruct (merge_modules config include_modules exclude_modules) as [inc exc].
  emits_tac.
Qed.
(** A returned dictionary carries both keys; the data has been uploaded
    under its key, and nothing has been uploaded under the function key. *)
Lemma create_job_keys s jd s' :
  create_job s = (Ok (Job jd), s') ->
  data_key jd = Some dk
  /\ func_key jd = Some fk
  /\ exists evs,
       trace s' = trace s ++ evs
       /\ In (Done (PutData dk (concat (data_blobs data)))) evs
       /\ Forall not_put_func evs.
Proof.
  intros Hrun.
  destruct (emits_run _ _ _ _ _ create_job_never_puts_func Hrun) as (evs & Htr & Hnf).
  apply create_job_ok in Hrun
    as (src & mods & evs' & _ & _ & _ & _ & Hdk & _ & Hfk & _ & _ & _ & Htr').
  repeat split; try done. exists evs. repeat split; try done.
  rewrite Htr' in Htr. apply app_inv_head in Htr. subst evs.
  cbn. auto.
Qed.
End CreateJob.

(** *** The map job *)

(** For a function that does not process stored objects the data of the job
    is the verified iterable: one call and one byte range per element of
    the caller's input. *)
Lemma create_map_job_total_calls
    config executor_id job_id map_function iterdata preinstalls runtime_memory
    extra_args extra_env obj_chunk_size obj_chunk_number invoke_pool_threads
    include_modules exclude_modules execution_timeout s jd s' :
  is_object_processing_function map_function = false ->
  create_map_job config executor_id job_id map_function iterdata preinstalls
                 runtime_memory extra_args extra_env obj_chunk_size obj_chunk_number
                 invoke_pool_threads include_modules exclude_modules execution_timeout s
  = (Ok (Job jd), s') ->
  total_calls jd = length iterdata
  /\ (length <$> data_ranges jd) = Some (length iterdata)
  /\ parts_per_object jd = None.
Proof.
  unfold create_map_job. intros Hobj Hrun. rewrite Hobj in Hrun.
  apply bind_ok in Hrun as (map_iterdata & s1 & Hver & Hrun).
  apply lift_ok in Hver as [Hver ->]. apply verify_args_length in Hver.
  apply bind_ok in Hrun as (u & s2 & _ & Hrun).
  apply bind_ok in Hrun as (parts & s3 & Hparts & Hrun).
  apply ret_ok in Hparts as [-> ->].
  apply bind_ok in Hrun as (job_description & s4 & Hjob & Hrun).
  apply ret_ok in Hrun as [<- ->].
  apply create_job_ok in Hjob
    as (src & mods & evs & _ & _ & _ & Htot & _ & Hranges & _ & _ & _ & Hppo & _).
  rewrite Htot, Hranges, Hver. cbn. repeat split; [|done].
  rewrite agg_ranges_length. unfold data_blobs. by rewrite !length_map, Hver.
Qed.

(** *** The grouping of the reduce job *)

Lemma reduce_loop_spec map_futures parts prev acc :
  fold_left
    (fun (st : nat * list PyVal) (total_partitions : nat) =>
       let '(prev_total_partitons, iterdata) := st in
       (Nat.add prev_total_partitons total_partitions,
        iterdata ++ [VList [VList (take total_partitions
                                        (drop prev_total_partitons map_futures))]]))
    parts (prev, acc)
  = ((prev + sum_list parts)%nat,
     acc ++ map as_call (slices_from prev parts map_futures)).
Proof.
  revert prev acc. induction parts as [|p parts IH]; intros prev acc; simpl.
  - by rewrite Nat.add_0_r, app_nil_r.
  - rewrite IH. f_equal; [lia|]. by rewrite <- app_assoc.
Qed.

Lemma reduce_slices_spec map_futures parts :
  reduce_slices map_futures parts = map as_call (slices_from 0 parts map_futures).
Proof. unfold reduce_slices. by rewrite reduce_loop_spec. Qed.

Lemma slices_from_lengths prev parts (map_futures : list PyVal) :
  (prev + sum_list parts <= length map_futures)%nat ->
  map length (slices_from prev parts map_futures) = parts.
Proof.
  revert prev. induction parts as [|p parts IH]; intros prev Hle; simpl in *; [done|].
  rewrite length_take, length_drop, IH by lia. f_equal. lia.
Qed.

Lemma slices_from_concat prev parts (map_futures : list PyVal) :
  concat (slices_from prev parts map_futures)
  = take (sum_list parts) (drop prev map_futures).
Proof.
  revert prev. induction parts as [|p parts IH]; intros prev; simpl; [done|].
  rewrite IH. rewrite <- (drop_drop map_futures p prev).
  rewrite <- take_take_drop. done.
Qed.

Lemma slices_from_length prev parts (map_futures : list PyVal) :
  length (slices_from prev parts map_futures) = length parts.
Proof. revert prev. induction parts; intros; simpl; auto. Qed.

Lemma reduce_iterdata_length map_job map_futures reducer_one_per_object :
  length (reduce_iterdata map_job map_futures reducer_one_per_object)
  = match map_job_parts map_job with
    | Some parts => if reducer_one_per_object then length parts else 1%nat
    | None => 1%nat
    end.
Proof.
  unfold reduce_iterdata. destruct (map_job_parts map_job) as [parts|]; [|done].
  destruct reducer_one_per_object; [|done].
  by rewrite reduce_slices_spec, length_map, slices_from_length.
Qed.
End Facts.
End JobFacts.

(** ** Paths and digests *)

Module PathFacts.

Lemma append_assoc (a b c : string) : (a +:+ b) +:+ c = a +:+ b +:+ c.
Proof.
  induction a as [|x a IH]; [done|].
  change (String x ((a +:+ b) +:+ c) = String x (a +:+ b +:+ c)). by rewrite IH.
Qed.

Lemma endswith_slash_app (a b : string) :
  b <> EmptyString -> endswith_slash (a +:+ b) = endswith_slash b.
Proof.
  intros Hb. induction a as [|c a IH]; [done|].
  change (String c a +:+ b) with (String c (a +:+ b)).
  destruct (a +:+ b) as [|c' r] eqn:Hab.
  - destruct a; [by cbn in Hab|discriminate].
  - exact IH.
Qed.

Lemma is_empty_str_app (a b : string) :
  is_empty_str a = false -> is_empty_str (a +:+ b) = false.
Proof. by destruct a. Qed.

(** Joining plain components onto a directory that is not empty and does not
    end in a separator puts exactly one separator before each. *)
Lemma path_join_plain (a : string) (p : list string) :
  is_empty_str a = false -> endswith_slash a = false -> Forall plain p ->
  path_join a p = str_join "/" (a :: p)
  /\ is_empty_str (path_join a p) = false
  /\ endswith_slash (path_join a p) = false.
Proof.
  intros Ha1 Ha2 Hp. revert a Ha1 Ha2.
  induction Hp as [|c p (Hc1 & Hc2 & Hc3) Hp IH]; intros a Ha1 Ha2; [done|].
  assert (Hne : "/" +:+ c <> EmptyString) by done.
  assert (Hc : c <> EmptyString) by (by destruct c).
  destruct (IH (a +:+ "/" +:+ c)) as (Hj & He & Hs).
  { by apply is_empty_str_app. }
  { rewrite endswith_slash_app by done. change ("/" +:+ c) with (String "/" c).
    cbn [endswith_slash]. by destruct c. }
  unfold path_join in *. cbn [fold_left]. unfold path_join2 at 2 4 6.
  rewrite Hc1, Ha1, Ha2. cbn [orb]. split; [|by split].
  rewrite Hj. destruct p as [|c' p]; [done|].
  cbn [str_join]. by rewrite !append_assoc.
Qed.

(** An absolute component discards what precedes it, as [os.path.join]
    does. *)
Example path_join_absolute_component :
  path_join "/tmp/lithops" ["storage"; "lithops.jobs"; "/exec0"; "M000"; "job.json"]
  = "/exec0/M000/job.json".
Proof. reflexivity. Qed.

(** RFC 1321 test vectors, and the digests of the two function sources
    used below. *)
Example md5_empty : MD5.hexdigest EmptyString = "d41d8cd98f00b204e9800998ecf8427e".
Proof. by vm_compute. Qed.

Example md5_abc : MD5.hexdigest "abc" = "900150983cd24fb0d6963f7d28e17f72".
Proof. by vm_compute. Qed.

Example md5_two_blocks :
  MD5.hexdigest "aaaaaaaaaaaaaaaaaaaaaaaaaaaaaaaaaaaaaaaaaaaaaaaaaaaaaaaaaaaaaaaa"
  = "014842d480b571495a4a0363793f7367".
Proof. by vm_compute. Qed.

Example md5_double :
  MD5.hexdigest "def double(x): return x * 2" = "c02b5218eac6a24c369124c3bf721593".
Proof. by vm_compute. Qed.
End PathFacts.

(** ** The concrete library: sizes *)

Module JobDemoFacts.
Import Job JobDemo.

Lemma one_MiB_bytes : Z.of_nat one_MiB = 1024 ^ 2.
Proof. unfold one_MiB. apply Z2Nat.id. by vm_compute. Qed.

Lemma demo_data_size_pad func_pad data_pad d data :
  (data_pad <= @data_size (demo_lib func_pad data_pad) (d :: data))%nat.
Proof.
  unfold data_size, data_blobs. cbn [map fmap list_fmap sum_list_with dumps demo_lib id].
  rewrite length_app, length_replicate. lia.
Qed.

Lemma demo_func_module_size_pad func_pad data_pad func_str mod_paths :
  (func_pad <= length (@pickle_func_module (demo_lib func_pad data_pad) func_str mod_paths))%nat.
Proof.
  cbn [pickle_func_module demo_lib]. rewrite length_app, length_replicate. lia.
Qed.

(** Call arguments padded beyond one MiB are over a ceiling of one MiB. *)
Lemma demo_over_limit func_pad d data :
  @over_limit (demo_lib func_pad (S one_MiB)) config_1MiB (d :: data) = true.
Proof.
  unfold over_limit. change (data_limit_of config_1MiB) with 1.
  apply andb_true_intro. split; [reflexivity|]. apply Z.ltb_lt.
  pose proof (demo_data_size_pad func_pad (S one_MiB) d data) as Hpad.
  pose proof one_MiB_bytes. lia.
Qed.
End JobDemoFacts.

(** ** job.py: the properties of the specification *)

Module JobSpec.
Import Job Eff EffFacts JobFacts JobDemo JobDemoFacts.

(** C6.  A job-construction call whose data is empty returns the empty result
    and leaves the world and the trace as they were: no breakpoint, no
    serialization, no upload. *)
Theorem empty_input_short_circuits
    (L : Lib) (W : Type) (P : Platform W) (s : St W Effect)
    config executor_id job_id func preinstalls runtime_memory extra_env
    invoke_pool_threads include_modules exclude_modules execution_timeout :
  _create_job config executor_id job_id func [] preinstalls runtime_memory extra_env
              invoke_pool_threads include_modules exclude_modules execution_timeout s
  = (Ok EmptyJob, s).
Proof. reflexivity. Qed.

(** C5.  A dictionary returned by [_create_job] has one byte range per
    element of the data it was built from, and [total_calls] is that number. *)
Theorem ranges_and_total_calls_match_input
    (L : Lib) (W : Type) (P : Platform W) (s s' : St W Effect) jd
    config executor_id job_id func data preinstalls runtime_memory extra_env
    invoke_pool_threads include_modules exclude_modules execution_timeout :
  _create_job config executor_id job_id func data preinstalls runtime_memory extra_env
              invoke_pool_threads include_modules exclude_modules execution_timeout s
  = (Ok (Job jd), s') ->
  exists ranges,
    data_ranges jd = Some ranges
    /\ length ranges = total_calls jd
    /\ total_calls jd = length data
    /\ data <> [].
Proof.
  intros Hrun.
  apply create_job_ok in Hrun
    as (src & mods & evs & Hne & _ & _ & Htot & _ & Hranges & _).
  exists (agg_ranges 0 (data_blobs data)). repeat split; try done.
  rewrite agg_ranges_length. unfold data_blobs. by rewrite !length_map.
Qed.

Lemma ranges_and_total_calls_match_input_witness :
  exists ranges,
    data_ranges job123 = Some ranges
    /\ length ranges = total_calls job123
    /\ total_calls job123 = length data123
    /\ data123 <> [].
Proof.
  apply (ranges_and_total_calls_match_input (demo_lib 0 0) World demo_platform s0
           (snd (run_map (demo_lib 0 0) config0 "M000" double data123)) job123
           config0 "exec0" "M000" double data123 ["numpy"] None None 128
           (Some []) [] None).
  vm_compute. reflexivity.
Defined.

(** C4.  With per-object grouping and partition counts that sum to the
    number of map futures, the reduce calls are consecutive slices of the
    futures: one call per count, each slice as long as its count, and the
    slices put end to end are the futures in their order. *)
Theorem per_object_grouping_slices_contiguously
    (jd : JobDescription) (parts : list nat) (map_futures : list PyVal) :
  parts_per_object jd = Some parts ->
  sum_list parts = length map_futures ->
  exists groups,
    reduce_iterdata (Job jd) map_futures true = map as_call groups
    /\ map length groups = parts
    /\ concat groups = map_futures.
Proof.
  intros Hparts Hsum. exists (slices_from 0 parts map_futures).
  unfold reduce_iterdata. cbn [map_job_parts]. rewrite Hparts.
  split; [apply reduce_slices_spec|]. split.
  - apply slices_from_lengths. lia.
  - rewrite slices_from_concat, Hsum, drop_0. by apply take_ge.
Qed.

Lemma per_object_grouping_slices_contiguously_witness :
  exists groups,
    reduce_iterdata map_job_2_3 futures5 true = map as_call groups
    /\ map length groups = [2; 3]%nat
    /\ concat groups = futures5.
Proof.
  apply (per_object_grouping_slices_contiguously job_2_3 [2; 3]%nat futures5);
    reflexivity.
Defined.

(** The example scenario of the specification: two groups, of two and of
    three futures, in the order of the objects. *)
Example reduce_iterdata_2_3 :
  reduce_iterdata map_job_2_3 futures5 true
  = [ VList [VList [VFuture "00000"; VFuture "00001"]];
      VList [VList [VFuture "00002"; VFuture "00003"; VFuture "00004"]] ].
Proof. reflexivity. Qed.

(** C10.  The dictionary of a reduce job has [total_calls] 1 when the calls
    are not grouped per object, and the number of partition counts of the
    map job when they are. *)
Theorem reduce_job_total_calls
    (L : Lib) (W : Type) (P : Platform W) (s s' : St W Effect) jd
    config executor_id reduce_job_id reduce_function map_job map_futures preinstalls
    reducer_one_per_object runtime_memory extra_env include_modules exclude_modules
    execution_timeout :
  create_reduce_job config executor_id reduce_job_id reduce_function map_job map_futures
                    preinstalls reducer_one_per_object runtime_memory extra_env
                    include_modules exclude_modules execution_timeout s
  = (Ok (Job jd), s') ->
  (reducer_one_per_object = false \/ map_job_parts map_job = None ->
   total_calls jd = 1%nat)
  /\ (forall parts,
        reducer_one_per_object = true -> map_job_parts map_job = Some parts ->
        total_calls jd = length parts).
Proof.
  unfold create_reduce_job. intros Hrun.
  apply bind_ok in Hrun as (iterdata & s1 & Hver & Hrun).
  apply lift_ok in Hver as [Hver ->].
  apply verify_args_length in Hver.
  apply create_job_ok in Hrun as (src & mods & evs & _ & _ & _ & Htot & _).
  rewrite Htot, Hver, reduce_iterdata_length.
  split.
  - intros [-> | ->]; [by destruct (map_job_parts map_job)|done].
  - by intros parts -> ->.
Qed.

Lemma reduce_job_total_calls_witness :
  (true = false \/ map_job_parts map_job_2_3 = None ->
   total_calls job_reduce_2_3 = 1%nat)
  /\ (forall parts,
        true = true -> map_job_parts map_job_2_3 = Some parts ->
        total_calls job_reduce_2_3 = length parts).
Proof.
  apply (reduce_job_total_calls (demo_lib 0 0) World demo_platform s0
           (snd (run_reduce (demo_lib 0 0) map_job_2_3 true)) job_reduce_2_3
           config0 "exec0" "R000" total map_job_2_3 futures5 ["numpy"] true
           None None (Some []) [] None).
  vm_compute. reflexivity.
Defined.

(** C7.  Two image injections of functions with the same source text yield
    the same tag, whatever the dictionaries, the module paths and the worlds;
    over the same base runtime they name the same extension image. *)
Theorem same_source_same_tag
    (L : Lib) (W : Type) (P : Platform W) (s1 s1' s2 s2' : St W Effect)
    jd1 jd1' jd2 jd2' func1 func2 mod_paths1 mod_paths2 tag1 tag2 :
  fn_source func1 = fn_source func2 ->
  _inject_in_runtime_docker_image jd1 func1 mod_paths1 s1 = (Ok (tag1, jd1'), s1') ->
  _inject_in_runtime_docker_image jd2 func2 mod_paths2 s2 = (Ok (tag2, jd2'), s2') ->
  tag1 = tag2
  /\ (runtime_name jd1 = runtime_name jd2 -> runtime_name jd1' = runtime_name jd2').
Proof.
  intros Hsrc H1 H2.
  apply inject_ok in H1 as (src1 & evs1 & E1 & -> & -> & _).
  apply inject_ok in H2 as (src2 & evs2 & E2 & -> & -> & _).
  assert (src1 = src2) as -> by congruence.
  split; [done|]. cbn. by intros ->.
Qed.

Lemma same_source_same_tag_witness :
  "c02b5218eac6a24c369124c3bf721593" = "c02b5218eac6a24c369124c3bf721593"
  /\ (runtime_name job_2_3 = runtime_name job_other ->
      runtime_name (set_runtime_name "python3.6:c02b5218eac6a24c369124c3bf721593" job_2_3)
      = runtime_name (set_runtime_name "python3.6:c02b5218eac6a24c369124c3bf721593" job_other)).
Proof.
  apply (same_source_same_tag (demo_lib 0 0) World demo_platform
           s0 (snd (run_inject job_2_3 double ["/home/user/project/helpers"]))
           s0 (snd (run_inject job_other double
                                ["/usr/lib/python3/site-packages/numpy";
                                 "/home/user/project/helpers"]))
           job_2_3 _ job_other _
           double double
           ["/home/user/project/helpers"]
           ["/usr/lib/python3/site-packages/numpy"; "/home/user/project/helpers"]).
  - reflexivity.
  - vm_compute. reflexivity.
  - vm_compute. reflexivity.
Defined.

(** C1, as the code has it.  The size check counts the serialized call
    arguments only, against the configured ceiling in MiB (the default one
    when none is configured; a ceiling of 0 switches the check off).  Over
    the ceiling the call raises and no upload has been attempted; within it,
    once the breakpoint is passed and the serializer has succeeded, the call
    goes on to upload the data, whatever the size of the function and of the
    modules. *)
Theorem size_check_counts_data_only
    (L : Lib) (W : Type) (P : Platform W) (s : St W Effect)
    config executor_id job_id func data preinstalls runtime_memory extra_env
    invoke_pool_threads include_modules exclude_modules execution_timeout :
  let create_job :=
    _create_job config executor_id job_id func data preinstalls runtime_memory extra_env
                invoke_pool_threads include_modules exclude_modules execution_timeout in
  data <> [] ->
  (over_limit config data = true ->
   exists e s',
     create_job s = (Raise e, s') /\ uploads (trace s') = uploads (trace s))
  /\ (over_limit config data = false ->
      forall w1 mods,
        exec Breakpoint (world s) = (None, w1) ->
        discover_modules (OFunc func :: map OData data) = Ok mods ->
        exists evs,
          trace (snd (create_job s))
          = trace s
            ++ [Done Breakpoint;
                outcome exec (PutData (create_agg_data_key JOBS_PREFIX executor_id job_id)
                                      (concat (data_blobs data))) w1]
            ++ evs).
Proof.
  intros create_job Hne. subst create_job. split.
  - intros Hover.
    destruct (create_job_over_limit config executor_id job_id func data preinstalls
                runtime_memory extra_env invoke_pool_threads include_modules
                exclude_modules execution_timeout s Hne Hover)
      as (e & s' & Hrun & Hup & _).
    eauto.
  - intros Hunder w1 mods Hbp Hmods. by eapply create_job_under_limit.
Qed.

Lemma size_check_counts_data_only_witness :
  exists e s',
    run_map (demo_lib 0 (S one_MiB)) config_1MiB "M000" double data123 = (Raise e, s')
    /\ uploads (trace s') = uploads (trace s0).
Proof.
  destruct (size_check_counts_data_only (demo_lib 0 (S one_MiB)) World demo_platform s0
              config_1MiB "exec0" "M000" double data123 ["numpy"] None None 128
              (Some []) [] None) as [Hover _].
  - discriminate.
  - apply Hover. apply demo_over_limit.
Defined.

(** C1, as stated, fails: with a ceiling of one MiB, 8 bytes of call
    arguments and a function-and-modules blob of more than one MiB, the
    combined size is over the ceiling, and the data is uploaded all the same. *)
Lemma combined_size_over_ceiling_is_uploaded :
  let L := demo_lib (S one_MiB) 0 in
  let data := [VDict [("x", VInt 1)]] in
  let r := run_map L config_1MiB "M000" double data in
  (forall mod_paths,
     Z.of_nat (data_size data
               + length (pickle_func_module (dumps (OFunc double)) mod_paths))
     > data_limit_of config_1MiB * 1024 ^ 2)
  /\ exists evs,
       trace (snd r)
       = [Done Breakpoint;
          Done (PutData "pywren.jobs/exec0/M000/aggdata.pickle" (to_bytes "{'x': 1}"))]
         ++ evs.
Proof.
  intros L data r. subst L. split.
  - intros mod_paths.
    pose proof (demo_func_module_size_pad (S one_MiB) 0
                  (@dumps (demo_lib (S one_MiB) 0) (OFunc double)) mod_paths).
    pose proof one_MiB_bytes. change (data_limit_of config_1MiB) with 1. lia.
  - subst r. unfold run_map.
    destruct (create_job_under_limit (L := demo_lib (S one_MiB) 0)
                config_1MiB "exec0" "M000" double data ["numpy"]
                None None 128 (Some []) [] None s0 w0
                [("helpers", "/home/user/project/helpers");
                 ("numpy", "/usr/lib/python3/site-packages/numpy")])
      as (evs & Htr); try reflexivity; [discriminate|].
    exists evs. exact Htr.
Qed.

(** C2, on a configuration whose backend is no container backend.  The
    function is not uploaded: the call stages it into an extension image
    tagged with the digest of its source, builds that image and rewrites the
    runtime name, and the function key names no object of the store. *)
Theorem function_staged_on_localhost_backend :
  let r := run_map (demo_lib 0 0) config0 "M000" double data123 in
  cfg_compute_backend config0 = "localhost"
  /\ fst r = Ok (Job job123)
  /\ Forall not_put_func (trace (snd r))
  /\ last (trace (snd r))
     = Some (Done (BuildAndCreateRuntime
                     ("python3.6:" +:+ MD5.hexdigest "def double(x): return x * 2")
                     "custom.dockerfile"))
  /\ storage (world (snd r)) !! "pywren.jobs/exec0/M000/func.pickle" = None.
Proof.
  intros r. split; [reflexivity|]. split; [by vm_compute|].
  split; [|split; by vm_compute].
  destruct (create_job_never_puts_func (L := demo_lib 0 0) config0 "exec0" "M000" double
              data123 ["numpy"] None None 128 (Some []) [] None s0)
    as (evs & Htr & Hnf).
  subst r. unfold run_map. rewrite Htr. exact Hnf.
Qed.

(** C3, on a reduce job.  The returned dictionary carries a data key and a
    function key; the data is in the store under the first, and the store
    has no object under the second: no upload of the function took place. *)
Theorem func_key_carried_without_upload :
  let r := run_reduce (demo_lib 0 0) map_job_2_3 true in
  fst r = Ok (Job job_reduce_2_3)
  /\ data_key job_reduce_2_3 = Some "pywren.jobs/exec0/R000/aggdata.pickle"
  /\ func_key job_reduce_2_3 = Some "pywren.jobs/exec0/R000/func.pickle"
  /\ is_Some (storage (world (snd r)) !! "pywren.jobs/exec0/R000/aggdata.pickle")
  /\ storage (world (snd r)) !! "pywren.jobs/exec0/R000/func.pickle" = None
  /\ uploads (trace (snd r))
     = [Done (PutData "pywren.jobs/exec0/R000/aggdata.pickle"
                      (concat (@data_blobs (demo_lib 0 0)
                                 [VDict [("results", VList (take 2 futures5))];
                                  VDict [("results", VList (drop 2 futures5))]])))].
Proof.
  intros r. repeat split; try by vm_compute.
  vm_compute. eauto.
Qed.
End JobSpec.

(** ** compute.py: the properties of the specification *)

Module ComputeSpec.
Import Compute ComputeDemo.

(** C8.  When the module of the configured backend cannot be imported
    (unknown backend name), or its [ComputeBackend] raises on the backend's
    section, [__init__] raises that very exception; and a [Compute] object
    that is returned holds the handler built by the module of the configured
    name from the section of that name: there is no other backend it could
    fall back to. *)
Theorem backend_resolution_failure_is_fatal
    {H : Type} (import_module : string -> Res (BackendModule H))
    (getenv : string -> option string) (compute_config : ComputeConfig) :
  let location name := "pywren_ibm_cloud.compute.backends." +:+ name in
  let result := snd (init import_module getenv compute_config) in
  (forall name e,
     cfg_backend compute_config = Some name ->
     import_module (location name) = Raise e ->
     result = Raise e)
  /\ (forall name cb_module ComputeBackend_cls section e,
        cfg_backend compute_config = Some name ->
        import_module (location name) = Ok cb_module ->
        ComputeBackend cb_module = Some ComputeBackend_cls ->
        cfg_entries compute_config !! name = Some section ->
        ComputeBackend_cls section = Raise e ->
        result = Raise e)
  /\ (forall c,
        result = Ok c ->
        exists name cb_module ComputeBackend_cls section handler,
          cfg_backend compute_config = Some name
          /\ import_module (location name) = Ok cb_module
          /\ ComputeBackend cb_module = Some ComputeBackend_cls
          /\ cfg_entries compute_config !! name = Some section
          /\ ComputeBackend_cls section = Ok handler
          /\ backend c = name
          /\ compute_handler c = Some handler).
Proof.
  intros location result. subst location result. unfold init, resolve_backend.
  repeat split.
  - intros name e -> ->. by destruct (is_exception e).
  - intros name m cls section e -> -> -> -> ->. by destruct (is_exception e).
  - intros c. destruct (cfg_backend compute_config) as [name|]; [|discriminate].
    destruct (import_module _) as [m|e] eqn:Himp; [|by destruct (is_exception e)].
    destruct (ComputeBackend m) as [cls|] eqn:Hcls; [|by destruct (is_exception _)].
    destruct (cfg_entries compute_config !! name) as [section|] eqn:Hsec;
      [|by destruct (is_exception _)].
    destruct (cls section) as [h|e] eqn:Hh; [|by destruct (is_exception e)].
    intros [= <-]. exists name, m, cls, section, h. cbn. repeat split; done.
Qed.

(** An unknown backend name: the import error reaches the caller, after
    having been logged. *)
Example unknown_backend_raises :
  init demo_import demo_getenv config_unknown
  = (["There was en error trying to create the 'No module named "
      +:+ "'pywren_ibm_cloud.compute.backends.lambda'' compute backend"],
     Raise (PyExc "ModuleNotFoundError"
                  "No module named 'pywren_ibm_cloud.compute.backends.lambda'")).
Proof. reflexivity. Qed.

(** A backend whose construction fails: the error of the constructor reaches
    the caller. *)
Example failing_backend_construction_raises :
  snd (init demo_import demo_getenv config_bad_section)
  = Raise (PyExc "Exception" "missing namespace").
Proof. reflexivity. Qed.

(** A backend that resolves: the handler is the one of the configured name. *)
Example configured_backend_is_held :
  compute_handler <$> (match snd (init demo_import demo_getenv config_ibm_cf) with
                       | Ok c => Some c
                       | Raise _ => None
                       end)
  = Some (Some "ibm_cf@dev").
Proof. reflexivity. Qed.
End ComputeSpec.

(** ** localhost.py: what [run_job] does, step by step *)

Module LocalhostFacts.
Import Localhost Eff EffFacts.

Section Facts.
Variables TEMP STORAGE_DIR JOBS_PREFIX : string.
Variable json_dumps : PyVal -> string.
Context {W : Type} {P : Platform W}.

Local Abbreviation job_file := (job_file_of STORAGE_DIR JOBS_PREFIX).
Local Abbreviation job_dir := (job_dir_of STORAGE_DIR JOBS_PREFIX).
Local Abbreviation log_file := (path_join STORAGE_DIR ["local_handler.log"]).

Lemma run_job_unfold self job_payload :
  run_job TEMP STORAGE_DIR JOBS_PREFIX json_dumps self job_payload
  = bind (get_execution_cmd TEMP STORAGE_DIR (env self) (pl_runtime_name job_payload))
         (fun exec_command =>
            write_and_launch STORAGE_DIR JOBS_PREFIX json_dumps exec_command job_payload).
Proof. reflexivity. Qed.

Lemma probe_is_no_launch ev : is_probe ev -> ~ is_launch ev.
Proof. destruct ev as [[]|[] ?]; cbn; tauto. Qed.

Lemma written_before_launch_after_probe file document probe evs :
  Forall is_probe probe ->
  written_before_launch file document evs ->
  written_before_launch file document (probe ++ evs).
Proof.
  intros Hprobe Hevs i ev Hi Hl.
  destruct (decide (i < length probe)%nat) as [Hlt|Hge].
  - rewrite lookup_app_l in Hi by done.
    apply (Forall_lookup_1 _ _ _ _ Hprobe) in Hi.
    by apply probe_is_no_launch in Hi.
  - rewrite lookup_app_r in Hi by lia.
    destruct (Hevs _ _ Hi Hl) as (Hagainst & j & Hj & Hw).
    split; [done|]. exists (length probe + j)%nat. split; [lia|].
    rewrite lookup_app_r by lia. by replace (length probe + j - length probe)%nat with j by lia.
Qed.

(** The steps after the command is known: the trace grows by the
    directory, the write, the log and the launch, in this order, up to the
    first step that fails. *)
Lemma write_and_launch_spec exec_command job_payload (s : St W Effect) :
  let out := write_and_launch STORAGE_DIR JOBS_PREFIX json_dumps exec_command job_payload s in
  let document := json_dumps (pl_document job_payload) in
  exists evs,
    trace (snd out) = trace s ++ evs
    /\ written_before_launch (job_file job_payload) document evs
    /\ (fst out = Ok tt ->
        evs = [Done (Makedirs (job_dir job_payload));
               Done (WriteFile (job_file job_payload) document);
               Done (OpenAppend log_file);
               Done (Popen (exec_command +:+ " run " +:+ job_file job_payload) log_file)]).
Proof.
  intros out document. subst out.
  unfold write_and_launch, call, bind, perform.
  change (path_join (job_dir job_payload) ["job.json"]) with (job_file job_payload).
  fold document.
  destruct (exec (Makedirs _) (world s)) as [[x1|] w1]; cbn [world trace fst snd];
    [|destruct (exec (WriteFile _ _) w1) as [[x2|] w2]; cbn [world trace fst snd];
      [|destruct (exec (OpenAppend _) w2) as [[x3|] w3]; cbn [world trace fst snd];
        [|destruct (exec (Popen _ _) w3) as [[x4|] w4]; cbn [world trace fst snd]]]];
    rewrite <- ?app_assoc; cbn [app];
    eexists; (split; [reflexivity|]); (split; [|try discriminate; try done]);
    intros i ev Hi Hl;
    repeat (destruct i as [|i];
            [injection Hi as <-; try (exfalso; exact Hl)|]);
    try discriminate;
    (split; [cbn; eauto|]); exists 1%nat; (split; [lia|reflexivity]).
Qed.

(** The only launch among these steps is the launch of the command given,
    against the job file, with the log as its output. *)
Lemma write_and_launch_launches exec_command job_payload (s : St W Effect) evs ev :
  let out := write_and_launch STORAGE_DIR JOBS_PREFIX json_dumps exec_command job_payload s in
  let launch := Popen (exec_command +:+ " run " +:+ job_file job_payload) log_file in
  trace (snd out) = trace s ++ evs -> In ev evs -> is_launch ev ->
  ev = Done launch \/ exists x, ev = Failed launch x.
Proof.
  intros out launch. subst out launch.
  unfold write_and_launch, call, bind, perform.
  change (path_join (job_dir job_payload) ["job.json"]) with (job_file job_payload).
  destruct (exec (Makedirs _) (world s)) as [[x1|] w1]; cbn [world trace fst snd];
    [|destruct (exec (WriteFile _ _) w1) as [[x2|] w2]; cbn [world trace fst snd];
      [|destruct (exec (OpenAppend _) w2) as [[x3|] w3]; cbn [world trace fst snd];
        [|destruct (exec (Popen _ _) w3) as [[x4|] w4]; cbn [world trace fst snd]]]];
    rewrite <- ?app_assoc; cbn [app];
    intros Htr%app_inv_head; subst evs; cbn [In];
    intros Hin Hl; repeat (destruct Hin as [<-|Hin]; [try (exfalso; exact Hl)|]);
    try (exfalso; exact Hin); eauto.
Qed.

(** On a machine that accepts the four calls, the steps run to their end. *)
Lemma write_and_launch_runs exec_command job_payload (s : St W Effect) w1 w2 w3 w4 :
  let document := json_dumps (pl_document job_payload) in
  let launch := Popen (exec_command +:+ " run " +:+ job_file job_payload) log_file in
  exec (Makedirs (job_dir job_payload)) (world s) = (None, w1) ->
  exec (WriteFile (job_file job_payload) document) w1 = (None, w2) ->
  exec (OpenAppend log_file) w2 = (None, w3) ->
  exec launch w3 = (None, w4) ->
  write_and_launch STORAGE_DIR JOBS_PREFIX json_dumps exec_command job_payload s
  = (Ok tt,
     mkSt w4 (trace s ++ [Done (Makedirs (job_dir job_payload));
                          Done (WriteFile (job_file job_payload) document);
                          Done (OpenAppend log_file);
                          Done launch])).
Proof.
  intros document launch H1 H2 H3 H4. subst document launch.
  unfold write_and_launch, call, bind, perform.
  change (path_join (job_dir job_payload) ["job.json"]) with (job_file job_payload).
  rewrite H1. cbn [world trace]. rewrite H2. cbn [world trace]. rewrite H3.
  cbn [world trace]. rewrite H4. by rewrite <- !app_assoc.
Qed.

(** With a storage directory and components that are plain, the job file is
    [<storage>/<bucket>/<jobs-prefix>/<executor-id>/<job-id>/job.json]. *)
Lemma job_file_plain job_payload :
  is_empty_str STORAGE_DIR = false -> endswith_slash STORAGE_DIR = false ->
  plain JOBS_PREFIX -> plain (pl_storage_bucket job_payload) ->
  plain (pl_executor_id job_payload) -> plain (pl_job_id job_payload) ->
  job_file job_payload
  = STORAGE_DIR +:+ "/" +:+ pl_storage_bucket job_payload +:+ "/" +:+ JOBS_PREFIX
    +:+ "/" +:+ pl_executor_id job_payload +:+ "/" +:+ pl_job_id job_payload
    +:+ "/job.json".
Proof.
  intros Hs1 Hs2 Hp Hb He Hj. unfold job_file_of.
  destruct (PathFacts.path_join_plain STORAGE_DIR
              [pl_storage_bucket job_payload; JOBS_PREFIX;
               pl_executor_id job_payload; pl_job_id job_payload; "job.json"])
    as [-> _]; [done|done| |done].
  repeat (constructor; [done|]). by repeat constructor.
Qed.
End Facts.
End LocalhostFacts.

(** ** localhost.py: the property of the specification *)

Module LocalhostSpec.
Import Localhost Eff EffFacts LocalhostFacts LocalhostDemo.

(** C9.  [run_job] launches the command its environment gives, against the
    job file, once the payload is in that file.  The job file is the path
    joined from the storage directory, the bucket, the jobs prefix, the
    executor id, the job id and [job.json].

    What every run adds to the trace: every launch in it is a launch against
    the job file after the JSON document of the payload has been written to
    that file; its command is the command [get_execution_cmd] of the
    environment has returned for the runtime of the job, followed by [run]
    and the job file, and its output is the log.  A run that returns has made
    the directory, written the file, opened the log and launched the command,
    in this order, after at most the probe of the user id.

    That the run takes place: once the command is resolved, on a machine that
    accepts the making of the directory, the write, the opening of the log
    and the launch, [run_job] returns, the trace grown by exactly these four
    calls.  The command is resolved without a call in the default
    environment, to the interpreter and the handler file; in the container
    environment by the probe of the user id, to the [docker run] line for
    that user, the runtime of the job and the handler file.  When the command
    cannot be resolved, [run_job] raises and does nothing more. *)
Theorem job_file_written_before_launch
    (TEMP STORAGE_DIR JOBS_PREFIX : string) (json_dumps : PyVal -> string)
    (W : Type) (P : Platform W) (self : LocalhostHandler) (job_payload : JobPayload)
    (s : St W Effect) :
  let out := run_job TEMP STORAGE_DIR JOBS_PREFIX json_dumps self job_payload s in
  let resolved :=
    get_execution_cmd TEMP STORAGE_DIR (env self) (pl_runtime_name job_payload) s in
  let job_dir := job_dir_of STORAGE_DIR JOBS_PREFIX job_payload in
  let job_file := job_file_of STORAGE_DIR JOBS_PREFIX job_payload in
  let document := json_dumps (pl_document job_payload) in
  let log_file := path_join STORAGE_DIR ["local_handler.log"] in
  let launch exec_command := Popen (exec_command +:+ " run " +:+ job_file) log_file in
  (exists evs,
     trace (snd out) = trace s ++ evs
     /\ written_before_launch job_file document evs
     /\ (forall ev,
           In ev evs -> is_launch ev ->
           exists exec_command s1,
             resolved = (Ok exec_command, s1)
             /\ (ev = Done (launch exec_command)
                 \/ exists x, ev = Failed (launch exec_command) x))
     /\ (fst out = Ok tt ->
         exists probe exec_command s1,
           Forall is_probe probe
           /\ resolved = (Ok exec_command, s1)
           /\ trace s1 = trace s ++ probe
           /\ evs = probe
                    ++ [Done (Makedirs job_dir);
                        Done (WriteFile job_file document);
                        Done (OpenAppend log_file);
                        Done (launch exec_command)]))
  /\ (forall exec_command s1 w1 w2 w3 w4,
        resolved = (Ok exec_command, s1) ->
        exec (Makedirs job_dir) (world s1) = (None, w1) ->
        exec (WriteFile job_file document) w1 = (None, w2) ->
        exec (OpenAppend log_file) w2 = (None, w3) ->
        exec (launch exec_command) w3 = (None, w4) ->
        out = (Ok tt,
               mkSt w4 (trace s1 ++ [Done (Makedirs job_dir);
                                     Done (WriteFile job_file document);
                                     Done (OpenAppend log_file);
                                     Done (launch exec_command)])))
  /\ match env self with
     | DefaultEnv interpreter =>
         resolved = (Ok (interpreter +:+ " " +:+ HANDLER_FILE STORAGE_DIR), s)
     | DockerEnv _ =>
         forall w uid,
           exec (RunCmd "id -u $USER") (world s) = (None, w) ->
           user_id w = Ok uid ->
           resolved
           = (Ok ("docker run --user " +:+ pretty uid +:+ " --rm -v " +:+ TEMP
                  +:+ ":/tmp --entrypoint " +:+ dquote +:+ "python" +:+ dquote +:+ " "
                  +:+ pl_runtime_name job_payload +:+ " " +:+ HANDLER_FILE STORAGE_DIR),
              mkSt w (trace s ++ [Done (RunCmd "id -u $USER")]))
     end
  /\ (forall x s1, resolved = (Raise x, s1) -> out = (Raise x, s1)).
Proof.
  intros out resolved job_dir job_file document log_file launch.
  subst out resolved launch. rewrite run_job_unfold. unfold bind.
  assert (Hsilent : forall probe : list (Event Effect),
             Forall is_probe probe ->
             written_before_launch job_file document probe
             /\ forall ev, In ev probe -> ~ is_launch ev).
  { intros probe Hprobe. split.
    - intros i ev Hi Hl.
      apply (Forall_lookup_1 _ _ _ _ Hprobe) in Hi. by apply probe_is_no_launch in Hi.
    - intros ev Hin. apply probe_is_no_launch.
      by apply (proj1 (List.Forall_forall _ _) Hprobe). }
  split; [|split; [|split]].
  - destruct (get_execution_cmd TEMP STORAGE_DIR (env self) (pl_runtime_name job_payload) s)
      as [[exec_command|x] s1] eqn:Hcmd; cbv beta iota.
    + (* the command is known: the probe, if any, has succeeded *)
      assert (exists probe, trace s1 = trace s ++ probe /\ Forall is_probe probe)
        as (probe & Hs1 & Hprobe).
      { unfold get_execution_cmd, call in Hcmd. destruct (env self) as [image|interp].
        - apply bind_ok in Hcmd as (u & s2 & Hrun & Hcmd).
          apply perform_ok in Hrun as (w2 & _ & ->).
          apply bind_ok in Hcmd as (r & s3 & Hask & Hcmd). apply ask_ok in Hask as [-> ->].
          apply bind_ok in Hcmd as (uid & s4 & Hlift & Hcmd).
          apply lift_ok in Hlift as [_ ->]. apply ret_ok in Hcmd as [_ ->].
          exists [Done (RunCmd "id -u $USER")]. split; [done|]. by repeat constructor.
        - apply ret_ok in Hcmd as [_ ->]. exists [].
          split; [by rewrite app_nil_r|constructor]. }
      destruct (write_and_launch_spec STORAGE_DIR JOBS_PREFIX json_dumps exec_command
                  job_payload s1) as (evs & Htr & Hwbl & Hok).
      exists (probe ++ evs). rewrite Htr, Hs1, <- app_assoc. split; [done|].
      split; [by apply written_before_launch_after_probe|]. split.
      * intros ev [Hin|Hin]%in_app_or Hl.
        { by destruct (proj2 (Hsilent probe Hprobe) ev Hin). }
        exists exec_command, s1. split; [done|].
        exact (write_and_launch_launches STORAGE_DIR JOBS_PREFIX json_dumps exec_command
                 job_payload s1 evs ev Htr Hin Hl).
      * intros Hout. exists probe, exec_command, s1. by rewrite (Hok Hout).
    + (* the command could not be resolved: nothing but the probe has happened *)
      cbn [fst snd]. unfold get_execution_cmd, call in Hcmd.
      destruct (env self) as [image|interp]; [|discriminate].
      unfold bind, perform, ask, lift, ret in Hcmd.
      destruct (exec (RunCmd "id -u $USER") (world s)) as [[x1|] w1];
        cbn [world trace] in Hcmd.
      * injection Hcmd as <- <-. cbn [trace]. eexists. split; [reflexivity|].
        destruct (Hsilent [Failed (RunCmd "id -u $USER") x1]) as [Hwbl Hnone];
          [by repeat constructor|].
        split; [done|]. split; [|discriminate].
        intros ev Hin Hl. by destruct (Hnone ev Hin).
      * destruct (user_id w1) as [uid|x2]; [discriminate|].
        injection Hcmd as <- <-. cbn [trace]. eexists. split; [reflexivity|].
        destruct (Hsilent [Done (RunCmd "id -u $USER")]) as [Hwbl Hnone];
          [by repeat constructor|].
        split; [done|]. split; [|discriminate].
        intros ev Hin Hl. by destruct (Hnone ev Hin).
  - intros exec_command s1 w1 w2 w3 w4 -> H1 H2 H3 H4. cbv beta iota.
    exact (write_and_launch_runs STORAGE_DIR JOBS_PREFIX json_dumps exec_command
             job_payload s1 w1 w2 w3 w4 H1 H2 H3 H4).
  - unfold get_execution_cmd, call. destruct (env self) as [image|interp]; [|done].
    intros w uid Hrun Huid. unfold bind, perform, ask, lift, ret.
    rewrite Hrun. cbn [world trace]. by rewrite Huid.
  - by intros x s1 ->.
Qed.

(** The container environment on a machine that answers the probe of the user
    id with 1000 and accepts every other call: the job file is written, and
    the [docker run] line for that user is launched against it. *)
Lemma job_file_written_before_launch_witness :
  run_job0 (init "/usr/bin/python3" (Some "pywren-runtime")) machine0
  = (Ok tt,
     mkSt machine0
       [Done (RunCmd "id -u $USER");
        Done (Makedirs "/tmp/lithops/storage/lithops.jobs/exec0/M000");
        Done (WriteFile "/tmp/lithops/storage/lithops.jobs/exec0/M000/job.json"
                        (json_of (pl_document payload0)));
        Done (OpenAppend "/tmp/lithops/local_handler.log");
        Done (Popen ("docker run --user 1000 --rm -v /tmp:/tmp --entrypoint "
                     +:+ dquote +:+ "python" +:+ dquote
                     +:+ " python3.6 /tmp/lithops/local_handler.py run "
                     +:+ "/tmp/lithops/storage/lithops.jobs/exec0/M000/job.json")
                    "/tmp/lithops/local_handler.log")]).
Proof.
  destruct (job_file_written_before_launch "/tmp" "/tmp/lithops" "lithops.jobs" json_of
              Machine demo_platform (init "/usr/bin/python3" (Some "pywren-runtime"))
              payload0 (mkSt machine0 []))
    as (_ & Hruns & Hresolved & _).
  exact (Hruns _ _ machine0 machine0 machine0 machine0
           (Hresolved machine0 1000 eq_refl eq_refl) eq_refl eq_refl eq_refl eq_refl).
Defined.

(** The default environment on a machine whose disk accepts writes. *)
Example run_job_default_env :
  run_job0 (init "/usr/bin/python3" None) machine0
  = (Ok tt,
     mkSt machine0
       [Done (Makedirs "/tmp/lithops/storage/lithops.jobs/exec0/M000");
        Done (WriteFile "/tmp/lithops/storage/lithops.jobs/exec0/M000/job.json"
                        (json_of (pl_document payload0)));
        Done (OpenAppend "/tmp/lithops/local_handler.log");
        Done (Popen ("/usr/bin/python3 /tmp/lithops/local_handler.py run "
                     +:+ "/tmp/lithops/storage/lithops.jobs/exec0/M000/job.json")
                    "/tmp/lithops/local_handler.log")]).
Proof. reflexivity. Qed.

(** The container environment when the probe of the user id fails: the call
    raises, and neither a file nor a process has been created. *)
Example run_job_docker_env_without_uid :
  run_job0 (init "/usr/bin/python3" (Some "pywren-runtime"))
           (mkMachine (Raise (PyExc "CalledProcessError" "id -u $USER")) true)
  = (Raise (PyExc "CalledProcessError" "id -u $USER"),
     mkSt (mkMachine (Raise (PyExc "CalledProcessError" "id -u $USER")) true)
          [Failed (RunCmd "id -u $USER") (PyExc "CalledProcessError" "id -u $USER")]).
Proof. reflexivity. Qed.
End LocalhostSpec.

(** ** Monitors: the rules that run one along a program *)

Module WatchFacts.
Import Eff Watch.
Section Facts.
Context {W E Q : Type} (step : Q -> Event E -> Q).

Local Abbreviation holds := (@Watch.holds W E Q step _).

Lemma holds_ret {A} (a : A) q (post : Res A -> Q -> Prop) :
  post (Ok a) q -> holds (ret a) q post.
Proof. intros Hp s. exists []. by rewrite app_nil_r. Qed.

Lemma holds_raise {A} e q (post : Res A -> Q -> Prop) :
  post (Raise e) q -> holds (raise e) q post.
Proof. intros Hp s. exists []. by rewrite app_nil_r. Qed.

Lemma holds_lift {A} (r : Res A) q (post : Res A -> Q -> Prop) :
  post r q -> holds (lift r) q post.
Proof. intros Hp s. exists []. by rewrite app_nil_r. Qed.

Lemma holds_ask {A} (f : W -> A) q (post : Res A -> Q -> Prop) :
  (forall a, post (Ok a) q) -> holds (ask f) q post.
Proof. intros Hp s. exists []. rewrite app_nil_r. split; [done|apply Hp]. Qed.

Lemma holds_perform exec (e : E) q (post : Res unit -> Q -> Prop) :
  post (Ok tt) (step q (Done e)) ->
  (forall x, post (Raise x) (step q (Failed e x))) ->
  holds (perform exec e) q post.
Proof.
  intros Hd Hf s. unfold perform.
  destruct (exec e (world s)) as [[x|] w']; eexists; (split; [reflexivity|]); cbn; auto.
Qed.

Lemma holds_bind {A B} (c : M W E A) (k : A -> M W E B) q (post : Res B -> Q -> Prop) :
  holds c q (fun r q' => match r with
                         | Ok a => holds (k a) q' post
                         | Raise e => post (Raise e) q'
                         end) ->
  holds (bind c k) q post.
Proof.
  intros Hc s. destruct (Hc s) as (evs1 & E1 & H1). unfold bind.
  destruct (c s) as [[a|e] s1]; cbn [fst snd] in *.
  - destruct (H1 s1) as (evs2 & E2 & H2). exists (evs1 ++ evs2).
    rewrite E2, E1, app_assoc. split; [done|].
    unfold after in *. by rewrite fold_left_app.
  - eauto.
Qed.

Lemma holds_finally {A} (body : M W E A) cleanup q (post : Res A -> Q -> Prop) :
  holds body q (fun r q' =>
                  holds cleanup q' (fun rc q'' => match rc with
                                                  | Ok _ => post r q''
                                                  | Raise e => post (Raise e) q''
                                                  end)) ->
  holds (finally body cleanup) q post.
Proof.
  intros Hb s. destruct (Hb s) as (evs1 & E1 & H1). unfold finally.
  destruct (body s) as [r s1]; cbn [fst snd] in *.
  destruct (H1 s1) as (evs2 & E2 & H2). exists (evs1 ++ evs2).
  unfold after in *. rewrite fold_left_app.
  destruct (cleanup s1) as [[u|e] s2]; cbn [fst snd] in *;
    rewrite E2, E1, app_assoc; done.
Qed.

Lemma holds_for_each {A} (I : Q -> Prop) (l : list A) (body : A -> M W E unit) q
    (post : Res unit -> Q -> Prop) :
  I q ->
  (forall x q', I q' ->
     holds (body x) q' (fun r q'' => match r with
                                     | Ok _ => I q''
                                     | Raise e => post (Raise e) q''
                                     end)) ->
  (forall q', I q' -> post (Ok tt) q') ->
  holds (for_each l body) q post.
Proof.
  intros Hq Hbody Hend. revert q Hq. induction l as [|x l IH]; intros q Hq; cbn [for_each].
  - apply holds_ret. auto.
  - apply holds_bind. intros s. destruct (Hbody x q Hq s) as (evs & E1 & H1).
    exists evs. split; [done|]. destruct (fst (body x s)); auto.
Qed.

(** A program whose events leave the monitor where it is. *)
Lemma holds_emits {A} (P : Event E -> Prop) (c : M W E A) q (post : Res A -> Q -> Prop) :
  Eff.emits P c -> (forall ev, P ev -> step q ev = q) -> (forall r, post r q) ->
  holds c q post.
Proof.
  intros Hc Hstep Hpost s. destruct (Hc s) as (evs & E1 & HP).
  exists evs. split; [done|].
  replace (after step q evs) with q; [apply Hpost|].
  clear E1. induction HP as [|ev evs Hev _ IH]; [done|].
  unfold after in *. cbn [fold_left]. by rewrite Hstep.
Qed.

Lemma holds_run {A} (c : M W E A) q (post : Res A -> Q -> Prop) s r s' :
  holds c q post -> c s = (r, s') ->
  exists evs, trace s' = trace s ++ evs /\ post r (after step q evs).
Proof. intros Hc Hr. specialize (Hc s). by rewrite Hr in Hc. Qed.
End Facts.

Section Precedence.
Context {E : Type} (is_a is_b : Event E -> bool).

Lemma precede_sound (evs : list (Event E)) :
  (after (precede_step is_a is_b) (false, true) evs).2 = true ->
  preceded is_a is_b evs.
Proof.
  assert (Hinv : forall evs,
             let st := after (precede_step is_a is_b) (false, true) evs in
             (st.1 = true -> exists a, In a evs /\ is_a a = true)
             /\ (st.2 = true -> preceded is_a is_b evs)).
  { clear evs. induction evs as [|x l [IH1 IH2]] using rev_ind; cbn zeta in *.
    - split; [discriminate|]. intros _ [|? ?] ev l2 Heq; discriminate.
    - unfold after in *. rewrite fold_left_app. cbn [fold_left precede_step fst snd].
      split.
      + intros [Hs|Ha]%orb_true_iff.
        * destruct (IH1 Hs) as (a & Hin & Ha). exists a. split; [|done].
          apply in_or_app. by left.
        * exists x. split; [|done]. apply in_or_app. right. by left.
      + intros [Hok Hb]%andb_true_iff l1 ev l2 Heq Hev.
        destruct l2 as [|y l2 _] using rev_ind.
        * apply app_inj_tail in Heq as [-> ->].
          rewrite Hev in Hb. cbn in Hb. auto.
        * change (l1 ++ ev :: l2 ++ [y]) with (l1 ++ (ev :: l2) ++ [y]) in Heq.
          rewrite app_assoc in Heq. apply app_inj_tail in Heq as [-> ->].
          by eapply IH2. }
  apply Hinv.
Qed.
End Precedence.

(** Runs a monitor along the structure of the program. *)
Ltac watch_loop :=
  match goal with
  | |- Watch.holds _ (for_each _ _) ?q _ =>
      apply (holds_for_each _ (eq q)); [reflexivity | intros ? ? <- | intros ? <-]
  end.

Ltac watch_step :=
  first
    [ apply holds_ret | apply holds_raise | apply holds_lift
    | apply holds_ask; intro
    | apply holds_perform; [ | intro ]
    | apply holds_bind | apply holds_finally
    | watch_loop
    | match goal with
      | |- Watch.holds _ (if ?b then _ else _) _ _ => destruct b
      | |- Watch.holds _ (match ?x with _ => _ end) _ _ => destruct x
      | |- Watch.holds _ (let '(_, _) := ?x in _) _ _ => destruct x
      | |- match ?x with _ => _ end => destruct x eqn:?
      end ];
  cbv beta iota.
Ltac watch := repeat watch_step.
End WatchFacts.

(** ** job.py: the image injection *)

Module InjectionFacts.
Import Job Eff EffFacts Watch WatchFacts.
Section Facts.
Context {L : Lib} {W : Type} {P : Platform W}.
Implicit Types (s : St W Effect) (jd : JobDescription).

Lemma is_write_true path content ev :
  is_write path content ev = true -> ev = Done (WriteFile path content).
Proof.
  destruct ev as [[]|[] ?]; cbn; try discriminate.
  intros [->%String.eqb_eq ->%String.eqb_eq]%andb_true_iff. reflexivity.
Qed.

Lemma inject_cleanup jd func mod_paths :
  Watch.holds tempdir_step (_inject_in_runtime_docker_image jd func mod_paths) false
              (fun _ pending => pending = false).
Proof.
  unfold _inject_in_runtime_docker_image, call. watch.
  all: try (cbn; reflexivity).
  all: destruct (getsource func); watch; cbn; reflexivity.
Qed.

(** The two files are written before anything is built. *)
Lemma inject_staged jd func mod_paths src path content :
  fn_source func = Some src ->
  (path = MOD_PATH +:+ "/" +:+ md5_hexdigest src +:+ ".py" /\ content = src)
  \/ (path = "custom.dockerfile" /\ content = dockerfile_of (runtime_name jd)) ->
  Watch.holds (precede_step (is_write path content) is_build)
              (_inject_in_runtime_docker_image jd func mod_paths) (false, true)
              (fun _ st => st.2 = true).
Proof.
  intros Hsrc Hfile.
  unfold _inject_in_runtime_docker_image, getsource, call, dockerfile_of in *.
  rewrite Hsrc. destruct Hfile as [[-> ->]|[-> ->]]; watch.
  all: cbn; rewrite ?String.eqb_refl; reflexivity.
Qed.

(** The breakpoint of line 278 is passed before anything is built. *)
Lemma inject_breaks_before_build jd func mod_paths :
  Watch.holds (precede_step is_breakpoint is_build)
              (_inject_in_runtime_docker_image jd func mod_paths) (false, true)
              (fun _ st => st.2 = true).
Proof.
  unfold _inject_in_runtime_docker_image, call. watch.
  all: try (cbn; reflexivity).
  all: destruct (getsource func); watch; cbn; reflexivity.
Qed.

(** Without the source of the function nothing is built. *)
Lemma inject_no_build_without_source jd func mod_paths :
  fn_source func = None ->
  Watch.holds (precede_step (fun _ => false) is_build)
              (_inject_in_runtime_docker_image jd func mod_paths) (false, true)
              (fun _ st => st.2 = true).
Proof.
  intros Hsrc. unfold _inject_in_runtime_docker_image, getsource, call.
  rewrite Hsrc. watch. all: reflexivity.
Qed.

Lemma inject_stages_in_working_directory jd func mod_paths :
  emits stages_in_working_directory (_inject_in_runtime_docker_image jd func mod_paths).
Proof.
  unfold _inject_in_runtime_docker_image, call. emits_tac; cbn; eauto.
Qed.

(** The loop of lines 260-264 on its own. *)
Lemma copies_ok (mod_paths : list string) s s' :
  for_each mod_paths
    (fun module =>
       bind (ask (path_isdir module))
            (fun d => if d
                      then call (CopyTree module (MOD_PATH +:+ "/" +:+ basename module))
                      else call (Copy2 module MOD_PATH))) s
  = (Ok tt, s') ->
  exists copies, Forall2 copy_of mod_paths copies /\ trace s' = trace s ++ copies.
Proof.
  revert s. induction mod_paths as [|module l IH]; intros s Hrun; cbn [for_each] in Hrun.
  - apply ret_ok in Hrun as [_ ->]. exists []. split; [constructor|by rewrite app_nil_r].
  - apply bind_ok in Hrun as (u & s1 & Hcopy & Hrun).
    apply bind_ok in Hcopy as (d & s2 & Hask & Hcopy). apply ask_ok in Hask as [-> ->].
    apply IH in Hrun as (copies & Hall & Htr).
    destruct (path_isdir module (world s)); apply perform_ok in Hcopy as (w' & _ & ->);
      cbn [trace] in Htr; eexists (_ :: copies); rewrite Htr, <- app_assoc;
      (split; [constructor; [|done]|reflexivity]); [by left|by right].
Qed.

Lemma inject_success jd func mod_paths s tag jd' s' :
  _inject_in_runtime_docker_image jd func mod_paths s = (Ok (tag, jd'), s') ->
  exists src copies,
    fn_source func = Some src
    /\ tag = md5_hexdigest src
    /\ jd' = set_runtime_name (runtime_name jd +:+ ":" +:+ tag) jd
    /\ Forall2 copy_of mod_paths copies
    /\ trace s' = trace s
         ++ (if path_exists MOD_PATH (world s) then [Done (Rmtree MOD_PATH)] else [])
         ++ [Done (MkTempDir MOD_PATH)]
         ++ copies
         ++ [Done (WriteFile (MOD_PATH +:+ "/" +:+ tag +:+ ".py") src);
             Done (WriteFile "custom.dockerfile" (dockerfile_of (runtime_name jd)));
             Done CleanupTempDir;
             Done Breakpoint;
             Done (BuildAndCreateRuntime (runtime_name jd +:+ ":" +:+ tag) "custom.dockerfile")].
Proof.
  unfold _inject_in_runtime_docker_image. intros Hrun.
  apply bind_ok in Hrun as (ex & s1 & Hex & Hrun). apply ask_ok in Hex as [-> ->].
  apply bind_ok in Hrun as (u1 & s2 & Hrm & Hrun).
  apply bind_ok in Hrun as (f_src & s3 & Hsrc & Hrun).
  apply lift_ok in Hsrc as [Hsrc ->].
  unfold getsource in Hsrc, Hrun. destruct (fn_source func) as [src|] eqn:Esrc; [|discriminate].
  injection Hsrc as <-.
  apply bind_ok in Hrun as (u2 & s4 & Hmk & Hrun).
  apply perform_ok in Hmk as (w4 & _ & ->).
  apply bind_ok in Hrun as (u3 & s5 & Hfin & Hrun).
  apply finally_ok in Hfin as (s6 & Hbody & Hclean).
  apply perform_ok in Hclean as (w5 & _ & ->).
  apply bind_ok in Hbody as (u4 & s7 & Hloop & Hbody).
  destruct u4. apply copies_ok in Hloop as (copies & Hcopies & Hs7).
  apply bind_ok in Hbody as (source & s8 & Hsrc2 & Hbody).
  apply lift_ok in Hsrc2 as [[= <-] ->].
  apply bind_ok in Hbody as (u5 & s9 & Hw1 & Hw2).
  apply perform_ok in Hw1 as (w9 & _ & ->).
  apply perform_ok in Hw2 as (w6 & _ & ->).
  apply bind_ok in Hrun as (u6 & s10 & Hbp & Hrun).
  apply perform_ok in Hbp as (w10 & _ & ->).
  apply bind_ok in Hrun as (u7 & s11 & Hbuild & Hrun).
  apply perform_ok in Hbuild as (w11 & _ & ->).
  apply ret_ok in Hrun as [[= -> ->] ->].
  exists src, copies. repeat split; try done.
  cbn [trace world] in *. rewrite Hs7.
  assert (Hs2 : trace s2 = trace s
            ++ (if path_exists MOD_PATH (world s) then [Done (Rmtree MOD_PATH)] else [])).
  { destruct (path_exists MOD_PATH (world s)).
    - apply perform_ok in Hrm as (w2 & _ & ->). reflexivity.
    - apply ret_ok in Hrm as [_ ->]. by rewrite app_nil_r. }
  rewrite Hs2, <- !app_assoc. reflexivity.
Qed.
End Facts.
End InjectionFacts.

(** ** job.py: more on what a call does *)

Module JobRunFacts.
Import Job Eff EffFacts JobFacts Watch WatchFacts.
Section Facts.
Context {L : Lib} {W : Type} {P : Platform W}.
Implicit Types (s : St W Effect) (jd : JobDescription).

Lemma inject_no_upload jd func mod_paths :
  emits no_upload (_inject_in_runtime_docker_image jd func mod_paths).
Proof. unfold _inject_in_runtime_docker_image, call, no_upload. emits_tac. Qed.

Lemma after_upload_step seen (evs : list (Event Effect)) :
  after upload_step seen evs = seen ++ uploads evs.
Proof.
  revert seen. induction evs as [|ev evs IH]; intros seen; cbn.
  - by rewrite app_nil_r.
  - unfold after in IH. rewrite IH. unfold upload_step.
    destruct (is_upload ev); [by rewrite <- app_assoc|done].
Qed.

Lemma dict_set_nonempty k v d : dict_set k v d <> [].
Proof. destruct d as [|[k' v'] d]; cbn; [done|]. by destruct (String.eqb k k'). Qed.

Lemma dict_get_set_eq k v d : dict_get k (dict_set k v d) = Some v.
Proof.
  induction d as [|[k' v'] d IH]; cbn.
  - by rewrite String.eqb_refl.
  - destruct (String.eqb k k') eqn:Hk; cbn; by rewrite Hk.
Qed.

Lemma dict_get_set_ne k k0 v d : k <> k0 -> dict_get k (dict_set k0 v d) = dict_get k d.
Proof.
  intros Hne. induction d as [|[k' v'] d IH]; cbn.
  - by apply String.eqb_neq in Hne as ->.
  - destruct (String.eqb k0 k') eqn:Hk; cbn.
    + apply String.eqb_eq in Hk as <-. by apply String.eqb_neq in Hne as ->.
    + by rewrite IH.
Qed.

Lemma slices_from_bounded prev parts (map_futures : list PyVal) :
  Forall2 (fun group count => (length group <= count)%nat)
          (slices_from prev parts map_futures) parts.
Proof.
  revert prev. induction parts as [|p parts IH]; intros prev; cbn; constructor; [|done].
  rewrite length_take. lia.
Qed.

Section CreateJob.
Variables (config : Config) (executor_id job_id : string) (func : Func)
          (data : list PyVal) (preinstalls : list string) (memory : option Z)
          (env : option (list (string * PyVal))) (threads : Z)
          (include_modules : option (list string)) (exclude_modules : list string)
          (timeout : option Z).

Local Abbreviation create_job :=
  (_create_job config executor_id job_id func data preinstalls memory env threads
               include_modules exclude_modules timeout).
Local Abbreviation dk := (create_agg_data_key JOBS_PREFIX executor_id job_id).
Local Abbreviation fk := (create_func_key JOBS_PREFIX executor_id job_id).

(** The dictionary a call returns, field by field. *)
Lemma create_job_shape s jd s' :
  create_job s = (Ok (Job jd), s') ->
  exists src mods,
    fn_source func = Some src
    /\ over_limit config data = false
    /\ jd = mkJob (cfg_runtime config +:+ ":" +:+ md5_hexdigest src)
                  (match memory with Some m => m | None => cfg_runtime_memory config end)
                  (match timeout with Some t => t | None => cfg_runtime_timeout config - 5 end)
                  (fn_name func)
                  (match env with
                   | Some (kv :: e) => convert_bools_to_string (kv :: e)
                   | _ => []
                   end)
                  (length data) threads executor_id job_id
                  (Some dk) (Some (agg_ranges 0 (data_blobs data))) (Some fk)
                  (Some (mkJobMeta (data_size data)
                           (length (pickle_func_module (dumps (OFunc func)) mods))))
                  None.
Proof.
  unfold _create_job, call. intros Hrun.
  destruct data as [|d0 data'] eqn:Edata; [discriminate|]. rewrite <- Edata in *.
  destruct (merge_modules config include_modules exclude_modules) as [inc exc].
  apply bind_ok in Hrun as (u1 & s1 & Hbp & Hrun).
  apply bind_ok in Hrun as ([blobs mods] & s2 & Hser & Hrun).
  apply lift_ok in Hser as [Hser ->].
  apply serializer_ok in Hser. subst blobs.
  cbn [map] in Hrun. fold (data_blobs data) in Hrun.
  fold (data_size data) in Hrun. fold (over_limit config data) in Hrun.
  destruct (over_limit config data) eqn:Eover; [discriminate|].
  unfold agg_data in Hrun. cbv beta iota zeta in Hrun.
  apply bind_ok in Hrun as (u2 & s2 & Hput & Hrun).
  apply bind_ok in Hrun as (jd2 & s3 & Hinj & Hrun).
  apply ret_ok in Hrun as [Hret ->]. inversion Hret; subst jd; clear Hret.
  apply bind_ok in Hinj as ([tag jd3] & s4 & Hinj & Hr2).
  apply ret_ok in Hr2 as [-> ->]. cbn [snd].
  apply inject_ok in Hinj as (src & evs & Hsrc & -> & -> & Htr).
  exists src, mods. split; [done|]. split; [done|].
  destruct env as [[|kv e]|]; reflexivity.
Qed.

(** The uploads of a call, whatever its outcome. *)
Lemma create_job_uploads :
  Watch.holds upload_step create_job []
    (fun _ seen =>
       seen = [] \/ exists ev, seen = [ev] /\ puts_data dk (concat (data_blobs data)) ev).
Proof.
  unfold _create_job, call.
  destruct data as [|d0 data'] eqn:Edata; [watch; by left|]. rewrite <- Edata.
  destruct (merge_modules config include_modules exclude_modules) as [inc exc].
  apply holds_bind, holds_perform; [|intros x; by left]. cbv beta iota.
  apply holds_bind, holds_lift.
  destruct (serializer _ _ _ _) as [[blobs mods]|e] eqn:Hser; [|by left].
  apply serializer_ok in Hser. subst blobs. cbn [map]. fold (data_blobs data).
  destruct (_ && _); [watch; by left|].
  unfold agg_data. cbv beta iota zeta.
  apply holds_bind, holds_perform; cbv beta iota;
    [|intros x; right; eexists; split; [reflexivity|right; eauto]].
  apply holds_bind. cbv beta iota. apply holds_bind.
  apply (holds_emits _ no_upload); [apply inject_no_upload| |].
  - intros ev Hev. unfold upload_step. by rewrite Hev.
  - intros [[tag jd]|e]; [|right; eexists; split; [reflexivity|by left]].
    watch; right; eexists; (split; [reflexivity|by left]).
Qed.


(** On data, the call begins at the breakpoint of line 183. *)
Lemma create_job_starts_at_breakpoint s :
  data <> [] ->
  exists rest,
    trace (snd (create_job s)) = trace s ++ outcome exec Breakpoint (world s) :: rest
    /\ (forall x, fst (exec Breakpoint (world s)) = Some x ->
        rest = [] /\ fst (create_job s) = Raise x).
Proof.
  intros Hne. unfold _create_job, call.
  destruct data as [|d0 data'] eqn:Edata; [done|]. rewrite <- Edata.
  destruct (merge_modules config include_modules exclude_modules) as [inc exc].
  match goal with |- context [bind (perform exec Breakpoint) ?k] => set (K := k) end.
  assert (Htail : forall u, emits (fun _ => True) (K u)).
  { intros u. subst K. cbv beta.
    unfold _inject_in_runtime_docker_image, call. emits_tac. }
  clearbody K. unfold bind, perform, outcome.
  destruct (exec Breakpoint (world s)) as [[x|] w1]; cbn [fst snd trace].
  - exists []. split; [done|]. by intros ? [= <-].
  - destruct (Htail tt (mkSt w1 (trace s ++ [Done Breakpoint]))) as (rest & Htr & _).
    exists rest. rewrite Htr. cbn [trace]. rewrite <- app_assoc. split; [done|].
    intros ? [=].
Qed.

Lemma create_job_not_rabbitmq : emits not_rabbitmq create_job.
Proof.
  unfold _create_job, _inject_in_runtime_docker_image, call.
  destruct data; [emits_tac|].
  destruct (merge_modules config include_modules exclude_modules) as [inc exc].
  emits_tac.
Qed.
End CreateJob.
End Facts.
End JobRunFacts.

(** ** job.py: further properties of the code *)

Module JobBehaviour.
Import Job Eff EffFacts JobFacts Watch WatchFacts InjectionFacts JobRunFacts JobDemo.

(** X1.  The fields of a returned dictionary that come from the arguments
    and the configuration: the runtime memory and the execution timeout are
    the arguments when given, the configured memory and the configured
    runtime timeout less 5 otherwise; the extra environment is empty when
    none or an empty one is given and converted otherwise; the name is the
    name of the function, the ids and the pool size are the arguments. *)
Theorem descriptor_fields_and_defaults
    (L : Lib) (W : Type) (P : Platform W) (s s' : St W Effect) jd
    config eid jid func data preinstalls memory env threads include_modules
    exclude_modules timeout :
  _create_job config eid jid func data preinstalls memory env threads
              include_modules exclude_modules timeout s
  = (Ok (Job jd), s') ->
  runtime_memory jd = match memory with Some m => m | None => cfg_runtime_memory config end
  /\ execution_timeout jd
     = match timeout with Some t => t | None => cfg_runtime_timeout config - 5 end
  /\ function_name jd = fn_name func
  /\ extra_env jd = match env with
                    | Some (kv :: e) => convert_bools_to_string (kv :: e)
                    | _ => []
                    end
  /\ invoke_pool_threads jd = threads
  /\ executor_id jd = eid
  /\ job_id jd = jid.
Proof.
  intros Hrun. apply create_job_shape in Hrun as (src & mods & _ & _ & ->).
  repeat split.
Qed.

Lemma descriptor_fields_and_defaults_witness :
  runtime_memory job123 = cfg_runtime_memory config0
  /\ execution_timeout job123 = cfg_runtime_timeout config0 - 5
  /\ function_name job123 = "double"
  /\ extra_env job123 = []
  /\ invoke_pool_threads job123 = 128
  /\ executor_id job123 = "exec0"
  /\ job_id job123 = "M000".
Proof.
  apply (descriptor_fields_and_defaults (demo_lib 0 0) World demo_platform s0
           (snd (run_map (demo_lib 0 0) config0 "M000" double data123)) job123
           config0 "exec0" "M000" double data123 ["numpy"] None None 128
           (Some []) [] None).
  vm_compute. reflexivity.
Defined.

(** X2.  The metadata of a returned dictionary carry the serialized size of
    the data, and with a ceiling in force that size is within the ceiling:
    no dictionary is returned for data over it. *)
Theorem returned_descriptor_within_ceiling
    (L : Lib) (W : Type) (P : Platform W) (s s' : St W Effect) jd
    config eid jid func data preinstalls memory env threads include_modules
    exclude_modules timeout :
  _create_job config eid jid func data preinstalls memory env threads
              include_modules exclude_modules timeout s
  = (Ok (Job jd), s') ->
  exists meta,
    metadata jd = Some meta
    /\ data_size_bytes meta = data_size data
    /\ (data_limit_of config <> 0 ->
        Z.of_nat (data_size_bytes meta) <= data_limit_of config * 1024 ^ 2).
Proof.
  intros Hrun. apply create_job_shape in Hrun as (src & mods & _ & Hover & ->).
  eexists. split; [reflexivity|]. split; [reflexivity|]. cbn [data_size_bytes].
  intros Hlimit. unfold over_limit in Hover.
  apply andb_false_iff in Hover as [Hz|Hlt].
  - apply negb_false_iff, Z.eqb_eq in Hz. done.
  - apply Z.ltb_ge in Hlt. done.
Qed.

Lemma returned_descriptor_within_ceiling_witness :
  exists meta,
    metadata job123 = Some meta
    /\ data_size_bytes meta = @data_size (demo_lib 0 0) data123
    /\ (@data_limit_of (demo_lib 0 0) config_1MiB <> 0 ->
        Z.of_nat (data_size_bytes meta)
        <= @data_limit_of (demo_lib 0 0) config_1MiB * 1024 ^ 2).
Proof.
  apply (returned_descriptor_within_ceiling (demo_lib 0 0) World demo_platform s0
           (snd (run_map (demo_lib 0 0) config_1MiB "M000" double data123)) job123
           config_1MiB "exec0" "M000" double data123 ["numpy"] None None 128
           (Some []) [] None).
  vm_compute. reflexivity.
Defined.

(** X3.  Whatever the outcome of a job-construction call, it attempts at
    most one upload, and that upload is the one of the aggregated data under
    the data key. *)
Theorem at_most_one_upload_per_call
    (L : Lib) (W : Type) (P : Platform W) (s : St W Effect)
    config eid jid func data preinstalls memory env threads include_modules
    exclude_modules timeout :
  exists evs,
    trace (snd (_create_job config eid jid func data preinstalls memory env threads
                            include_modules exclude_modules timeout s))
    = trace s ++ evs
    /\ (uploads evs = []
        \/ exists ev,
             uploads evs = [ev]
             /\ puts_data (create_agg_data_key JOBS_PREFIX eid jid)
                          (concat (data_blobs data)) ev).
Proof.
  destruct (create_job_uploads config eid jid func data preinstalls memory env threads
              include_modules exclude_modules timeout s) as (evs & Htr & Hup).
  exists evs. split; [done|]. by rewrite after_upload_step in Hup.
Qed.



(** X5.  The module filters of a call (lines 161-177).  A module is excluded
    when the configuration or the argument excludes it.  The include filter
    is off when the argument is [None], or when it is empty and the
    configuration has [None]; otherwise it holds the modules the
    configuration or the argument includes. *)
Theorem module_filters_merge_configuration_and_arguments
    (config : Config) (include_modules : option (list string))
    (exclude_modules : list string) :
  let filters := merge_modules config include_modules exclude_modules in
  (forall m, m ∈ filters.2 <-> m ∈ cfg_exclude_modules config \/ m ∈ exclude_modules)
  /\ (filters.1 = None
      <-> include_modules = None
          \/ (include_modules = Some [] /\ cfg_include_modules config = None))
  /\ (forall inc m,
        filters.1 = Some inc ->
        m ∈ inc <-> m ∈ default [] (cfg_include_modules config)
                    \/ m ∈ default [] include_modules).
Proof.
  intros filters. subst filters. unfold merge_modules. cbn [fst snd]. split; [|split].
  - intros m. rewrite elem_of_union, !elem_of_list_to_set. done.
  - destruct (cfg_include_modules config) as [c|], include_modules as [[|i l]|];
      cbn; split; try done; try (intros [|[]]; done); auto.
  - intros inc m.
    destruct (cfg_include_modules config) as [c|], include_modules as [[|i l]|];
      cbn; intros Hinc; try discriminate; injection Hinc as <-;
      repeat first [ rewrite elem_of_union | rewrite elem_of_list_to_set
                   | rewrite elem_of_cons | rewrite elem_of_singleton
                   | rewrite elem_of_nil | rewrite elem_of_empty ];
      tauto.
Qed.

(** X6.  Arguments that do not fit the function are rejected before anything
    else is done: the map job and the reduce job raise the error of the
    validation with the world and the trace as they were. *)
Theorem rejected_arguments_leave_no_trace
    (L : Lib) (W : Type) (P : Platform W) (s : St W Effect) (e : Exn)
    config eid jid func iterdata preinstalls memory extra_args env chunk_size
    chunk_number threads include_modules exclude_modules timeout
    map_job map_futures reducer_one_per_object :
  (verify_args func iterdata extra_args = Raise e ->
   create_map_job config eid jid func iterdata preinstalls memory extra_args env
                  chunk_size chunk_number threads include_modules exclude_modules
                  timeout s
   = (Raise e, s))
  /\ (verify_args func (reduce_iterdata map_job map_futures reducer_one_per_object) None
      = Raise e ->
      create_reduce_job config eid jid func map_job map_futures preinstalls
                        reducer_one_per_object memory env include_modules
                        exclude_modules timeout s
      = (Raise e, s)).
Proof.
  split; intros Hver.
  - unfold create_map_job, bind, lift. by rewrite Hver.
  - unfold create_reduce_job, bind, lift. by rewrite Hver.
Qed.

Lemma rejected_arguments_leave_no_trace_witness :
  let mismatch := PyExc "ValueError" "arguments do not match the function signature" in
  run_create_map demo_platform config_rabbitmq double [VList [VInt 1; VInt 2]]
  = (Raise mismatch, s0)
  /\ @create_reduce_job (demo_lib 0 0) World demo_platform config0 "exec0" "M000" merge
       map_job_2_3 futures5 ["numpy"] true None None (Some []) [] None s0
     = (Raise mismatch, s0).
Proof.
  destruct (rejected_arguments_leave_no_trace (demo_lib 0 0) World demo_platform s0
              (PyExc "ValueError" "arguments do not match the function signature")
              config_rabbitmq "exec0" "M000" double [VList [VInt 1; VInt 2]] ["numpy"]
              None None None None None 128 (Some []) [] None
              map_job_2_3 futures5 true) as [Hmap _].
  destruct (rejected_arguments_leave_no_trace (demo_lib 0 0) World demo_platform s0
              (PyExc "ValueError" "arguments do not match the function signature")
              config0 "exec0" "M000" merge [] ["numpy"]
              None None None None None 128 (Some []) [] None
              map_job_2_3 futures5 true) as [_ Hreduce].
  split; [apply Hmap|apply Hreduce]; reflexivity.
Defined.

(** X7.  With the RabbitMQ monitor switched on, the first thing a map job
    does once the arguments are accepted is to create the RabbitMQ
    resources of the job, with the configured URL; nothing else follows
    when that fails, and the resources are created once.  With the monitor
    off they are never created. *)
Theorem rabbitmq_resources_are_created_first
    (L : Lib) (W : Type) (P : Platform W) (s : St W Effect)
    config eid jid func iterdata preinstalls memory extra_args env chunk_size
    chunk_number threads include_modules exclude_modules timeout :
  let out :=
    create_map_job config eid jid func iterdata preinstalls memory extra_args env
                   chunk_size chunk_number threads include_modules exclude_modules
                   timeout s in
  let rabbitmq := CreateRabbitmqResources (cfg_amqp_url config) eid jid in
  exists evs,
    trace (snd out) = trace s ++ evs
    /\ (cfg_rabbitmq_monitor config = false -> Forall not_rabbitmq evs)
    /\ (cfg_rabbitmq_monitor config = true ->
        forall data, verify_args func iterdata extra_args = Ok data ->
        exists rest,
          evs = outcome exec rabbitmq (world s) :: rest
          /\ Forall not_rabbitmq rest
          /\ (forall x, fst (exec rabbitmq (world s)) = Some x ->
              rest = [] /\ fst out = Raise x)).
Proof.
  intros out rabbitmq. subst out rabbitmq. unfold create_map_job.
  destruct (verify_args func iterdata extra_args) as [data|e].
  2:{ exists []. unfold bind, lift. cbn [fst snd]. rewrite app_nil_r.
      split; [done|]. split; [constructor|]. intros _ ? [=]. }
  change (bind (lift (Ok data)) ?k s) with (k data s). cbv beta.
  match goal with |- context [bind (if _ then _ else _) ?k] => set (K := k) end.
  assert (Htail : forall u, emits not_rabbitmq (K u)).
  { intros u. subst K. cbv beta. emits_tac; try apply create_job_not_rabbitmq. }
  clearbody K.
  destruct (cfg_rabbitmq_monitor config).
  - unfold bind, call, perform, outcome.
    destruct (exec _ (world s)) as [[x|] w1] eqn:Hexec; cbn [fst snd trace].
    + eexists. split; [reflexivity|]. split; [done|]. intros _ d [= <-].
      exists []. split; [done|]. split; [constructor|]. by intros ? [= <-].
    + match goal with |- context [snd (K ?u ?st)] =>
        destruct (Htail u st) as (rest & Htr & Hrest) end.
      exists (Done (CreateRabbitmqResources (cfg_amqp_url config) eid jid) :: rest).
      rewrite Htr. cbn [trace]. rewrite <- app_assoc. split; [done|]. split; [done|].
      intros _ d [= <-]. exists rest. split; [done|]. split; [done|]. intros ? [=].
  - unfold bind, ret.
    match goal with |- context [snd (K ?u ?st)] =>
      destruct (Htail u st) as (rest & Htr & Hrest) end.
    exists rest. split; [done|]. split; [done|]. done.
Qed.

Lemma rabbitmq_resources_are_created_first_witness :
  let out := run_create_map demo_platform config_rabbitmq double data123 in
  exists rest,
    trace (snd out)
    = Done (CreateRabbitmqResources (Some "amqp://guest@broker/") "exec0" "M000") :: rest
    /\ Forall not_rabbitmq rest.
Proof.
  destruct (rabbitmq_resources_are_created_first (demo_lib 0 0) World demo_platform s0
              config_rabbitmq "exec0" "M000" double data123 ["numpy"]
              None None None None None 128 (Some []) [] None)
    as (evs & Htr & _ & Hon).
  destruct (Hon eq_refl data123 eq_refl) as (rest & -> & Hrest & _).
  exists rest. split; [exact Htr|exact Hrest].
Defined.

(** X8.  A map job over a function that processes stored objects is built
    from the partitions: the dictionary that is returned counts one call per
    partition, and carries the number of partitions per object unless that
    list is empty. *)
Theorem partitioned_map_job_counts_partitions
    (L : Lib) (W : Type) (P : Platform W) (s s' : St W Effect) jd
    config eid jid func iterdata preinstalls memory extra_args env chunk_size
    chunk_number threads include_modules exclude_modules timeout :
  is_object_processing_function func = true ->
  create_map_job config eid jid func iterdata preinstalls memory extra_args env
                 chunk_size chunk_number threads include_modules exclude_modules
                 timeout s
  = (Ok (Job jd), s') ->
  exists map_iterdata w partitions parts,
    verify_args func iterdata extra_args = Ok map_iterdata
    /\ create_partitions config map_iterdata chunk_size chunk_number w
       = Ok (partitions, parts)
    /\ partitions <> []
    /\ total_calls jd = length partitions
    /\ parts_per_object jd = match parts with [] => None | _ => Some parts end.
Proof.
  unfold create_map_job. intros Hobj Hrun. rewrite Hobj in Hrun.
  apply bind_ok in Hrun as (map_iterdata & s1 & Hver & Hrun).
  apply lift_ok in Hver as [Hver ->].
  apply bind_ok in Hrun as (u & s2 & _ & Hrun).
  apply bind_ok in Hrun as ([partitions ppo] & s3 & Hparts & Hrun).
  apply bind_ok in Hparts as (r & s4 & Hask & Hparts). apply ask_ok in Hask as [-> ->].
  apply bind_ok in Hparts as ([partitions' parts] & s5 & Hlift & Hparts).
  apply lift_ok in Hlift as [Hlift ->].
  apply ret_ok in Hparts as [[= -> ->] ->]. cbn [fst snd] in *.
  apply bind_ok in Hrun as (job_description & s6 & Hjob & Hrun).
  exists map_iterdata, (world s2), partitions', parts.
  split; [done|]. split; [done|].
  destruct parts as [|p ps].
  - apply ret_ok in Hrun as [<- ->].
    apply create_job_ok in Hjob
      as (src & mods & evs & Hne & _ & _ & Htot & _ & _ & _ & _ & _ & Hppo & _).
    done.
  - destruct job_description as [|jd0]; [discriminate|].
    apply ret_ok in Hrun as [[= ->] ->].
    apply create_job_ok in Hjob
      as (src & mods & evs & Hne & _ & _ & Htot & _).
    done.
Qed.

Lemma partitioned_map_job_counts_partitions_witness :
  exists map_iterdata w partitions parts,
    @verify_args (demo_lib 0 0) count_words objects2 None = Ok map_iterdata
    /\ @create_partitions World demo_platform config0 map_iterdata None None w
       = Ok (partitions, parts)
    /\ partitions <> []
    /\ total_calls job_count_words = length partitions
    /\ parts_per_object job_count_words = match parts with [] => None | _ => Some parts end.
Proof.
  apply (partitioned_map_job_counts_partitions (demo_lib 0 0) World demo_platform s0
           (snd (run_create_map demo_platform config0 count_words objects2))
           job_count_words
           config0 "exec0" "M000" count_words objects2 ["numpy"]
           None None None None None 128 (Some []) [] None).
  - reflexivity.
  - vm_compute. reflexivity.
Defined.

(** X9.  When the partitioner finds no partition and still returns a
    non-empty list of partitions per object, the map job does not return
    the empty result of the job construction: storing the list into it
    raises a [TypeError], and nothing has been uploaded or built. *)
Theorem empty_partitions_raise_type_error
    (L : Lib) (W : Type) (P : Platform W) (s : St W Effect)
    config eid jid func iterdata preinstalls memory extra_args env chunk_size
    chunk_number threads include_modules exclude_modules timeout
    map_iterdata count counts :
  is_object_processing_function func = true ->
  cfg_rabbitmq_monitor config = false ->
  verify_args func iterdata extra_args = Ok map_iterdata ->
  create_partitions config map_iterdata chunk_size chunk_number (world s)
  = Ok ([], count :: counts) ->
  create_map_job config eid jid func iterdata preinstalls memory extra_args env
                 chunk_size chunk_number threads include_modules exclude_modules
                 timeout s
  = (Raise (PyExc "TypeError" "list indices must be integers or slices, not str"), s).
Proof.
  intros Hobj Hmon Hver Hparts. unfold create_map_job.
  rewrite Hobj, Hmon, Hver. unfold bind, lift, ask, ret. cbn [world].
  rewrite Hparts. reflexivity.
Qed.

Lemma empty_partitions_raise_type_error_witness :
  run_create_map empty_objects_platform config0 count_words objects2
  = (Raise (PyExc "TypeError" "list indices must be integers or slices, not str"), s0).
Proof.
  apply (empty_partitions_raise_type_error (demo_lib 0 0) World empty_objects_platform s0
           config0 "exec0" "M000" count_words objects2 ["numpy"]
           None None None None None 128 (Some []) [] None objects2 0%nat [0%nat]);
    reflexivity.
Defined.

(** X25.  When the partitioner fails, for objects it cannot reach, the map
    job raises its error with the world and the trace as they were: nothing
    has been uploaded, staged or built. *)
Theorem failed_partitioning_aborts_the_map_job
    (L : Lib) (W : Type) (P : Platform W) (s : St W Effect) (e : Exn)
    config eid jid func iterdata preinstalls memory extra_args env chunk_size
    chunk_number threads include_modules exclude_modules timeout map_iterdata :
  is_object_processing_function func = true ->
  cfg_rabbitmq_monitor config = false ->
  verify_args func iterdata extra_args = Ok map_iterdata ->
  create_partitions config map_iterdata chunk_size chunk_number (world s) = Raise e ->
  create_map_job config eid jid func iterdata preinstalls memory extra_args env
                 chunk_size chunk_number threads include_modules exclude_modules
                 timeout s
  = (Raise e, s).
Proof.
  intros Hobj Hmon Hver Hparts. unfold create_map_job.
  rewrite Hobj, Hmon, Hver. unfold bind, lift, ask, ret. cbn [world].
  rewrite Hparts. reflexivity.
Qed.

Lemma failed_partitioning_aborts_the_map_job_witness :
  run_create_map unreachable_objects_platform config0 count_words objects2
  = (Raise (PyExc "Exception" "One or more objects could not be found"), s0).
Proof.
  apply (failed_partitioning_aborts_the_map_job (demo_lib 0 0) World
           unreachable_objects_platform s0
           (PyExc "Exception" "One or more objects could not be found")
           config0 "exec0" "M000" count_words objects2 ["numpy"]
           None None None None None 128 (Some []) [] None objects2);
    reflexivity.
Defined.

(** X10.  The dictionary of a reduce job carries the extra environment of
    the caller with [__PW_REDUCE_JOB] set to [True] in it (over whatever the
    caller had put under that name), passed through the conversion of
    booleans; the other entries of the caller are kept.  The pool size is
    always the default of 128. *)
Theorem reduce_job_environment_is_marked
    (L : Lib) (W : Type) (P : Platform W) (s s' : St W Effect) jd
    config eid jid func map_job map_futures preinstalls reducer_one_per_object
    memory (env : option (list (string * PyVal))) include_modules exclude_modules
    timeout :
  create_reduce_job config eid jid func map_job map_futures preinstalls
                    reducer_one_per_object memory env include_modules exclude_modules
                    timeout s
  = (Ok (Job jd), s') ->
  exists ext_env,
    extra_env jd = convert_bools_to_string ext_env
    /\ dict_get "__PW_REDUCE_JOB" ext_env = Some (VBool true)
    /\ (forall k, k <> "__PW_REDUCE_JOB" -> dict_get k ext_env = dict_get k (default [] env))
    /\ invoke_pool_threads jd = 128.
Proof.
  unfold create_reduce_job. intros Hrun.
  apply bind_ok in Hrun as (iterdata & s1 & _ & Hrun).
  apply create_job_shape in Hrun as (src & mods & _ & _ & ->). cbn [extra_env invoke_pool_threads].
  destruct env as [e|]; cbn [default].
  - exists (dict_set "__PW_REDUCE_JOB" (VBool true) e).
    pose proof (dict_set_nonempty "__PW_REDUCE_JOB" (VBool true) e) as Hne.
    destruct (dict_set "__PW_REDUCE_JOB" (VBool true) e) as [|kv e'] eqn:Hset; [done|].
    rewrite <- Hset. split; [done|]. split; [apply dict_get_set_eq|].
    split; [|done]. intros k Hk. by apply dict_get_set_ne.
  - exists [("__PW_REDUCE_JOB", VBool true)]. split; [done|]. split; [done|].
    split; [|done]. intros k Hk. cbn. by apply String.eqb_neq in Hk as ->.
Qed.

Lemma reduce_job_environment_is_marked_witness :
  exists ext_env,
    extra_env job_reduce_2_3 = @convert_bools_to_string (demo_lib 0 0) ext_env
    /\ dict_get "__PW_REDUCE_JOB" ext_env = Some (VBool true)
    /\ (forall k, k <> "__PW_REDUCE_JOB" -> dict_get k ext_env = dict_get k [])
    /\ invoke_pool_threads job_reduce_2_3 = 128.
Proof.
  apply (reduce_job_environment_is_marked (demo_lib 0 0) World demo_platform s0
           (snd (run_reduce (demo_lib 0 0) map_job_2_3 true)) job_reduce_2_3
           config0 "exec0" "R000" total map_job_2_3 futures5 ["numpy"] true
           None None (Some []) [] None).
  vm_compute. reflexivity.
Defined.

(** X11.  The grouping per object never reads past the futures and never
    fails: whatever the counts, there is one group per count, no group is
    longer than its count, and the groups put end to end are the first
    futures, as many as the counts sum to (all of them when the sum is
    larger).  Futures beyond the sum are passed to no reduce call. *)
Theorem per_object_grouping_never_reads_past_the_futures
    (jd : JobDescription) (parts : list nat) (map_futures : list PyVal) :
  parts_per_object jd = Some parts ->
  exists groups,
    reduce_iterdata (Job jd) map_futures true = map as_call groups
    /\ Forall2 (fun group count => (length group <= count)%nat) groups parts
    /\ concat groups = take (sum_list parts) map_futures.
Proof.
  intros Hparts. exists (slices_from 0 parts map_futures).
  unfold reduce_iterdata. cbn [map_job_parts]. rewrite Hparts.
  split; [apply reduce_slices_spec|]. split; [apply slices_from_bounded|].
  by rewrite slices_from_concat, drop_0.
Qed.

Lemma per_object_grouping_never_reads_past_the_futures_witness :
  exists groups,
    reduce_iterdata map_job_2_3 (futures5 ++ [VFuture "00005"]) true = map as_call groups
    /\ Forall2 (fun group count => (length group <= count)%nat) groups [2; 3]%nat
    /\ concat groups = futures5.
Proof.
  apply (per_object_grouping_never_reads_past_the_futures job_2_3 [2; 3]%nat
           (futures5 ++ [VFuture "00005"])).
  reflexivity.
Defined.

(** X12.  Whatever happens in an image injection, once the temporary
    directory has been created its cleanup is attempted before the call
    returns or raises: no run ends with the cleanup pending. *)
Theorem temporary_directory_is_always_cleaned_up
    (L : Lib) (W : Type) (P : Platform W) (s : St W Effect) jd func mod_paths :
  exists evs,
    trace (snd (_inject_in_runtime_docker_image jd func mod_paths s)) = trace s ++ evs
    /\ cleanup_pending evs = false.
Proof. apply inject_cleanup. Qed.

(** X13.  An image injection builds, or tries to build, only after the
    source of the function has been written under its digest into the
    staging directory and the Dockerfile over the base runtime has been
    written: every build in the events of a run has both completed writes
    before it. *)
Theorem build_follows_staging
    (L : Lib) (W : Type) (P : Platform W) (s : St W Effect) jd func mod_paths :
  exists evs,
    trace (snd (_inject_in_runtime_docker_image jd func mod_paths s)) = trace s ++ evs
    /\ forall l1 ev l2,
         evs = l1 ++ ev :: l2 -> is_build ev = true ->
         exists src,
           fn_source func = Some src
           /\ In (Done (WriteFile (MOD_PATH +:+ "/" +:+ md5_hexdigest src +:+ ".py") src)) l1
           /\ In (Done (WriteFile "custom.dockerfile" (dockerfile_of (runtime_name jd)))) l1.
Proof.
  destruct (fn_source func) as [src|] eqn:Hsrc.
  - destruct (inject_staged jd func mod_paths src _ _ Hsrc (or_introl (conj eq_refl eq_refl)) s)
      as (evs & Htr & H1).
    destruct (inject_staged jd func mod_paths src _ _ Hsrc (or_intror (conj eq_refl eq_refl)) s)
      as (evs' & Htr' & H2).
    rewrite Htr in Htr'. apply app_inv_head in Htr' as <-.
    apply precede_sound in H1, H2.
    exists evs. split; [done|]. intros l1 ev l2 Heq Hb. exists src. split; [done|].
    destruct (H1 l1 ev l2 Heq Hb) as (a1 & Hin1 & ->%is_write_true).
    destruct (H2 l1 ev l2 Heq Hb) as (a2 & Hin2 & ->%is_write_true).
    done.
  - destruct (inject_no_build_without_source jd func mod_paths Hsrc s) as (evs & Htr & H1).
    apply precede_sound in H1.
    exists evs. split; [done|]. intros l1 ev l2 Heq Hb.
    destruct (H1 l1 ev l2 Heq Hb) as (a & _ & [=]).
Qed.

(** X14.  The events of an image injection that returns, in full: the
    removal of a stale staging directory when there is one, the temporary
    directory, one copy per module path in their order (a directory as a
    tree under its base name, anything else as a file), the source written
    under its digest, the Dockerfile, the cleanup, the breakpoint and the
    build of [base:digest], which becomes the runtime name. *)
Theorem successful_injection_trace
    (L : Lib) (W : Type) (P : Platform W) (s s' : St W Effect)
    jd jd' func mod_paths tag :
  _inject_in_runtime_docker_image jd func mod_paths s = (Ok (tag, jd'), s') ->
  exists src copies,
    fn_source func = Some src
    /\ tag = md5_hexdigest src
    /\ jd' = set_runtime_name (runtime_name jd +:+ ":" +:+ tag) jd
    /\ Forall2 copy_of mod_paths copies
    /\ trace s' = trace s
         ++ (if path_exists MOD_PATH (world s) then [Done (Rmtree MOD_PATH)] else [])
         ++ [Done (MkTempDir MOD_PATH)]
         ++ copies
         ++ [Done (WriteFile (MOD_PATH +:+ "/" +:+ tag +:+ ".py") src);
             Done (WriteFile "custom.dockerfile" (dockerfile_of (runtime_name jd)));
             Done CleanupTempDir;
             Done Breakpoint;
             Done (BuildAndCreateRuntime (runtime_name jd +:+ ":" +:+ tag) "custom.dockerfile")].
Proof. apply inject_success. Qed.

Lemma successful_injection_trace_witness :
  let out := run_inject job_other double
               ["/home/user/project/helpers"; "/home/user/project/settings.py"] in
  let tag := "c02b5218eac6a24c369124c3bf721593" in
  exists src copies,
    fn_source double = Some src
    /\ tag = MD5.hexdigest src
    /\ set_runtime_name ("python3.6:" +:+ tag) job_other
       = set_runtime_name (runtime_name job_other +:+ ":" +:+ tag) job_other
    /\ Forall2 copy_of ["/home/user/project/helpers"; "/home/user/project/settings.py"] copies
    /\ trace (snd out)
       = trace s0
         ++ (if path_exists MOD_PATH (world s0) then [Done (Rmtree MOD_PATH)] else [])
         ++ [Done (MkTempDir MOD_PATH)]
         ++ copies
         ++ [Done (WriteFile (MOD_PATH +:+ "/" +:+ tag +:+ ".py") src);
             Done (WriteFile "custom.dockerfile" (dockerfile_of (runtime_name job_other)));
             Done CleanupTempDir;
             Done Breakpoint;
             Done (BuildAndCreateRuntime (runtime_name job_other +:+ ":" +:+ tag)
                                         "custom.dockerfile")].
Proof.
  apply (successful_injection_trace (demo_lib 0 0) World demo_platform s0
           (snd (run_inject job_other double
                   ["/home/user/project/helpers"; "/home/user/project/settings.py"]))
           job_other
           (set_runtime_name "python3.6:c02b5218eac6a24c369124c3bf721593" job_other)
           double ["/home/user/project/helpers"; "/home/user/project/settings.py"]
           "c02b5218eac6a24c369124c3bf721593").
  vm_compute. reflexivity.
Defined.

(** X15.  An image injection stages nothing in the temporary directory it
    creates: every removal, copy and write of a run goes to [ext_mod_path]
    in the working directory, to a path below it, or to [custom.dockerfile];
    and it uploads nothing. *)
Theorem staging_goes_to_the_working_directory
    (L : Lib) (W : Type) (P : Platform W) (s : St W Effect) jd func mod_paths :
  exists evs,
    trace (snd (_inject_in_runtime_docker_image jd func mod_paths s)) = trace s ++ evs
    /\ Forall stages_in_working_directory evs.
Proof. apply inject_stages_in_working_directory. Qed.

(** X29.  Job construction stops twice in the debugger.  On non-empty data
    the first thing a call of [_create_job] does is the breakpoint of line
    183, and when that raises the call raises with nothing else done; and in
    every image injection the breakpoint of line 278 has been passed before
    anything is built. *)
Theorem construction_stops_at_the_breakpoints
    (L : Lib) (W : Type) (P : Platform W) (s : St W Effect)
    config eid jid func data preinstalls memory env threads include_modules
    exclude_modules timeout jd mod_paths :
  let create_job :=
    _create_job config eid jid func data preinstalls memory env threads
                include_modules exclude_modules timeout in
  (data <> [] ->
   exists rest,
     trace (snd (create_job s)) = trace s ++ outcome exec Breakpoint (world s) :: rest
     /\ (forall x, fst (exec Breakpoint (world s)) = Some x ->
         rest = [] /\ fst (create_job s) = Raise x))
  /\ exists evs,
       trace (snd (_inject_in_runtime_docker_image jd func mod_paths s)) = trace s ++ evs
       /\ forall l1 ev l2,
            evs = l1 ++ ev :: l2 -> is_build ev = true -> In (Done Breakpoint) l1.
Proof.
  intros create_job. subst create_job. split.
  - apply create_job_starts_at_breakpoint.
  - destruct (inject_breaks_before_build jd func mod_paths s) as (evs & Htr & Hpre).
    apply precede_sound in Hpre. exists evs. split; [done|].
    intros l1 ev l2 Heq Hb. destruct (Hpre l1 ev l2 Heq Hb) as (a & Hin & Ha).
    destruct a as [[]|[] ?]; try discriminate. exact Hin.
Qed.

(** X16.  A reduce job over the map job of a function that does not process
    stored objects is never grouped: the dictionary of such a map job has no
    [parts_per_object], so whatever [reducer_one_per_object] says the data
    of the reduce job is the single call on all the map futures. *)
Theorem plain_map_job_is_reduced_in_one_call
    (L : Lib) (W : Type) (P : Platform W) (s s' : St W Effect)
    config eid jid func iterdata preinstalls memory extra_args env chunk_size
    chunk_number threads include_modules exclude_modules timeout
    (map_job : JobResult) (map_futures : list PyVal) (reducer_one_per_object : bool) :
  is_object_processing_function func = false ->
  create_map_job config eid jid func iterdata preinstalls memory extra_args env
                 chunk_size chunk_number threads include_modules exclude_modules
                 timeout s
  = (Ok map_job, s') ->
  reduce_iterdata map_job map_futures reducer_one_per_object = [VList [VList map_futures]].
Proof.
  intros Hobj Hrun. destruct map_job as [|jd]; [reflexivity|].
  eapply create_map_job_total_calls in Hrun as (_ & _ & Hppo); [|done].
  unfold reduce_iterdata. cbn [map_job_parts]. by rewrite Hppo.
Qed.

Lemma plain_map_job_is_reduced_in_one_call_witness :
  reduce_iterdata (Job job123) futures5 true = [VList [VList futures5]].
Proof.
  apply (plain_map_job_is_reduced_in_one_call (demo_lib 0 0) World demo_platform s0
           (snd (run_create_map demo_platform config0 double data123))
           config0 "exec0" "M000" double data123 ["numpy"]
           None None None None None 128 (Some []) [] None (Job job123) futures5 true).
  - reflexivity.
  - vm_compute. reflexivity.
Defined.
End JobBehaviour.

(** ** localhost.py: the runtime key and the extraction of the metadata *)

Module StripFacts.

Lemma lstrip_no_leading_slash (s : string) : startswith_slash (lstrip_slash s) = false.
Proof.
  induction s as [|c s IH]; [done|]. cbn [lstrip_slash].
  destruct (Ascii.eqb c "/") eqn:Hc; [done|]. cbn. exact Hc.
Qed.

Lemma rstrip_no_trailing_slash (s : string) : endswith_slash (rstrip_slash s) = false.
Proof.
  induction s as [|c s IH]; [done|]. cbn [rstrip_slash].
  destruct (rstrip_slash s) as [|c' kept].
  - destruct (Ascii.eqb c "/") eqn:Hc; [done|]. cbn. exact Hc.
  - exact IH.
Qed.

Lemma rstrip_keeps_the_start (s : string) :
  startswith_slash s = false -> startswith_slash (rstrip_slash s) = false.
Proof.
  destruct s as [|c s]; [done|]. cbn [startswith_slash rstrip_slash]. intros Hc.
  destruct (rstrip_slash s); [by rewrite Hc|done].
Qed.

Lemma rstrip_app_slash (s : string) : rstrip_slash (s +:+ "/") = rstrip_slash s.
Proof.
  induction s as [|c s IH]; [done|].
  change (String c s +:+ "/") with (String c (s +:+ "/")).
  cbn [rstrip_slash]. by rewrite IH.
Qed.

Lemma strip_app_slash (s : string) : strip_slash (s +:+ "/") = strip_slash s.
Proof.
  unfold strip_slash. induction s as [|c s IH]; [done|].
  change (String c s +:+ "/") with (String c (s +:+ "/")).
  cbn [lstrip_slash]. destruct (Ascii.eqb c "/"); [exact IH|].
  change (String c (s +:+ "/")) with (String c s +:+ "/"). apply rstrip_app_slash.
Qed.

Lemma strip_no_slash_at_the_ends (s : string) :
  startswith_slash (strip_slash s) = false /\ endswith_slash (strip_slash s) = false.
Proof.
  unfold strip_slash. split.
  - apply rstrip_keeps_the_start, lstrip_no_leading_slash.
  - apply rstrip_no_trailing_slash.
Qed.
(** The runtime key of a handler as [__init__] builds it. *)
Lemma get_runtime_key_init (sys_executable : string) (runtime : option string)
    (runtime_name : string) :
  Localhost.get_runtime_key (Localhost.init sys_executable runtime) runtime_name
  = "localhost/" +:+ (match runtime with Some _ => "docker" | None => "default" end)
    +:+ "/" +:+ strip_slash runtime_name.
Proof.
  destruct (strip_no_slash_at_the_ends runtime_name) as [Hstart _].
  unfold Localhost.get_runtime_key, path_join. cbn [fold_left].
  destruct runtime; cbn [Localhost.init Localhost.env_type];
    unfold path_join2 at 1; rewrite Hstart; reflexivity.
Qed.
End StripFacts.

Module LocalhostRunFacts.
Import Localhost Eff EffFacts Watch WatchFacts LocalhostFacts.

Section Facts.
Variables TEMP STORAGE_DIR JOBS_PREFIX LITHOPS_LOCATION : string.
Variable json_dumps : PyVal -> string.
Context {W : Type} {P : Platform W}.
Variable runtime_meta_of : W -> Res PyVal.

Local Abbreviation src_handler :=
  (path_join LITHOPS_LOCATION ["localhost"; LOCAL_HANDLER_NAME]).

Lemma is_install_true ev :
  is_install STORAGE_DIR LITHOPS_LOCATION ev = true ->
  ev = Done (CopyFile src_handler (HANDLER_FILE STORAGE_DIR)).
Proof.
  destruct ev as [[]|[] ?]; cbn; try discriminate.
  intros [->%String.eqb_eq ->%String.eqb_eq]%andb_true_iff. reflexivity.
Qed.

Lemma setup_ok (e : Env) (s s' : St W Effect) :
  setup STORAGE_DIR LITHOPS_LOCATION e s = (Ok tt, s') ->
  trace s' = trace s ++ setup_events STORAGE_DIR LITHOPS_LOCATION e.
Proof.
  unfold setup, call. intros Hrun. destruct e as [image|interp].
  - apply bind_ok in Hrun as (u1 & s1 & H1 & Hrun). apply perform_ok in H1 as (w1 & _ & ->).
    apply bind_ok in Hrun as (u2 & s2 & H2 & Hrun). apply perform_ok in H2 as (w2 & _ & ->).
    apply perform_ok in Hrun as (w3 & _ & ->). cbn [trace]. by rewrite <- !app_assoc.
  - apply bind_ok in Hrun as (u1 & s1 & H1 & Hrun). apply perform_ok in H1 as (w1 & _ & ->).
    apply perform_ok in Hrun as (w3 & _ & ->). cbn [trace]. by rewrite <- !app_assoc.
Qed.

(** The command of an environment, once resolved. *)
Lemma get_execution_cmd_ok (e : Env) runtime (s s' : St W Effect) exec_command :
  get_execution_cmd TEMP STORAGE_DIR e runtime s = (Ok exec_command, s') ->
  match e with
  | DefaultEnv interp =>
      s' = s /\ exec_command = interp +:+ " " +:+ HANDLER_FILE STORAGE_DIR
  | DockerEnv _ =>
      exists w uid,
        exec (RunCmd "id -u $USER") (world s) = (None, w)
        /\ user_id w = Ok uid
        /\ s' = mkSt w (trace s ++ [Done (RunCmd "id -u $USER")])
        /\ exec_command
           = "docker run --user " +:+ pretty uid +:+ " --rm -v " +:+ TEMP
             +:+ ":/tmp --entrypoint " +:+ dquote +:+ "python" +:+ dquote +:+ " "
             +:+ runtime +:+ " " +:+ HANDLER_FILE STORAGE_DIR
  end.
Proof.
  unfold get_execution_cmd, call. destruct e as [image|interp]; intros Hcmd.
  - apply bind_ok in Hcmd as (u & s2 & Hrun & Hcmd).
    apply perform_ok in Hrun as (w2 & Hw2 & ->).
    apply bind_ok in Hcmd as (r & s3 & Hask & Hcmd). apply ask_ok in Hask as [-> ->].
    apply bind_ok in Hcmd as (uid & s4 & Hlift & Hcmd). apply lift_ok in Hlift as [Huid ->].
    apply ret_ok in Hcmd as [-> ->]. exists w2, uid. done.
  - apply ret_ok in Hcmd as [-> ->]. done.
Qed.

Lemma create_runtime_installs_first self runtime :
  Watch.holds (precede_step (is_install STORAGE_DIR LITHOPS_LOCATION) is_command)
              (create_runtime TEMP STORAGE_DIR LITHOPS_LOCATION runtime_meta_of self runtime)
              (false, true) (fun _ st => st.2 = true).
Proof.
  unfold create_runtime, setup, get_execution_cmd, call.
  destruct (env self) as [image|interp]; watch.
  all: cbn; rewrite ?String.eqb_refl; reflexivity.
Qed.

Lemma create_runtime_prepares_only self runtime :
  emits prepares_only
        (create_runtime TEMP STORAGE_DIR LITHOPS_LOCATION runtime_meta_of self runtime).
Proof.
  unfold create_runtime, setup, get_execution_cmd, call.
  destruct (env self) as [image|interp]; emits_tac.
Qed.
(** A [create_runtime] that returns, step by step. *)
Lemma create_runtime_ok (self : LocalhostHandler) (runtime : string)
    (s s' : St W Effect) (runtime_meta : PyVal) :
  create_runtime TEMP STORAGE_DIR LITHOPS_LOCATION runtime_meta_of self runtime s
  = (Ok runtime_meta, s') ->
  exists probe exec_command,
    trace s' = trace s
               ++ setup_events STORAGE_DIR LITHOPS_LOCATION (env self)
               ++ probe
               ++ [Done (RunCmd (exec_command +:+ " modules"))]
    /\ runtime_meta_of (world s') = Ok runtime_meta
    /\ match env self with
       | DefaultEnv interp =>
           probe = [] /\ exec_command = interp +:+ " " +:+ HANDLER_FILE STORAGE_DIR
       | DockerEnv _ =>
           probe = [Done (RunCmd "id -u $USER")]
           /\ exists uid : Z,
                exec_command
                = "docker run --user " +:+ pretty uid +:+ " --rm -v " +:+ TEMP
                  +:+ ":/tmp --entrypoint " +:+ dquote +:+ "python" +:+ dquote +:+ " "
                  +:+ runtime +:+ " " +:+ HANDLER_FILE STORAGE_DIR
       end.
Proof.
  unfold create_runtime. intros Hrun.
  apply bind_ok in Hrun as ([] & s1 & Hsetup & Hrun). apply setup_ok in Hsetup.
  apply bind_ok in Hrun as (exec_command & s2 & Hcmd & Hrun).
  apply get_execution_cmd_ok in Hcmd.
  apply bind_ok in Hrun as (u & s3 & Hmod & Hrun).
  apply perform_ok in Hmod as (w3 & _ & ->).
  apply bind_ok in Hrun as (r & s4 & Hask & Hrun). apply ask_ok in Hask as [-> ->].
  apply lift_ok in Hrun as [Hmeta ->]. cbn [world trace] in *.
  destruct (env self) as [image|interp].
  - destruct Hcmd as (w & uid & _ & _ & -> & ->). cbn [trace].
    exists [Done (RunCmd "id -u $USER")]. eexists. rewrite Hsetup, <- !app_assoc.
    split; [reflexivity|]. split; [done|]. split; [done|]. by exists uid.
  - destruct Hcmd as [-> ->]. exists []. eexists. rewrite Hsetup, <- !app_assoc.
    split; [reflexivity|]. done.
Qed.

(** The command of an environment ends with the handler file. *)
Lemma exec_command_names_the_handler (e : Env) runtime (s s' : St W Effect) exec_command :
  get_execution_cmd TEMP STORAGE_DIR e runtime s = (Ok exec_command, s') ->
  exists prefix, exec_command = prefix +:+ HANDLER_FILE STORAGE_DIR.
Proof.
  intros Hcmd. apply get_execution_cmd_ok in Hcmd. destruct e as [image|interp].
  - destruct Hcmd as (w & uid & _ & _ & _ & ->).
    exists ("docker run --user " +:+ pretty uid +:+ " --rm -v " +:+ TEMP
            +:+ ":/tmp --entrypoint " +:+ dquote +:+ "python" +:+ dquote +:+ " "
            +:+ runtime +:+ " ").
    by rewrite !PathFacts.append_assoc.
  - destruct Hcmd as [_ ->]. exists (interp +:+ " "). by rewrite PathFacts.append_assoc.
Qed.

(** A [run_job] that returns, step by step. *)
Lemma run_job_ok (self : LocalhostHandler) (job_payload : JobPayload)
    (s s' : St W Effect) :
  run_job TEMP STORAGE_DIR JOBS_PREFIX json_dumps self job_payload s = (Ok tt, s') ->
  exists probe exec_command,
    trace s'
    = trace s ++ probe
      ++ [Done (Makedirs (job_dir_of STORAGE_DIR JOBS_PREFIX job_payload));
          Done (WriteFile (job_file_of STORAGE_DIR JOBS_PREFIX job_payload)
                          (json_dumps (pl_document job_payload)));
          Done (OpenAppend (path_join STORAGE_DIR ["local_handler.log"]))]
      ++ [Done (Popen (exec_command +:+ " run "
                       +:+ job_file_of STORAGE_DIR JOBS_PREFIX job_payload)
                      (path_join STORAGE_DIR ["local_handler.log"]))]
    /\ match env self with
       | DefaultEnv interp => exec_command = interp +:+ " " +:+ HANDLER_FILE STORAGE_DIR
       | DockerEnv _ =>
           exists w uid,
             exec (RunCmd "id -u $USER") (world s) = (None, w)
             /\ user_id w = Ok uid
             /\ exec_command
                = "docker run --user " +:+ pretty uid +:+ " --rm -v " +:+ TEMP
                  +:+ ":/tmp --entrypoint " +:+ dquote +:+ "python" +:+ dquote +:+ " "
                  +:+ pl_runtime_name job_payload +:+ " " +:+ HANDLER_FILE STORAGE_DIR
       end
    /\ exists prefix, exec_command = prefix +:+ HANDLER_FILE STORAGE_DIR.
Proof.
  rewrite run_job_unfold. intros Hrun.
  apply bind_ok in Hrun as (exec_command & s1 & Hcmd & Hrun).
  pose proof (exec_command_names_the_handler _ _ _ _ _ Hcmd) as Hprefix.
  apply get_execution_cmd_ok in Hcmd.
  destruct (write_and_launch_spec STORAGE_DIR JOBS_PREFIX json_dumps exec_command
              job_payload s1) as (evs & Htr & _ & Hok).
  rewrite Hrun in Htr, Hok. cbn [fst snd] in Htr, Hok. rewrite (Hok eq_refl) in Htr.
  destruct (env self) as [image|interp].
  - destruct Hcmd as (w & uid & Hw & Huid & -> & ->).
    exists [Done (RunCmd "id -u $USER")]. eexists.
    split; [|split; [by exists w, uid|exact Hprefix]].
    rewrite Htr. cbn [trace]. by rewrite <- !app_assoc.
  - destruct Hcmd as [-> ->]. exists []. eexists.
    split; [exact Htr|]. split; [reflexivity|exact Hprefix].
Qed.

(** Every completed [setup] ends with the installation of the handler. *)
Lemma setup_events_install (e : Env) :
  exists before,
    setup_events STORAGE_DIR LITHOPS_LOCATION e
    = before ++ [Done (CopyFile src_handler (HANDLER_FILE STORAGE_DIR))].
Proof. destruct e; [by eexists [_; _]|by eexists [_]]. Qed.

End Facts.
End LocalhostRunFacts.

(** ** localhost.py: further properties of the code *)

Module LocalhostBehaviour.
Import Localhost Eff EffFacts Watch WatchFacts StripFacts LocalhostFacts LocalhostRunFacts
       LocalhostDemo.

(** X17.  The runtime key of a handler is [localhost/<type>/<name>], the
    type being [default] without a configured runtime and [docker] with
    one, and the name being the runtime name without the slashes at its
    ends: a name never makes the key absolute, and a name and the same name
    wrapped in slashes have the same key. *)
Theorem runtime_key_ignores_surrounding_slashes
    (sys_executable : string) (runtime : option string) (runtime_name : string) :
  let self := init sys_executable runtime in
  get_runtime_key self runtime_name
  = "localhost/" +:+ (match runtime with Some _ => "docker" | None => "default" end)
    +:+ "/" +:+ strip_slash runtime_name
  /\ startswith_slash (strip_slash runtime_name) = false
  /\ endswith_slash (strip_slash runtime_name) = false
  /\ get_runtime_key self ("/" +:+ runtime_name +:+ "/") = get_runtime_key self runtime_name.
Proof.
  intros self. subst self.
  destruct (strip_no_slash_at_the_ends runtime_name) as [Hstart Hend].
  split; [|split; [done|split; [done|]]].
  - apply get_runtime_key_init.
  - unfold get_runtime_key. f_equal. f_equal. f_equal.
    change ("/" +:+ runtime_name +:+ "/") with (String "/" (runtime_name +:+ "/")).
    unfold strip_slash at 1. cbn [lstrip_slash Ascii.eqb Bool.eqb].
    apply strip_app_slash.
Qed.

(** X28.  Two runtime names have the same key on a handler exactly when
    they are the same once the slashes at their ends are stripped; and a key
    of the default environment is never a key of the container
    environment. *)
Theorem runtime_keys_collide_only_up_to_slashes
    (sys_executable : string) (runtime : option string) (image name1 name2 : string) :
  (get_runtime_key (init sys_executable runtime) name1
   = get_runtime_key (init sys_executable runtime) name2
   <-> strip_slash name1 = strip_slash name2)
  /\ get_runtime_key (init sys_executable None) name1
     <> get_runtime_key (init sys_executable (Some image)) name2.
Proof.
  rewrite !get_runtime_key_init. split.
  - destruct runtime; cbn; split; intros Heq; [|by rewrite Heq| |by rewrite Heq];
      by injection Heq.
  - cbn. discriminate.
Qed.

(** X18.  A [create_runtime] that returns has set the environment up
    (storage directory, the package for the container environment, the
    handler file), resolved the command of the environment for the runtime
    asked for, run that command with [modules], in this order, and returns
    the metadata decoded from what the command printed. *)
Theorem runtime_metadata_comes_after_setup
    (TEMP STORAGE_DIR LITHOPS_LOCATION : string) (W : Type) (P : Platform W)
    (runtime_meta_of : W -> Res PyVal) (self : LocalhostHandler) (runtime : string)
    (s s' : St W Effect) (runtime_meta : PyVal) :
  create_runtime TEMP STORAGE_DIR LITHOPS_LOCATION runtime_meta_of self runtime s
  = (Ok runtime_meta, s') ->
  exists probe exec_command,
    trace s' = trace s
               ++ setup_events STORAGE_DIR LITHOPS_LOCATION (env self)
               ++ probe
               ++ [Done (RunCmd (exec_command +:+ " modules"))]
    /\ runtime_meta_of (world s') = Ok runtime_meta
    /\ match env self with
       | DefaultEnv interp =>
           probe = [] /\ exec_command = interp +:+ " " +:+ HANDLER_FILE STORAGE_DIR
       | DockerEnv _ =>
           probe = [Done (RunCmd "id -u $USER")]
           /\ exists uid : Z,
                exec_command
                = "docker run --user " +:+ pretty uid +:+ " --rm -v " +:+ TEMP
                  +:+ ":/tmp --entrypoint " +:+ dquote +:+ "python" +:+ dquote +:+ " "
                  +:+ runtime +:+ " " +:+ HANDLER_FILE STORAGE_DIR
       end.
Proof. apply create_runtime_ok. Qed.

Lemma runtime_metadata_comes_after_setup_witness :
  let out := create_runtime0 (init "/usr/bin/python3" (Some "pywren-runtime")) machine0 in
  exists probe exec_command,
    trace (snd out)
    = [Done (Makedirs "/tmp/lithops");
       Done (CopyTree "/opt/lithops" "/tmp/lithops/lithops");
       Done (CopyFile "/opt/lithops/localhost/local_handler.py"
                      "/tmp/lithops/local_handler.py")]
      ++ probe
      ++ [Done (RunCmd (exec_command +:+ " modules"))]
    /\ demo_runtime_meta (world (snd out))
       = Ok (VDict [("preinstalls", VList [VStr "numpy"; VStr "requests"])])
    /\ probe = [Done (RunCmd "id -u $USER")]
       /\ exists n : Z,
            exec_command
            = "docker run --user " +:+ pretty n +:+ " --rm -v /tmp:/tmp --entrypoint "
              +:+ dquote +:+ "python" +:+ dquote
              +:+ " python3.6 /tmp/lithops/local_handler.py".
Proof.
  apply (runtime_metadata_comes_after_setup "/tmp" "/tmp/lithops" "/opt/lithops"
           Machine demo_platform demo_runtime_meta
           (init "/usr/bin/python3" (Some "pywren-runtime")) "python3.6"
           (mkSt machine0 [])
           (snd (create_runtime0 (init "/usr/bin/python3" (Some "pywren-runtime")) machine0))
           (VDict [("preinstalls", VList [VStr "numpy"; VStr "requests"])])).
  reflexivity.
Defined.

(** X19.  Whatever [create_runtime] does, it runs no command before the
    handler of the package has been copied to the handler file, and it only
    prepares: it writes no job file, opens no log and launches no process. *)
Theorem no_command_before_the_handler_is_installed
    (TEMP STORAGE_DIR LITHOPS_LOCATION : string) (W : Type) (P : Platform W)
    (runtime_meta_of : W -> Res PyVal) (self : LocalhostHandler) (runtime : string)
    (s : St W Effect) :
  exists evs,
    trace (snd (create_runtime TEMP STORAGE_DIR LITHOPS_LOCATION runtime_meta_of
                               self runtime s))
    = trace s ++ evs
    /\ Forall prepares_only evs
    /\ forall l1 ev l2,
         evs = l1 ++ ev :: l2 -> is_command ev = true ->
         In (Done (CopyFile (path_join LITHOPS_LOCATION ["localhost"; LOCAL_HANDLER_NAME])
                            (HANDLER_FILE STORAGE_DIR))) l1.
Proof.
  destruct (create_runtime_installs_first TEMP STORAGE_DIR LITHOPS_LOCATION
              runtime_meta_of self runtime s) as (evs & Htr & Hpre).
  destruct (create_runtime_prepares_only TEMP STORAGE_DIR LITHOPS_LOCATION
              runtime_meta_of self runtime s) as (evs' & Htr' & Hprep).
  rewrite Htr in Htr'. apply app_inv_head in Htr' as <-.
  apply precede_sound in Hpre.
  exists evs. split; [done|]. split; [done|]. intros l1 ev l2 Heq Hcmd.
  destruct (Hpre l1 ev l2 Heq Hcmd) as (a & Hin & ->%is_install_true). done.
Qed.

(** X20.  The image a handler is configured with only selects the container
    environment: it is not the image that is run.  Two handlers configured
    with different images run the same job, extract the same metadata and
    give the same runtime key; the image in the command is the runtime name
    of the payload, or the runtime asked for. *)
Theorem configured_image_only_selects_the_environment
    (TEMP STORAGE_DIR JOBS_PREFIX sys_executable LITHOPS_LOCATION : string)
    (json_dumps : PyVal -> string) (W : Type) (P : Platform W)
    (runtime_meta_of : W -> Res PyVal) (image1 image2 : string)
    (job_payload : JobPayload) (runtime runtime_name : string) :
  let self1 := init sys_executable (Some image1) in
  let self2 := init sys_executable (Some image2) in
  run_job TEMP STORAGE_DIR JOBS_PREFIX json_dumps self1 job_payload
  = run_job TEMP STORAGE_DIR JOBS_PREFIX json_dumps self2 job_payload
  /\ create_runtime TEMP STORAGE_DIR LITHOPS_LOCATION runtime_meta_of self1 runtime
     = create_runtime TEMP STORAGE_DIR LITHOPS_LOCATION runtime_meta_of self2 runtime
  /\ get_runtime_key self1 runtime_name = get_runtime_key self2 runtime_name.
Proof. intros self1 self2. repeat split. Qed.

(** X21.  The command a [run_job] that returns has launched: the
    interpreter on the handler file for the default environment, whatever
    the runtime name of the payload; for the container environment
    [docker run] as the user the probe reported, with the temporary
    directory mounted, on the image named by the payload; in both cases
    with [run] and the job file, the launch being the last thing done. *)
Theorem launched_command_of_a_job
    (TEMP STORAGE_DIR JOBS_PREFIX : string) (json_dumps : PyVal -> string)
    (W : Type) (P : Platform W) (self : LocalhostHandler) (job_payload : JobPayload)
    (s s' : St W Effect) :
  run_job TEMP STORAGE_DIR JOBS_PREFIX json_dumps self job_payload s = (Ok tt, s') ->
  exists exec_command,
    last (trace s')
    = Some (Done (Popen (exec_command +:+ " run "
                         +:+ job_file_of STORAGE_DIR JOBS_PREFIX job_payload)
                        (path_join STORAGE_DIR ["local_handler.log"])))
    /\ match env self with
       | DefaultEnv interp => exec_command = interp +:+ " " +:+ HANDLER_FILE STORAGE_DIR
       | DockerEnv _ =>
           exists w uid,
             exec (RunCmd "id -u $USER") (world s) = (None, w)
             /\ user_id w = Ok uid
             /\ exec_command
                = "docker run --user " +:+ pretty uid +:+ " --rm -v " +:+ TEMP
                  +:+ ":/tmp --entrypoint " +:+ dquote +:+ "python" +:+ dquote +:+ " "
                  +:+ pl_runtime_name job_payload +:+ " " +:+ HANDLER_FILE STORAGE_DIR
       end.
Proof.
  intros Hrun. apply run_job_ok in Hrun as (probe & exec_command & Htr & Hcmd & _).
  exists exec_command. split; [|done].
  rewrite Htr, !app_assoc. apply last_snoc.
Qed.

Lemma launched_command_of_a_job_witness :
  let out := run_job0 (init "/usr/bin/python3" (Some "pywren-runtime")) machine0 in
  exists exec_command,
    last (trace (snd out))
    = Some (Done (Popen (exec_command +:+ " run "
                         +:+ "/tmp/lithops/storage/lithops.jobs/exec0/M000/job.json")
                        "/tmp/lithops/local_handler.log"))
    /\ exists w n,
         demo_exec (RunCmd "id -u $USER") machine0 = (None, w)
         /\ uid w = Ok n
         /\ exec_command
            = "docker run --user " +:+ pretty n +:+ " --rm -v /tmp:/tmp --entrypoint "
              +:+ dquote +:+ "python" +:+ dquote
              +:+ " python3.6 /tmp/lithops/local_handler.py".
Proof.
  apply (launched_command_of_a_job "/tmp" "/tmp/lithops" "lithops.jobs" json_of
           Machine demo_platform (init "/usr/bin/python3" (Some "pywren-runtime"))
           payload0 (mkSt machine0 [])
           (snd (run_job0 (init "/usr/bin/python3" (Some "pywren-runtime")) machine0))).
  reflexivity.
Defined.

(** X26.  Extraction of the metadata, then a job, on the same handler: the
    command the job launches runs the handler file, and that file is the one
    [create_runtime] installed before; the installation is in the trace
    ahead of the launch. *)
Theorem launched_handler_was_installed
    (TEMP STORAGE_DIR JOBS_PREFIX LITHOPS_LOCATION : string)
    (json_dumps : PyVal -> string) (W : Type) (P : Platform W)
    (runtime_meta_of : W -> Res PyVal) (self : LocalhostHandler) (runtime : string)
    (job_payload : JobPayload) (s s1 s2 : St W Effect) (runtime_meta : PyVal) :
  create_runtime TEMP STORAGE_DIR LITHOPS_LOCATION runtime_meta_of self runtime s
  = (Ok runtime_meta, s1) ->
  run_job TEMP STORAGE_DIR JOBS_PREFIX json_dumps self job_payload s1 = (Ok tt, s2) ->
  exists before between prefix,
    trace s2
    = trace s ++ before
      ++ [Done (CopyFile (path_join LITHOPS_LOCATION ["localhost"; LOCAL_HANDLER_NAME])
                         (HANDLER_FILE STORAGE_DIR))]
      ++ between
      ++ [Done (Popen (prefix +:+ HANDLER_FILE STORAGE_DIR +:+ " run "
                       +:+ job_file_of STORAGE_DIR JOBS_PREFIX job_payload)
                      (path_join STORAGE_DIR ["local_handler.log"]))].
Proof.
  intros Hcreate Hrun.
  apply create_runtime_ok in Hcreate as (probe1 & cmd1 & Htr1 & _ & _).
  destruct (setup_events_install STORAGE_DIR LITHOPS_LOCATION (env self))
    as (before & Hsetup).
  rewrite Hsetup in Htr1.
  apply run_job_ok in Hrun as (probe2 & cmd2 & Htr2 & _ & prefix & ->).
  exists before,
         (probe1 ++ [Done (RunCmd (cmd1 +:+ " modules"))] ++ probe2
          ++ [Done (Makedirs (job_dir_of STORAGE_DIR JOBS_PREFIX job_payload));
              Done (WriteFile (job_file_of STORAGE_DIR JOBS_PREFIX job_payload)
                              (json_dumps (pl_document job_payload)));
              Done (OpenAppend (path_join STORAGE_DIR ["local_handler.log"]))]),
         prefix.
  rewrite Htr2, Htr1, <- !app_assoc, PathFacts.append_assoc. reflexivity.
Qed.
Lemma launched_handler_was_installed_witness :
  let self := init "/usr/bin/python3" None in
  let s1 := snd (create_runtime0 self machine0) in
  let s2 := snd (run_job "/tmp" "/tmp/lithops" "lithops.jobs" json_of self payload0 s1) in
  exists before between prefix,
    trace s2
    = before
      ++ [Done (CopyFile "/opt/lithops/localhost/local_handler.py"
                         "/tmp/lithops/local_handler.py")]
      ++ between
      ++ [Done (Popen (prefix +:+ "/tmp/lithops/local_handler.py" +:+ " run "
                       +:+ "/tmp/lithops/storage/lithops.jobs/exec0/M000/job.json")
                      "/tmp/lithops/local_handler.log")].
Proof.
  apply (launched_handler_was_installed "/tmp" "/tmp/lithops" "lithops.jobs" "/opt/lithops"
           json_of Machine demo_platform demo_runtime_meta
           (init "/usr/bin/python3" None) "python3.6" payload0 (mkSt machine0 [])
           (snd (create_runtime0 (init "/usr/bin/python3" None) machine0))
           (snd (run_job "/tmp" "/tmp/lithops" "lithops.jobs" json_of
                         (init "/usr/bin/python3" None) payload0
                         (snd (create_runtime0 (init "/usr/bin/python3" None) machine0))))
           (VDict [("preinstalls", VList [VStr "numpy"; VStr "requests"])]));
    reflexivity.
Defined.
End LocalhostBehaviour.

(** ** compute.py: further properties of the code *)

Module ComputeBehaviour.
Import Compute ComputeDemo.

(** The message [__init__] sends to [logger.error] for an exception. *)
Local Abbreviation error_message e :=
  ("There was en error trying to create the '" +:+ exn_str e +:+ "' compute backend").


(** The import is interrupted from the keyboard: the interrupt reaches the
    caller, and nothing is logged. *)
Example interrupted_import_is_not_logged :
  init interrupted_import demo_getenv config_ibm_cf
  = ([], Raise (PyExc "KeyboardInterrupt" "")).
Proof. reflexivity. Qed.

(** X23.  What a configuration that lacks an entry makes of [__init__]:
    without [backend] it raises [KeyError('backend')]; with a backend whose
    module has no [ComputeBackend] it raises an [AttributeError]; with a
    backend that has no section of its own it raises [KeyError] for the name
    of the backend; the last two are logged. *)
Theorem missing_configuration_entries_raise
    {H : Type} (import_module : string -> Res (BackendModule H))
    (getenv : string -> option string) (compute_config : ComputeConfig) :
  let location name := "pywren_ibm_cloud.compute.backends." +:+ name in
  let out := init import_module getenv compute_config in
  (cfg_backend compute_config = None -> out = ([], Raise (PyExc "KeyError" "'backend'")))
  /\ (forall name,
        cfg_backend compute_config = Some name ->
        import_module (location name) = Ok (mkBackendModule None) ->
        exists e,
          e = PyExc "AttributeError"
                    ("module '" +:+ location name +:+ "' has no attribute 'ComputeBackend'")
          /\ out = ([error_message e], Raise e))
  /\ (forall name cb_module ComputeBackend_cls,
        cfg_backend compute_config = Some name ->
        import_module (location name) = Ok cb_module ->
        ComputeBackend cb_module = Some ComputeBackend_cls ->
        cfg_entries compute_config !! name = None ->
        let e := PyExc "KeyError" ("'" +:+ name +:+ "'") in
        out = ([error_message e], Raise e)).
Proof.
  intros location out. subst location out. unfold init, resolve_backend. split; [|split].
  - by intros ->.
  - intros name -> ->. cbn. eauto.
  - intros name m cls -> -> -> ->. reflexivity.
Qed.

Lemma missing_configuration_entries_raise_witness :
  init demo_import demo_getenv config_no_section
  = (["There was en error trying to create the ''ibm_cf'' compute backend"],
     Raise (PyExc "KeyError" "'ibm_cf'")).
Proof.
  destruct (missing_configuration_entries_raise demo_import demo_getenv config_no_section)
    as (_ & _ & Hsection).
  apply (Hsection "ibm_cf" (mkBackendModule (Some ibm_cf_backend)) ibm_cf_backend);
    reflexivity.
Defined.

(** X24.  On an object [__init__] has returned, every method reaches the
    handler built by the configured backend, with the arguments as they were
    given ([timeout] by keyword for [create_runtime], ['all'] for a
    [list_runtimes] without argument): no call fails for want of a handler.
    [invoke], [build_and_create_runtime], [create_runtime], [list_runtimes]
    and [get_runtime_key] return what the handler returns; [build_runtime],
    [delete_runtime] and [delete_all_runtimes] return [None] whatever the
    handler returns, and [__del__] calls the [__del__] of the handler when it
    has one. *)
Theorem methods_reach_the_configured_backend
    {H B : Type} (import_module : string -> Res (BackendModule H))
    (getenv : string -> option string)
    (handle : H -> string -> list PyVal -> list (string * PyVal) -> B -> Res PyVal * B)
    (truthy has_del : H -> bool)
    (compute_config : ComputeConfig) (c : ComputeObj H) :
  snd (init import_module getenv compute_config) = Ok c ->
  exists name h,
    cfg_backend compute_config = Some name
    /\ resolve_backend import_module compute_config name = Ok h
    /\ (forall r m p, invoke handle c r m p = handle h "invoke" [r; m; p] [])
    /\ (forall r f m t,
          build_and_create_runtime handle c r f m t
          = handle h "build_and_create_runtime" [r; f; m; t] [])
    /\ (forall r m t,
          create_runtime handle c r m t = handle h "create_runtime" [r; m] [("timeout", t)])
    /\ list_runtimes handle c None = handle h "list_runtimes" [VStr "all"] []
    /\ (forall r, list_runtimes handle c (Some r) = handle h "list_runtimes" [r] [])
    /\ (forall r m, get_runtime_key handle c r m = handle h "get_runtime_key" [r; m] [])
    /\ (forall r f,
          build_runtime handle c r f = returns_none (handle h "build_runtime" [r; f] []))
    /\ (forall r m,
          delete_runtime handle c r m = returns_none (handle h "delete_runtime" [r; m] []))
    /\ delete_all_runtimes handle c = returns_none (handle h "delete_all_runtimes" [] [])
    /\ (forall r f m b v,
          fst (build_runtime handle c r f b) = Ok v
          \/ fst (delete_runtime handle c r m b) = Ok v
          \/ fst (delete_all_runtimes handle c b) = Ok v ->
          v = VNone)
    /\ del handle truthy has_del c
       = if truthy h && has_del h
         then returns_none (handle h "__del__" [] [])
         else fun b => (Ok VNone, b).
Proof.
  unfold init. intros Hinit.
  destruct (cfg_backend compute_config) as [name|]; [|discriminate].
  destruct (resolve_backend import_module compute_config name) as [h|e] eqn:Hres;
    [|by destruct (is_exception e)].
  injection Hinit as <-. exists name, h.
  unfold invoke, build_and_create_runtime, create_runtime, list_runtimes, get_runtime_key,
    build_runtime, delete_runtime, delete_all_runtimes, del, handler_call, returns_none.
  cbn [compute_handler]. repeat split; [done|].
  intros r f m b v Hv.
  destruct Hv as [Hv|[Hv|Hv]];
    match type of Hv with
    | context [handle ?h0 ?n ?a ?k b] => destruct (handle h0 n a k b) as [[v0|e0] b0]
    end; cbn in Hv; congruence.
Qed.

Lemma methods_reach_the_configured_backend_witness :
  exists name h,
    cfg_backend config_ibm_cf = Some name
    /\ resolve_backend demo_import config_ibm_cf name = Ok h
    /\ h = "ibm_cf@dev"
    /\ invoke demo_handle (mkCompute None config_ibm_cf "ibm_cf" (Some "ibm_cf@dev"))
              (VStr "python3.6") (VInt 256) VNone []
       = (Ok (VStr "ibm_cf@dev.invoke"), ["invoke"])
    /\ build_runtime demo_handle (mkCompute None config_ibm_cf "ibm_cf" (Some "ibm_cf@dev"))
                     (VStr "python3.6") (VStr "Dockerfile") []
       = (Ok VNone, ["build_runtime"]).
Proof.
  destruct (methods_reach_the_configured_backend demo_import demo_getenv demo_handle
              (fun _ => true) (fun _ => false) config_ibm_cf
              (mkCompute None config_ibm_cf "ibm_cf" (Some "ibm_cf@dev")) eq_refl)
    as (name & h & Hname & Hres & Hinvoke & _ & _ & _ & _ & _ & Hbuild & _).
  exists name, h. split; [done|]. split; [done|].
  injection Hname as <-. injection Hres as <-.
  split; [done|]. rewrite Hinvoke, Hbuild. done.
Defined.
End ComputeBehaviour.

(** ** job.py: the cleaning of jobs *)

Module CleanJobBehaviour.
Import CleanJob Eff EffFacts.

(** X27.  [clean_job] launches the cleaning process only once the pickled
    list of jobs has been written to the temporary file and the file has
    been closed: a run in which a process is launched at all (and so every
    run that returns) consists of exactly the creation of the file, the
    dump, the close and the launch, the command being the interpreter with
    [-c] and the dedented script filled in with the storage configuration,
    the flag and the name of that file.  When the file cannot be created,
    written or closed, nothing is launched. *)
Theorem cleaner_is_launched_after_the_jobs_are_written
    (sys_executable : string) (pickle_dumps : list (string * string) -> bytes)
    (str : PyVal -> string) (dedent : string -> string)
    (W : Type) (P : Platform W) (jobs_to_clean : list (string * string))
    (storage_config clean_cloudobjects : PyVal) (s : St W Effect) :
  let out :=
    clean_job sys_executable pickle_dumps str dedent jobs_to_clean storage_config
              clean_cloudobjects s in
  exists evs,
    trace (snd out) = trace s ++ evs
    /\ (Exists (fun ev => is_popen ev = true) evs \/ fst out = Ok tt ->
        exists w1 w2 w3,
          exec NamedTemporaryFile (world s) = (None, w1)
          /\ exec (Dump (pickle_dumps jobs_to_clean)) w1 = (None, w2)
          /\ exec Close w2 = (None, w3)
          /\ evs = [Done NamedTemporaryFile;
                    Done (Dump (pickle_dumps jobs_to_clean));
                    Done Close;
                    outcome exec
                      (Popen (sys_executable +:+ " -c " +:+ dquote
                              +:+ dedent (script_of (str storage_config)
                                                    (str clean_cloudobjects)
                                                    (temp_name w2))
                              +:+ dquote))
                      w3]).
Proof.
  intros out. subst out.
  unfold clean_job, cmdstr_of, call, bind, finally, perform, ask, outcome.
  assert (Hnone : forall evs : list (Event Effect),
             Forall (fun ev => is_popen ev = false) evs ->
             Exists (fun ev => is_popen ev = true) evs -> False).
  { intros evs Hall Hex. apply Exists_exists in Hex as (ev & Hin & Hev).
    rewrite Forall_forall in Hall. apply Hall in Hin. congruence. }
  destruct (exec NamedTemporaryFile (world s)) as [[x1|] w1] eqn:H1; cbn [world trace fst snd].
  { eexists. split; [reflexivity|]. intros [Hex|[=]].
    exfalso. revert Hex. apply Hnone. by repeat constructor. }
  destruct (exec (Dump _) w1) as [[x2|] w2] eqn:H2; cbn [world trace fst snd].
  { destruct (exec Close w2) as [[x3|] w3] eqn:H3; cbn [world trace fst snd];
      rewrite <- !app_assoc; (eexists; split; [reflexivity|]); intros [Hex|[=]];
      exfalso; revert Hex; apply Hnone; by repeat constructor. }
  destruct (exec Close w2) as [[x3|] w3] eqn:H3; cbn [world trace fst snd].
  { rewrite <- !app_assoc. eexists. split; [reflexivity|]. intros [Hex|[=]].
    exfalso. revert Hex. apply Hnone. by repeat constructor. }
  destruct (exec (Popen _) w3) as [[x4|] w4] eqn:H4; cbn [world trace fst snd];
    rewrite <- !app_assoc; (eexists; split; [reflexivity|]); intros _;
    exists w1, w2, w3; rewrite H4; done.
Qed.
End CleanJobBehaviour.
